(** * 3DCD training script: a shallow embedding of [train.py]

    The script trains a dual-head change-detection network and evaluates it.
    This development embeds the part of the script that is its own logic:
    [metric_mse], the epoch loop with its loss bookkeeping, the validation and
    test metric engine (confusion-matrix counts with the bare [except]
    fallback, MAE / RMSE / cRMSE aggregation), the two best-metric
    checkpoints, and the train / eval mode switches.

    Numbers.  Python is dynamically typed and the script mixes Python ints,
    numpy [int64] scalars and floating-point scalars; the three behave
    differently on overflow and on division by zero, so the embedding keeps
    them apart ([pynum]).  Floating-point values are idealised: a finite
    value is an exact rational, rounding is not modelled, but the exceptional
    values (infinities and NaN) that numpy produces on division by zero are
    kept ([xfloat]). *)

From Stdlib Require Import String Ascii ZArith QArith Qabs Bool Lia Lqa
  Permutation List.
Import ListNotations.

Local Open Scope Q_scope.

(** ** Extended rationals: the values of a floating-point scalar *)

Inductive xfloat : Type :=
| Fin (q : Q)
| PInf
| NInf
| NaN.

Definition is_finite (a : xfloat) : bool :=
  match a with Fin _ => true | _ => false end.

(** Sign of a value that is not NaN, as a comparison with zero. *)
Definition fsign (a : xfloat) : comparison :=
  match a with
  | Fin q => q ?= 0
  | PInf => Gt
  | NInf => Lt
  | NaN => Eq
  end.

Definition sign_mul (s t : comparison) : comparison :=
  match s, t with
  | Eq, _ | _, Eq => Eq
  | Gt, Gt | Lt, Lt => Gt
  | Gt, Lt | Lt, Gt => Lt
  end.

Definition inf_of_sign (s : comparison) : xfloat :=
  match s with Gt => PInf | Lt => NInf | Eq => NaN end.

Definition fopp (a : xfloat) : xfloat :=
  match a with
  | Fin q => Fin (- q)
  | PInf => NInf
  | NInf => PInf
  | NaN => NaN
  end.

Definition fadd (a b : xfloat) : xfloat :=
  match a, b with
  | NaN, _ | _, NaN => NaN
  | Fin x, Fin y => Fin (x + y)
  | PInf, NInf | NInf, PInf => NaN
  | PInf, _ | _, PInf => PInf
  | NInf, _ | _, NInf => NInf
  end.

Definition fsub (a b : xfloat) : xfloat := fadd a (fopp b).

Definition fmul (a b : xfloat) : xfloat :=
  match a, b with
  | NaN, _ | _, NaN => NaN
  | Fin x, Fin y => Fin (x * y)
  | _, _ => inf_of_sign (sign_mul (fsign a) (fsign b))
  end.

(** Division as numpy performs it on floating-point scalars: a zero divisor
    gives an infinity or NaN (with a warning), never an exception. *)
Definition fdiv (a b : xfloat) : xfloat :=
  match a, b with
  | NaN, _ | _, NaN => NaN
  | Fin x, Fin y =>
      if Qeq_bool y 0 then inf_of_sign (x ?= 0) else Fin (x / y)
  | Fin _, _ => Fin 0
  | _, Fin y =>
      inf_of_sign (sign_mul (fsign a) (if Qeq_bool y 0 then Gt else y ?= 0))
  | _, _ => NaN
  end.

Definition fabs (a : xfloat) : xfloat :=
  match a with
  | Fin q => Fin (Qabs q)
  | PInf | NInf => PInf
  | NaN => NaN
  end.

(** Comparisons: every comparison with NaN is false. *)
Definition flt (a b : xfloat) : bool :=
  match a, b with
  | NaN, _ | _, NaN => false
  | Fin x, Fin y => match x ?= y with Lt => true | _ => false end
  | NInf, NInf | PInf, _ | _, NInf => false
  | NInf, _ | _, PInf => true
  end.

Definition fmax (a b : xfloat) : xfloat :=
  match a, b with
  | NaN, _ | _, NaN => NaN
  | _, _ => if flt a b then b else a
  end.

Definition fnonzero (a : xfloat) : bool :=
  match a with
  | Fin q => negb (Qeq_bool q 0)
  | _ => true
  end.

Definition of_nat (n : nat) : xfloat := Fin (inject_Z (Z.of_nat n)).

(** Equality of values up to the representation of the rational. *)
Definition feq (a b : xfloat) : Prop :=
  match a, b with
  | Fin x, Fin y => x == y
  | PInf, PInf | NInf, NInf | NaN, NaN => True
  | _, _ => False
  end.

(** ** Python and numpy scalars *)

Inductive exn : Type :=
| ZeroDivisionError
| ValueError
| NameError (name : string).

Inductive result (A : Type) : Type :=
| Ok (a : A)
| Raise (e : exn).
Arguments Ok {A} a.
Arguments Raise {A} e.

(** [PyInt]: a Python int (unbounded).  [NpInt]: a numpy [int64] scalar.
    [Flt]: a Python float or numpy floating scalar. *)
Inductive pynum : Type :=
| PyInt (z : Z)
| NpInt (z : Z)
| Flt (f : xfloat).

Definition wrap64 (z : Z) : Z :=
  ((z + 2 ^ 63) mod 2 ^ 64 - 2 ^ 63)%Z.

Definition to_float (a : pynum) : xfloat :=
  match a with
  | PyInt z | NpInt z => Fin (inject_Z z)
  | Flt f => f
  end.

Definition pyadd (a b : pynum) : pynum :=
  match a, b with
  | PyInt x, PyInt y => PyInt (x + y)
  | Flt _, _ | _, Flt _ => Flt (fadd (to_float a) (to_float b))
  | NpInt x, PyInt y | PyInt x, NpInt y | NpInt x, NpInt y =>
      NpInt (wrap64 (x + y))
  end.

Definition pymul (a b : pynum) : pynum :=
  match a, b with
  | PyInt x, PyInt y => PyInt (x * y)
  | Flt _, _ | _, Flt _ => Flt (fmul (to_float a) (to_float b))
  | NpInt x, PyInt y | PyInt x, NpInt y | NpInt x, NpInt y =>
      NpInt (wrap64 (x * y))
  end.

(** True division [a / b].  Two Python ints raise [ZeroDivisionError] on a
    zero divisor; as soon as one operand is a numpy scalar the division is
    numpy's and yields an infinity or NaN instead. *)
Definition pytruediv (a b : pynum) : result pynum :=
  match a, b with
  | PyInt x, PyInt y =>
      if (y =? 0)%Z then Raise ZeroDivisionError
      else Ok (Flt (Fin (inject_Z x / inject_Z y)))
  | _, _ => Ok (Flt (fdiv (to_float a) (to_float b)))
  end.

Definition pylt (a b : pynum) : bool := flt (to_float a) (to_float b).
Definition pygt (a b : pynum) : bool := flt (to_float b) (to_float a).

(** Order on scalars used to state monotonicity: strictly below, or the
    same value. *)
Definition pyle (a b : pynum) : Prop := pylt a b = true \/ a = b.

(** ** Computations that can raise *)

Definition bindR {A B} (r : result A) (k : A -> result B) : result B :=
  match r with
  | Ok a => k a
  | Raise e => Raise e
  end.

Declare Scope result_scope.
Delimit Scope result_scope with result.
Notation "x <- c ;; k" := (bindR c (fun x => k))
  (at level 61, c at next level, right associativity) : result_scope.

Definition is_ok {A} (r : result A) : bool :=
  match r with Ok _ => true | Raise _ => false end.

(** ** numpy arrays, flattened *)

Definition array : Type := list xfloat.

Fixpoint zip_with {A B C} (f : A -> B -> C) (xs : list A) (ys : list B)
  : list C :=
  match xs, ys with
  | x :: xs', y :: ys' => f x y :: zip_with f xs' ys'
  | _, _ => []
  end.

(** Elementwise binary operation on two one-dimensional arrays with numpy's
    broadcasting: equal lengths, or one operand of length one; any other
    pair of shapes raises. *)
Definition np_elementwise (f : xfloat -> xfloat -> xfloat) (xs ys : array)
  : result array :=
  if (length xs =? length ys)%nat then Ok (zip_with f xs ys)
  else match xs, ys with
       | [x], _ => Ok (map (f x) ys)
       | _, [y] => Ok (map (fun x => f x y) xs)
       | _, _ => Raise ValueError
       end.

Definition np_sum (a : array) : xfloat := fold_left fadd a (Fin 0).

Definition np_mean (a : array) : xfloat :=
  fdiv (np_sum a) (of_nat (length a)).

Definition np_count_nonzero (a : array) : Z :=
  Z.of_nat (length (filter fnonzero a)).

Definition sq_err (a b : xfloat) : xfloat :=
  let d := fsub a b in fmul d d.

(** [metric_mse], lines 45-51. *)
Definition metric_mse (inputs targets : array) (exclude_zeros : bool)
  : result pynum :=
  (loss <- np_elementwise sq_err inputs targets ;;
   if exclude_zeros then
     let n_pixels := PyInt (np_count_nonzero targets) in
     pytruediv (Flt (np_sum loss)) n_pixels
   else
     Ok (Flt (np_mean loss)))%result.

(** ** scikit-learn metrics used by the script

    These functions belong to the library, not to the script; they are
    written here as the library documents them, exceptions included. *)

(** Input validation shared by the regression metrics: both arrays have the
    same, non-zero number of samples and hold only finite values. *)
Definition check_reg_targets (y_true y_pred : array) : result unit :=
  if negb (length y_true =? length y_pred)%nat then Raise ValueError
  else if (length y_true =? 0)%nat then Raise ValueError
  else if negb (forallb is_finite y_true && forallb is_finite y_pred)
       then Raise ValueError
  else Ok tt.

Definition abs_err (a b : xfloat) : xfloat := fabs (fsub a b).

Definition mean_absolute_error (y_true y_pred : array) : result pynum :=
  (_ <- check_reg_targets y_true y_pred ;;
   Ok (Flt (np_mean (zip_with abs_err y_pred y_true))))%result.

Definition np_max (a : array) : result xfloat :=
  match a with
  | [] => Raise ValueError
  | x :: rest => Ok (fold_left fmax rest x)
  end.

Definition max_error (y_true y_pred : array) : result pynum :=
  (_ <- check_reg_targets y_true y_pred ;;
   m <- np_max (zip_with abs_err y_true y_pred) ;;
   Ok (Flt m))%result.

(** Sorted list of the distinct labels of [l]. *)
Fixpoint insert_label (z : Z) (l : list Z) : list Z :=
  match l with
  | [] => [z]
  | y :: l' =>
      if (z <? y)%Z then z :: l
      else if (z =? y)%Z then l
      else y :: insert_label z l'
  end.

Definition unique_labels (l : list Z) : list Z :=
  fold_right insert_label [] l.

Definition count_pairs (y_true y_pred : list Z) (a b : Z) : Z :=
  Z.of_nat (length (filter (fun p => (fst p =? a)%Z && (snd p =? b)%Z)
                           (combine y_true y_pred))).

(** [metrics.confusion_matrix(y_true, y_pred).ravel()]: one row per label
    present in either array, in sorted order, rows of true labels and
    columns of predicted ones; the entries are [int64] counts. *)
Definition confusion_matrix_ravel (y_true y_pred : list Z)
  : result (list pynum) :=
  if negb (length y_true =? length y_pred)%nat then Raise ValueError
  else
    let labels := unique_labels (y_true ++ y_pred) in
    match labels with
    | [] => Raise ValueError
    | _ =>
        Ok (flat_map
              (fun a => map (fun b => NpInt (count_pairs y_true y_pred a b))
                            labels)
              labels)
    end.

(** Tuple unpacking [tn, fp, fn, tp = ...]: exactly four values. *)
Definition unpack4 {A} (l : list A) : result (A * A * A * A) :=
  match l with
  | [a; b; c; d] => Ok (a, b, c, d)
  | _ => Raise ValueError
  end.

Definition confusion_counts (y_true y_pred : list Z)
  : result (pynum * pynum * pynum * pynum) :=
  (m <- confusion_matrix_ravel y_true y_pred ;; unpack4 m)%result.

(** ** Target normalisation, lines 209, 252 and 324

    [min_scale] and [max_scale] are configuration scalars; the tensors hold
    floating-point values, so a division by [max_scale - min_scale = 0]
    yields infinities or NaN elementwise. *)

Definition normalize (min_scale max_scale : Q) (x : xfloat) : xfloat :=
  fsub (fdiv (fmul (Fin 2) (fsub x (Fin min_scale)))
             (Fin (max_scale - min_scale)))
       (Fin 1).

(** Validation: [((out3d.ravel()+1)/2)*(max_scale-min_scale)+min_scale]. *)
Definition denormalize_valid (min_scale max_scale : Q) (y : xfloat) : xfloat :=
  fadd (fmul (fdiv (fadd y (Fin 1)) (Fin 2)) (Fin (max_scale - min_scale)))
       (Fin min_scale).

(** Test: [(out3d + 1)*(max_scale - min_scale)/2 + min_scale]. *)
Definition denormalize_test (min_scale max_scale : Q) (y : xfloat) : xfloat :=
  fadd (fdiv (fmul (fadd y (Fin 1)) (Fin (max_scale - min_scale))) (Fin 2))
       (Fin min_scale).

(** ** Name resolution at module level

    Every name the module binds (imports, definitions, assignments and loop
    targets).  A name that is neither here nor a builtin raises [NameError]
    when it is evaluated. *)

Local Open Scope string_scope.

Definition module_names : list string :=
  [ "print_function"; "np"; "json"; "time"; "sys"; "datetime"; "pathlib";
    "shutil"; "yaml"; "ArgumentParser"; "os"; "partial"; "metrics"; "tqdm";
    "trange"; "models"; "torch"; "nn"; "cudnn"; "F"; "DataLoader"; "optim";
    "SUNet18"; "ChangeFormerV6"; "SiamUnet_conc"; "Unet"; "MTBIT"; "ResNet18";
    "Dataset"; "get_validation_augmentations"; "get_training_augmentations";
    "choose_criterion3d"; "choose_criterion2d"; "set_optimizer";
    "set_scheduler"; "pretrain_strategy"; "get_args"; "metric_mse"; "args";
    "device"; "cuda"; "num_GPU"; "manual_seed"; "config_name"; "config_path";
    "default_dst_dir"; "out_file"; "full_config_path"; "f"; "exp_config";
    "stats_file"; "x_train_dir"; "x_valid_dir"; "x_test_dir"; "batch_size";
    "lweight2d"; "lweight3d"; "weights2d"; "augmentation"; "min_scale";
    "max_scale"; "mean"; "std"; "train_transform"; "valid_transform";
    "train_dataset"; "valid_dataset"; "test_dataset"; "train_loader";
    "valid_loader"; "test_loader"; "name_3dloss"; "exclude_zeros";
    "criterion3d"; "class_weights2d"; "name_2dloss"; "criterion2d"; "nepochs";
    "lr"; "model"; "classes"; "pretrain"; "arch"; "CHECKPOINTS"; "encoder";
    "pretrained"; "_"; "net"; "optimizer"; "lr_adjust"; "res_cp"; "start";
    "best2dmetric"; "best3dmetric"; "epoch"; "tot_2d_loss"; "tot_3d_loss";
    "param_group"; "t1"; "t2"; "mask2d"; "mask3d"; "out2d"; "out3d";
    "loss2d"; "loss3d"; "loss"; "epoch_2d_loss"; "epoch_3d_loss";
    "epoch_loss"; "TN"; "FP"; "FN"; "TP"; "mean_mae"; "rmse1"; "rmse2";
    "tn"; "fp"; "fn"; "tp"; "mean_ae"; "s_rmse1"; "s_rmse2"; "max_error";
    "mask_max"; "F1"; "IoU"; "RMSE1"; "RMSE2"; "stats"; "end" ].

Definition lookup_name (n : string) : result unit :=
  if existsb (String.eqb n) module_names then Ok tt else Raise (NameError n).

(** ** Iteration *)

(** [range(lo, hi)]. *)
Definition py_range (lo hi : Z) : list Z :=
  map (fun i => (lo + Z.of_nat i)%Z) (seq 0 (Z.to_nat (hi - lo))).

(** Batches of a [DataLoader] without [drop_last]: consecutive groups of
    [n] samples, the last one possibly shorter.  The recursion is bounded by
    the number of samples, which is enough for every [n >= 1]
    ([chunks_concat] below); the library refuses a batch size below one
    when the loader is built, before the loop is reached. *)
Fixpoint chunks_fuel {A} (fuel n : nat) (l : list A) : list (list A) :=
  match fuel with
  | O => []
  | S fuel' =>
      match l with
      | [] => []
      | _ => firstn n l :: chunks_fuel fuel' n (skipn n l)
      end
  end.

Definition chunks {A} (n : nat) (l : list A) : list (list A) :=
  chunks_fuel (List.length l) n l.

(** ** Stateful computations that can raise

    A raised exception ends the script; the effects performed before it
    remain, so the state is returned in both cases. *)

Definition M (S A : Type) : Type := S -> result A * S.

Definition ret {S A} (a : A) : M S A := fun s => (Ok a, s).

Definition bind {S A B} (m : M S A) (k : A -> M S B) : M S B :=
  fun s =>
    match m s with
    | (Ok a, s') => k a s'
    | (Raise e, s') => (Raise e, s')
    end.

Definition lift {S A} (r : result A) : M S A := fun s => (r, s).

Definition get {S} : M S S := fun s => (Ok s, s).

Definition modify {S} (f : S -> S) : M S unit := fun s => (Ok tt, f s).

Declare Scope run_scope.
Delimit Scope run_scope with run.
Notation "x <- c ;; k" := (bind c (fun x => k))
  (at level 61, c at next level, right associativity) : run_scope.
Notation "c ;;; k" := (bind c (fun _ => k))
  (at level 61, right associativity) : run_scope.

(** [for x in l: body x]. *)
Fixpoint for_each {S A} (l : list A) (body : A -> M S unit) : M S unit :=
  match l with
  | [] => ret tt
  | x :: l' => bind (body x) (fun _ => for_each l' body)
  end.

(** A loop that updates local variables [acc] on every iteration. *)
Fixpoint for_acc {S A B} (l : list A) (acc : B) (body : B -> A -> M S B)
  : M S B :=
  match l with
  | [] => ret acc
  | x :: l' => bind (body acc x) (fun acc' => for_acc l' acc' body)
  end.

(** ** The collaborators of the loop

    The network, the loss functions, the optimizer with its scheduler, the
    serialisation of the parameters and the square root are outside the
    script; the loop only relies on their call signatures.  They are
    taken to return: a failure inside the network, the losses, the
    optimizer, [torch.save] or the serialisation of a record ends the run
    at that call and is outside this development. *)

Class Collaborators : Type := {
  img : Type;
  logits : Type;
  net_state : Type;
  ckpt : Type;
  (** [net(t1, t2)]: depends on the parameters and on the mode flag. *)
  forward : net_state -> bool -> list (img * img) -> logits * array;
  (** [out2d.argmax(dim=1)], flattened. *)
  argmax : logits -> list Z;
  criterion2d : logits -> list Z -> xfloat;
  criterion3d : array -> array -> xfloat;
  (** [optimizer.zero_grad(); loss.backward(); optimizer.step()]: what a
      training iteration does to the parameters and buffers, given the
      mode, the images, the two targets and the combined loss. *)
  optimizer_step :
    net_state -> bool -> list (img * img) -> list Z -> array -> xfloat ->
    net_state;
  lr_adjust_step : net_state -> net_state;
  state_dict : net_state -> ckpt;
  load_state_dict : net_state -> ckpt -> net_state;
  sqrtQ : Q -> Q
}.

Inductive phase : Type :=
| Train (epoch : Z)
| Valid (epoch : Z)
| Test.

(** The record appended to the statistics log after an epoch. *)
Record epoch_stats : Type := {
  st_epoch : Z;
  st_Loss2D : pynum;
  st_Loss3D : pynum;
  st_Loss : pynum;
  st_RMSE : pynum;
  st_cRMSE : pynum;
  st_F1Score : pynum;
  st_IoU : pynum
}.

Record test_stats : Type := {
  ts_MeanAbsoluteError : pynum;
  ts_RMSE : pynum;
  ts_cRMSE : pynum;
  ts_F1Score : pynum;
  ts_IoU : pynum
}.

(** Observable actions, in the order they happen.  Console prints of
    formatted values have no influence on the control flow and are left
    out, except the messages below. *)
Inductive event : Type :=
| EvNetTrain
| EvNetEval
| EvForward (ph : phase) (training : bool)
| EvPrint (msg : string)
| EvSave (file : string)
| EvStats (r : epoch_stats)
| EvTestStats (r : test_stats).

Section Script.

Context {C : Collaborators}.

Record sample : Type := {
  s_t1 : img;
  s_t2 : img;
  s_mask2d : list Z;
  s_mask3d : array
}.

Definition batch : Type := list sample.

Definition batch_images (b : batch) : list (img * img) :=
  map (fun s => (s_t1 s, s_t2 s)) b.

(** [mask2d.ravel()] and [mask3d.ravel()] of the collated batch. *)
Definition batch_mask2d (b : batch) : list Z := flat_map s_mask2d b.
Definition batch_mask3d (b : batch) : array := flat_map s_mask3d b.

Record config : Type := {
  nepochs : Z;
  batch_size : Z;
  lweight2d : Q;
  lweight3d : Q;
  min_scale : Q;
  max_scale : Q;
  verbose : bool;
  res_cp : string;
  train_dataset : list sample;
  valid_dataset : list sample;
  test_dataset : list sample;
  (** Order in which the shuffling training loader yields the samples in
      its successive passes. *)
  shuffle : Z -> list sample -> list sample
}.

(** The state of the run.  [files] holds the checkpoint files of the output
    directory, by the name that follows [out_file] in [torch.save] and
    [torch.load]; the statistics file [stats.txt] is not among them: what
    the script prints to it are the observations [EvStats] and
    [EvTestStats] of the trace. *)
Record state : Type := {
  net : net_state;
  training : bool;
  best2dmetric : pynum;
  best3dmetric : pynum;
  files : string -> option ckpt;
  trace : list event
}.

(** Appending an observation to the trace. *)
Definition log (e : event) (s : state) : state :=
  {| net := net s; training := training s;
     best2dmetric := best2dmetric s; best3dmetric := best3dmetric s;
     files := files s; trace := (trace s ++ [e])%list |}.

Definition with_net (n : net_state) (s : state) : state :=
  {| net := n; training := training s;
     best2dmetric := best2dmetric s; best3dmetric := best3dmetric s;
     files := files s; trace := trace s |}.

Definition with_training (b : bool) (s : state) : state :=
  {| net := net s; training := b;
     best2dmetric := best2dmetric s; best3dmetric := best3dmetric s;
     files := files s; trace := trace s |}.

Definition with_best2d (v : pynum) (s : state) : state :=
  {| net := net s; training := training s;
     best2dmetric := v; best3dmetric := best3dmetric s;
     files := files s; trace := trace s |}.

Definition with_best3d (v : pynum) (s : state) : state :=
  {| net := net s; training := training s;
     best2dmetric := best2dmetric s; best3dmetric := v;
     files := files s; trace := trace s |}.

(** Writing the current parameters to the file [name]. *)
Definition with_file (name : string) (s : state) : state :=
  {| net := net s; training := training s;
     best2dmetric := best2dmetric s; best3dmetric := best3dmetric s;
     files := (fun n => if String.eqb n name
                        then Some (state_dict (net s))
                        else files s n);
     trace := trace s |}.

Definition emit (e : event) : M state unit := modify (log e).
Definition set_net (n : net_state) : M state unit := modify (with_net n).
Definition set_training (b : bool) : M state unit := modify (with_training b).
Definition set_best2d (v : pynum) : M state unit := modify (with_best2d v).
Definition set_best3d (v : pynum) : M state unit := modify (with_best3d v).

(** [torch.save(net.state_dict(), out_file + '/' + name)]. *)
Definition torch_save (name : string) : M state unit :=
  bind (modify (with_file name)) (fun _ => emit (EvSave name)).

Definition net_train : M state unit :=
  bind (set_training true) (fun _ => emit EvNetTrain).

Definition net_eval : M state unit :=
  bind (set_training false) (fun _ => emit EvNetEval).

(** [net(t1, t2)] on the images of a batch, in the current mode. *)
Definition net_call (ph : phase) (b : batch) : M state (logits * array) :=
  bind get (fun s =>
  bind (emit (EvForward ph (training s))) (fun _ =>
  ret (forward (net s) (training s) (batch_images b)))).

(** *** The metric engine, lines 244-272 and 315-349 *)

Definition counts : Type := (pynum * pynum * pynum * pynum)%type.

Definition zero_counts : counts := (PyInt 0, PyInt 0, PyInt 0, PyInt 0).

(** The [try] / bare [except] around the confusion matrix. *)
Definition try_confusion (y_true y_pred : list Z) : M state counts :=
  match confusion_counts y_true y_pred with
  | Ok c => ret c
  | Raise _ => bind (emit (EvPrint "Only 0 mask")) (fun _ => ret zero_counts)
  end.

(** The two [print]s of the verbose branch, lines 338-341; an f-string
    evaluates the names it mentions from left to right. *)
Definition verbose_report : M state unit :=
  (emit (EvPrint "") ;;;
   for_each ["tn"; "fn"; "tp"; "fp"] (fun n => lift (lookup_name n)) ;;;
   emit (EvPrint "2D Val") ;;;
   for_each ["mean_ae"; "s_rmse"; "max_error"; "mask_max"]
            (fun n => lift (lookup_name n)) ;;;
   emit (EvPrint "3D Val"))%run.

(** The values measured on one batch. *)
Record batch_scores : Type := {
  sc_tn : pynum;
  sc_fp : pynum;
  sc_fn : pynum;
  sc_tp : pynum;
  sc_mean_ae : pynum;
  sc_s_rmse1 : pynum;
  sc_s_rmse2 : pynum
}.

(** What a validation or test iteration measures once the counts of the
    batch are known, lines 260-264 and 332-341; [verb] is [args.verbose] in
    the test loop, and [false] in the validation loop, which has no such
    branch. *)
Definition score_batch (verb : bool) (mask3d out3d : array) (c : counts)
  : M state batch_scores :=
  (let '(tn, fp, fn, tp) := c in
   mean_ae <- lift (mean_absolute_error mask3d out3d) ;;
   s_rmse1 <- lift (metric_mse out3d mask3d false) ;;
   s_rmse2 <- lift (metric_mse out3d mask3d true) ;;
   _ <- lift (max_error mask3d out3d) ;;
   _ <- lift (np_max (map fabs mask3d)) ;;
   (if verb then verbose_report else ret tt) ;;;
   ret {| sc_tn := tn; sc_fp := fp; sc_fn := fn; sc_tp := tp;
          sc_mean_ae := mean_ae; sc_s_rmse1 := s_rmse1;
          sc_s_rmse2 := s_rmse2 |})%run.

(** The measurements of one batch: forward pass, arg-max and inverse
    transform, counts, 3D errors; [denorm] is the phase's inverse
    transform. *)
Definition batch_values (ph : phase) (denorm : xfloat -> xfloat)
    (verb : bool) (b : batch) : M state batch_scores :=
  (o <- net_call ph b ;;
   let out2d := argmax (fst o) in
   let out3d := map denorm (snd o) in
   c <- try_confusion (batch_mask2d b) out2d ;;
   score_batch verb (batch_mask3d b) out3d c)%run.

(** Running totals of a validation or test phase. *)
Record accum : Type := {
  a_TN : pynum;
  a_FP : pynum;
  a_FN : pynum;
  a_TP : pynum;
  a_mean_mae : pynum;
  a_rmse1 : pynum;
  a_rmse2 : pynum
}.

Definition accum0 : accum :=
  {| a_TN := PyInt 0; a_FP := PyInt 0; a_FN := PyInt 0; a_TP := PyInt 0;
     a_mean_mae := PyInt 0; a_rmse1 := PyInt 0; a_rmse2 := PyInt 0 |}.

(** The seven [+=] of lines 266-272 and 343-349. *)
Definition accumulate (acc : accum) (sc : batch_scores) : accum :=
  {| a_TN := pyadd (a_TN acc) (sc_tn sc);
     a_FP := pyadd (a_FP acc) (sc_fp sc);
     a_FN := pyadd (a_FN acc) (sc_fn sc);
     a_TP := pyadd (a_TP acc) (sc_tp sc);
     a_mean_mae := pyadd (a_mean_mae acc) (sc_mean_ae sc);
     a_rmse1 := pyadd (a_rmse1 acc) (sc_s_rmse1 sc);
     a_rmse2 := pyadd (a_rmse2 acc) (sc_s_rmse2 sc) |}.

(** One iteration of the validation or test loop. *)
Definition metric_batch (ph : phase) (denorm : xfloat -> xfloat)
    (verb : bool) (acc : accum) (b : batch) : M state accum :=
  (sc <- batch_values ph denorm verb b ;;
   ret (accumulate acc sc))%run.

Record phase_metrics : Type := {
  m_F1 : pynum;
  m_IoU : pynum;
  m_mean_mae : pynum;
  m_RMSE1 : pynum;
  m_RMSE2 : pynum
}.

(** [np.sqrt]. *)
Definition np_sqrt (a : pynum) : pynum :=
  Flt (match to_float a with
       | Fin q => if Qle_bool 0 q then Fin (sqrtQ q) else NaN
       | PInf => PInf
       | NInf | NaN => NaN
       end).

Definition py_len {A} (l : list A) : pynum := PyInt (Z.of_nat (List.length l)).

(** The phase-end formulas, lines 274-278 and 351-355; [n] is
    [len(loader)]. *)
Definition phase_end (acc : accum) (n : pynum) : result phase_metrics :=
  (F1 <- pytruediv (pymul (PyInt 2) (a_TP acc))
                   (pyadd (pyadd (pymul (PyInt 2) (a_TP acc)) (a_FN acc))
                          (a_FP acc)) ;;
   IoU <- pytruediv (a_TP acc)
                    (pyadd (pyadd (a_TP acc) (a_FN acc)) (a_FP acc)) ;;
   mean_mae <- pytruediv (a_mean_mae acc) n ;;
   r1 <- pytruediv (a_rmse1 acc) n ;;
   r2 <- pytruediv (a_rmse2 acc) n ;;
   Ok {| m_F1 := F1; m_IoU := IoU; m_mean_mae := mean_mae;
         m_RMSE1 := np_sqrt r1; m_RMSE2 := np_sqrt r2 |})%result.

(** A whole pass of the metric engine over a loader. *)
Definition metric_phase (ph : phase) (denorm : xfloat -> xfloat)
    (verb : bool) (loader : list batch) : M state phase_metrics :=
  (acc <- for_acc loader accum0 (metric_batch ph denorm verb) ;;
   lift (phase_end acc (py_len loader)))%run.

(** *** The epoch loop, lines 191-293 *)

Variable cfg : config.

(** The loaders of lines 132-134, as they yield their batches once they
    are built; what building the training loader requires of the batch size
    and of the dataset is [loader_built] below. *)
Definition train_loader (pass : Z) : list batch :=
  chunks (Z.to_nat (batch_size cfg)) (shuffle cfg pass (train_dataset cfg)).
Definition valid_loader : list batch := chunks 1 (valid_dataset cfg).
Definition test_loader : list batch := chunks 1 (test_dataset cfg).

(** One training step, lines 205-220: normalisation of the target, forward
    pass, the two losses, their weighted sum, and the optimizer update.  It
    yields [loss2d] and [loss3d]. *)
Definition train_step (epoch : Z) (b : batch) : M state (xfloat * xfloat) :=
  (let mask3d := map (normalize (min_scale cfg) (max_scale cfg))
                     (batch_mask3d b) in
   o <- net_call (Train epoch) b ;;
   let loss2d := criterion2d (fst o) (batch_mask2d b) in
   let loss3d := criterion3d (snd o) mask3d in
   let loss := fadd (fmul (Fin (lweight2d cfg)) loss2d)
                    (fmul (Fin (lweight3d cfg)) loss3d) in
   s <- get ;;
   set_net (optimizer_step (net s) (training s) (batch_images b)
                           (batch_mask2d b) mask3d loss) ;;;
   ret (loss2d, loss3d))%run.

(** Lines 222-223: the two running totals [tot_2d_loss] and [tot_3d_loss]
    grow by the loss of the batch times [batch_size], the configured batch
    size. *)
Definition add_losses (tot : pynum * pynum) (ls : xfloat * xfloat)
  : pynum * pynum :=
  (pyadd (fst tot) (pymul (Flt (fst ls)) (PyInt (batch_size cfg))),
   pyadd (snd tot) (pymul (Flt (snd ls)) (PyInt (batch_size cfg)))).

(** One iteration of the training loop, lines 203-223. *)
Definition train_batch (epoch : Z) (tot : pynum * pynum) (b : batch)
  : M state (pynum * pynum) :=
  (ls <- train_step epoch b ;; ret (add_losses tot ls))%run.

Record epoch_losses : Type := {
  epoch_2d_loss : pynum;
  epoch_3d_loss : pynum;
  epoch_loss : pynum
}.

(** The training phase of an epoch, lines 197-231. *)
Definition train_phase (epoch : Z) : M state epoch_losses :=
  (tot <- for_acc (train_loader epoch) (PyInt 0, PyInt 0) (train_batch epoch) ;;
   e2d <- lift (pytruediv (fst tot) (py_len (train_dataset cfg))) ;;
   e3d <- lift (pytruediv (snd tot) (py_len (train_dataset cfg))) ;;
   let el := pyadd (pymul (Flt (Fin (lweight2d cfg))) e2d)
                   (pymul (Flt (Fin (lweight3d cfg))) e3d) in
   s <- get ;;
   set_net (lr_adjust_step (net s)) ;;;
   ret {| epoch_2d_loss := e2d; epoch_3d_loss := e3d; epoch_loss := el |})%run.

(** The validation phase, lines 233-280. *)
Definition validation_phase (epoch : Z) : M state phase_metrics :=
  (net_eval ;;;
   metric_phase (Valid epoch)
                (denormalize_valid (min_scale cfg) (max_scale cfg))
                false valid_loader)%run.

(** The two checkpoint decisions, lines 282-290. *)
Definition checkpoint_2d (F1 : pynum) : M state unit :=
  (s <- get ;;
   if pygt F1 (best2dmetric s) then
     set_best2d F1 ;;;
     torch_save "2dbestnet.pth" ;;;
     emit (EvPrint "Best 2D model saved!")
   else ret tt)%run.

Definition checkpoint_3d (RMSE2 : pynum) : M state unit :=
  (s <- get ;;
   if pylt RMSE2 (best3dmetric s) then
     set_best3d RMSE2 ;;;
     torch_save "3dbestnet.pth" ;;;
     emit (EvPrint "Best 3D model saved!")
   else ret tt)%run.

Definition checkpoint_decision (m : phase_metrics) : M state unit :=
  (checkpoint_2d (m_F1 m) ;;; checkpoint_3d (m_RMSE2 m))%run.

(** The [stats] dictionaries of lines 292 and 360. *)
Definition epoch_record (epoch : Z) (l : epoch_losses) (m : phase_metrics)
  : epoch_stats :=
  {| st_epoch := epoch;
     st_Loss2D := epoch_2d_loss l;
     st_Loss3D := epoch_3d_loss l;
     st_Loss := epoch_loss l;
     st_RMSE := m_RMSE1 m;
     st_cRMSE := m_RMSE2 m;
     st_F1Score := pymul (m_F1 m) (PyInt 100);
     st_IoU := pymul (m_IoU m) (PyInt 100) |}.

Definition test_record (m : phase_metrics) : test_stats :=
  {| ts_MeanAbsoluteError := m_mean_mae m;
     ts_RMSE := m_RMSE1 m;
     ts_cRMSE := m_RMSE2 m;
     ts_F1Score := pymul (m_F1 m) (PyInt 100);
     ts_IoU := pymul (m_IoU m) (PyInt 100) |}.

(** The body of the epoch loop. *)
Definition epoch_body (epoch : Z) : M state unit :=
  (l <- train_phase epoch ;;
   m <- validation_phase epoch ;;
   checkpoint_decision m ;;;
   emit (EvStats (epoch_record epoch l m)))%run.

(** Lines 191-293: [best2dmetric = 0], [best3dmetric = 1000000],
    [net.train()], then [for epoch in range(1, nepochs)]. *)
Definition training_loop : M state unit :=
  (set_best2d (PyInt 0) ;;;
   set_best3d (PyInt 1000000) ;;;
   net_train ;;;
   for_each (py_range 1 (nepochs cfg)) epoch_body)%run.

(** *** The final test phase, lines 301-361 *)

(** Lines 301-303: the checkpoint named by the restore tag is loaded when
    the file exists. *)
Definition restored (s : state) : state :=
  match files s (res_cp cfg ++ "bestnet.pth") with
  | Some c => with_net (load_state_dict (net s) c) s
  | None => s
  end.

Definition restore_checkpoint : M state unit := modify restored.

Definition test_phase : M state phase_metrics :=
  (restore_checkpoint ;;;
   net_eval ;;;
   m <- metric_phase Test
                     (denormalize_test (min_scale cfg) (max_scale cfg))
                     (verbose cfg) test_loader ;;
   emit (EvTestStats (test_record m)) ;;;
   ret m)%run.

(** The script from line 191 to its end. *)
Definition script : M state phase_metrics :=
  (training_loop ;;; test_phase)%run.

(** The state in which line 191 is reached: the network as constructed (and
    possibly restored), the files already present in the output directory,
    nothing observed yet.  A freshly constructed module is in training
    mode. *)
Definition initial_state (n : net_state) (present : string -> option ckpt)
  : state :=
  {| net := n; training := true;
     best2dmetric := PyInt 0; best3dmetric := PyInt 1000000;
     files := present; trace := [] |}.

End Script.

(** ** Reference formulations, in the words of the specification *)

(** Sum of a sequence of scalars, starting from zero. *)
Definition pysum (l : list pynum) : pynum := fold_left pyadd l (PyInt 0).

Definition Qsum (l : list Q) : Q := fold_left Qplus l 0.

(** Mean squared error of two sequences of the same length. *)
Definition mean_squared_error (xs ys : list Q) : Q :=
  Qsum (zip_with (fun x y => (x - y) * (x - y)) xs ys)
  / inject_Z (Z.of_nat (List.length xs)).

(** Dataset-size-weighted average of per-batch losses: every loss is scaled
    by the number of samples of its batch, the products are summed and the
    sum is divided by the number of samples of the dataset. *)
Definition weighted_average (losses : list (xfloat * nat)) (n_samples : nat)
  : result pynum :=
  pytruediv
    (pysum (map (fun p => pymul (Flt (fst p)) (PyInt (Z.of_nat (snd p))))
                losses))
    (PyInt (Z.of_nat n_samples)).

Section Reference.

Context {C : Collaborators}.

(** The phase-end metrics from the per-batch values: sums of the counts and
    of the per-batch errors, then [F1 = 2*TP/(2*TP+FN+FP)],
    [IoU = TP/(TP+FN+FP)], [meanMAE = sum(MAE)/num_batches],
    [RMSE = sqrt(sum(mse)/num_batches)] and
    [cRMSE = sqrt(sum(mse_excl_zero)/num_batches)]. *)
Definition closed_form_metrics (scs : list batch_scores)
  : result phase_metrics :=
  (let TP := pysum (map sc_tp scs) in
   let FN := pysum (map sc_fn scs) in
   let FP := pysum (map sc_fp scs) in
   let num_batches := py_len scs in
   F1 <- pytruediv (pymul (PyInt 2) TP)
                   (pyadd (pyadd (pymul (PyInt 2) TP) FN) FP) ;;
   IoU <- pytruediv TP (pyadd (pyadd TP FN) FP) ;;
   meanMAE <- pytruediv (pysum (map sc_mean_ae scs)) num_batches ;;
   mse <- pytruediv (pysum (map sc_s_rmse1 scs)) num_batches ;;
   cmse <- pytruediv (pysum (map sc_s_rmse2 scs)) num_batches ;;
   Ok {| m_F1 := F1; m_IoU := IoU; m_mean_mae := meanMAE;
         m_RMSE1 := np_sqrt mse; m_RMSE2 := np_sqrt cmse |})%result.

End Reference.

(** ** Notions used to state the properties *)

(** A scalar that is a number: not NaN and not an infinity. *)
Definition is_number (r : result pynum) : bool :=
  match r with
  | Ok (Flt f) => is_finite f
  | Ok _ => true
  | Raise _ => false
  end.

(** Average in which every loss is scaled by one fixed factor [k]. *)
Definition scaled_average (k : Z) (losses : list xfloat) (n_samples : nat)
  : result pynum :=
  pytruediv (pysum (map (fun l => pymul (Flt l) (PyInt k)) losses))
            (PyInt (Z.of_nat n_samples)).

Section Notions.

Context {C : Collaborators}.

(** The measurements of every batch of a loader, collected in order by
    running the iterations of the metric engine. *)
Fixpoint collect_scores (ph : phase) (denorm : xfloat -> xfloat)
    (verb : bool) (loader : list batch) : M state (list batch_scores) :=
  match loader with
  | [] => ret []
  | b :: rest =>
      (sc <- batch_values ph denorm verb b ;;
       scs <- collect_scores ph denorm verb rest ;;
       ret (sc :: scs))%run
  end.

(** The losses of the batches of a training loader, collected in order by
    running the training steps, each with the number of samples of its
    batch. *)
Fixpoint collect_losses (cfg : config) (epoch : Z) (loader : list batch)
  : M state (list (xfloat * xfloat * nat)) :=
  match loader with
  | [] => ret []
  | b :: rest =>
      (ls <- train_step cfg epoch b ;;
       r <- collect_losses cfg epoch rest ;;
       ret ((fst ls, snd ls, List.length b) :: r))%run
  end.

(** The values a batch contributes when the input validation of the
    regression metrics passes. *)
Definition scores_of (c : counts) (mask3d out3d : array) : batch_scores :=
  let '(tn, fp, fn, tp) := c in
  {| sc_tn := tn; sc_fp := fp; sc_fn := fn; sc_tp := tp;
     sc_mean_ae := Flt (np_mean (zip_with abs_err out3d mask3d));
     sc_s_rmse1 := Flt (np_mean (zip_with sq_err out3d mask3d));
     sc_s_rmse2 :=
       Flt (fdiv (np_sum (zip_with sq_err out3d mask3d))
                 (Fin (inject_Z (np_count_nonzero mask3d)))) |}.

(** The counts a batch ends up with: those of the confusion matrix, or
    zeros after the fallback. *)
Definition counts_or_zero (r : result counts) : counts :=
  match r with Ok c => c | Raise _ => zero_counts end.

(** A batch on which the confusion-matrix computation fails, for a network
    answering [out]. *)
Definition degenerate (out : list (img * img) -> logits * array) (b : batch)
  : Prop :=
  is_ok (confusion_counts (batch_mask2d b) (argmax (fst (out (batch_images b)))))
  = false.

(** A batch on which the regression metrics accept their inputs. *)
Definition measurable (denorm : xfloat -> xfloat)
    (out : list (img * img) -> logits * array) (b : batch) : Prop :=
  check_reg_targets (batch_mask3d b) (map denorm (snd (out (batch_images b))))
  = Ok tt.

(** An iteration of the metric engine only adds observations: the network,
    its mode, the best metrics and the files are left as they are. *)
Definition same_model (s s' : state) : Prop :=
  net s' = net s /\ training s' = training s /\
  best2dmetric s' = best2dmetric s /\ best3dmetric s' = best3dmetric s /\
  files s' = files s.

End Notions.

(** ** Relations between the states before and after a computation *)

(** [m] takes every state to a state related to it by [R], whether it
    returns or raises. *)
Definition preserves {S A} (R : S -> S -> Prop) (m : M S A) : Prop :=
  forall s, R s (snd (m s)).

Section Relations.

Context {C : Collaborators}.

(** The best 2D metric did not decrease and the best 3D metric did not
    increase. *)
Definition improved (s s' : state) : Prop :=
  pyle (best2dmetric s) (best2dmetric s') /\
  pyle (best3dmetric s') (best3dmetric s).

(** What may be observed during epoch [epoch] when the epoch was entered
    with the mode flag [m0]: no call of [net.train()], training forward
    passes in mode [m0], validation forward passes in evaluation mode. *)
Definition epoch_event (epoch : Z) (m0 : bool) (ev : event) : Prop :=
  match ev with
  | EvNetTrain => False
  | EvForward (Train e) m => e = epoch /\ m = m0
  | EvForward (Valid e) m => e = epoch /\ m = false
  | EvForward Test _ => False
  | _ => True
  end.

(** Started in mode [cur], the computation leaves the mode as it is and
    only adds observations that satisfy [Q]. *)
Definition observes (cur : bool) (Q : event -> Prop) (s s' : state) : Prop :=
  training s = cur ->
  training s' = cur /\
  exists evs, trace s' = (trace s ++ evs)%list /\ Forall Q evs.

End Relations.

(** Number of per-epoch records written to the statistics log: one per
    completed execution of the body of the epoch loop. *)
Definition is_stats (ev : event) : bool :=
  match ev with EvStats _ => true | _ => false end.

Definition count_stats (evs : list event) : nat :=
  List.length (filter is_stats evs).

(** ** A deterministic stand-in for the collaborators

    An image carries the labels and the raw 3D output the network answers
    for it; the losses are constant; the parameters are a counter that every
    optimizer step increments. *)

Definition stub_forward (n : nat) (mode : bool)
    (imgs : list ((list Z * array) * (list Z * array)))
  : list Z * array :=
  (flat_map (fun p => fst (fst p)) imgs, flat_map (fun p => snd (fst p)) imgs).

(** Square root to six decimal places, exact on the squares of such
    numbers. *)
Definition stub_sqrt (q : Q) : Q :=
  Qred (Z.sqrt (Qnum q * 10 ^ 12 / Zpos (Qden q)) # 10 ^ 6).

Definition stub : Collaborators := {|
  img := (list Z * array)%type;
  logits := list Z;
  net_state := nat;
  ckpt := nat;
  forward := stub_forward;
  argmax := fun l => l;
  criterion2d := fun _ _ => Fin 1;
  criterion3d := fun _ _ => Fin 1;
  optimizer_step := fun n _ _ _ _ _ => S n;
  lr_adjust_step := fun n => n;
  state_dict := fun n => n;
  load_state_dict := fun _ c => c;
  sqrtQ := stub_sqrt
|}.

(** A sample whose image makes the stand-in network answer [pred2d] and
    [raw3d]. *)
Definition stub_sample (m2 pred2d : list Z) (m3 raw3d : array)
  : @sample stub :=
  {| s_t1 := ((pred2d, raw3d) : @img stub); s_t2 := (([], []) : @img stub);
     s_mask2d := m2; s_mask3d := m3 |}.

Definition stub_config (n bs : Z) (verb : bool)
    (train valid test : list (@sample stub)) : @config stub :=
  {| nepochs := n; batch_size := bs; lweight2d := 1; lweight3d := 1;
     min_scale := 0; max_scale := 2; verbose := verb; res_cp := "";
     train_dataset := train; valid_dataset := valid; test_dataset := test;
     shuffle := fun _ l => l |}.

(** Concrete inputs for the stand-in. *)

Definition start : @state stub := @initial_state stub O (fun _ => None).

(** A training sample; the stand-in losses do not look at it. *)
Definition plain_sample : @sample stub := stub_sample [] [] [] [].

(** Both classes present in the ground truth, predicted exactly; with the
    bounds 0 and 2 the raw outputs [0] and [-1] denormalise to [1] and
    [0]. *)
Definition two_class_sample : @sample stub :=
  stub_sample [0; 1]%Z [0; 1]%Z [Fin 1; Fin 0] [Fin 0; Fin (-1)].

(** Ground truth and prediction hold the single class 0. *)
Definition one_class_sample : @sample stub :=
  stub_sample [0; 0]%Z [0; 0]%Z [Fin 1; Fin 2] [Fin 0; Fin 1].

(** Three training samples in batches of two: the last batch is partial. *)
Definition partial_batch_config : @config stub :=
  stub_config 2 2 false [plain_sample; plain_sample; plain_sample] [] [].

Definition one_epoch_config : @config stub :=
  stub_config 1 1 false [plain_sample] [two_class_sample] [two_class_sample].

Definition three_epoch_config : @config stub :=
  stub_config 3 1 false [plain_sample] [two_class_sample] [two_class_sample].

Definition degenerate_config : @config stub :=
  stub_config 2 1 false [plain_sample] [one_class_sample; one_class_sample]
              [one_class_sample].

Definition verbose_config : @config stub :=
  stub_config 2 1 true [plain_sample] [two_class_sample] [two_class_sample].

(** ** Further notions used to state properties *)

(** The epochs of the per-epoch records of a trace, in order. *)
Definition stats_epochs (evs : list event) : list Z :=
  flat_map (fun ev => match ev with
                      | EvStats r => [st_epoch r]
                      | _ => []
                      end) evs.

Section MoreNotions.

Context {C : Collaborators}.


(** An observation that is not a [torch.save], or is one to one of the two
    best-checkpoint paths. *)
Definition best_file_save (ev : event) : Prop :=
  match ev with
  | EvSave name => name = "2dbestnet.pth" \/ name = "3dbestnet.pth"
  | _ => True
  end.

(** From [s] to [s'] the trace only grew, by observations that satisfy
    [Q]. *)
Definition emits (Q : event -> Prop) (s s' : state) : Prop :=
  exists evs, trace s' = (trace s ++ evs)%list /\ Forall Q evs.

End MoreNotions.

(** Four training samples in batches of two: both batches are full. *)
Definition full_batch_config : @config stub :=
  stub_config 2 2 false
    [plain_sample; plain_sample; plain_sample; plain_sample] [] [].


Section TrackerNotions.

Context {C : Collaborators}.

(** The trackers of [s] are at least as good as what the record [ev]
    reports: its cRMSE is not strictly below [best3dmetric], and the F1 it
    reports (as a percentage) is not strictly above [best2dmetric]. *)
Definition dominated (s : state) (ev : event) : Prop :=
  match ev with
  | EvStats r =>
      pylt (st_cRMSE r) (best3dmetric s) = false /\
      exists F1, st_F1Score r = pymul F1 (PyInt 100) /\
                 pygt F1 (best2dmetric s) = false
  | _ => True
  end.

End TrackerNotions.

(** Strictly increasing list of labels. *)
Fixpoint increasing (l : list Z) : Prop :=
  match l with
  | x :: (y :: _) as l' => (x < y)%Z /\ increasing l'
  | _ => True
  end.

Section CountNotions.

Context {C : Collaborators}.

(** Number of ground-truth pixels of the batches of a loader. *)
Definition pixels (loader : list batch) : Z :=
  fold_right (fun b n => (Z.of_nat (List.length (batch_mask2d b)) + n)%Z)
             0%Z loader.

End CountNotions.

(** The counts [TP], [FN], [FP] of a batch or of a phase over at most
    [bound] pixels: the Python zeros of the fallback, or [int64] counts of
    which one at least is positive. *)
Definition counted (tp fn fp : pynum) (bound : Z) : Prop :=
  (tp = PyInt 0 /\ fn = PyInt 0 /\ fp = PyInt 0) \/
  exists t n p : Z,
    tp = NpInt t /\ fn = NpInt n /\ fp = NpInt p /\
    (0 <= t)%Z /\ (0 <= n)%Z /\ (0 <= p)%Z /\ (1 <= t + n + p <= bound)%Z.

(** [F1] and [IoU] are proper ratios. *)
Definition ratios_in_range (m : phase_metrics) : Prop :=
  exists f i : Q,
    m_F1 m = Flt (Fin f) /\ m_IoU m = Flt (Fin i) /\
    0 <= i /\ i <= f /\ f <= 1.



(** A value that is no number: [+inf] or NaN. *)
Definition no_number (f : xfloat) : Prop := f = PInf \/ f = NaN.

(** A value that is not negative: a non-negative number, [+inf] or NaN. *)
Definition not_negative (f : xfloat) : Prop :=
  match f with
  | Fin q => 0 <= q
  | NInf => False
  | PInf | NaN => True
  end.

(** A sample whose 3D ground truth is zero on every pixel. *)
Definition zero_target_sample : @sample stub :=
  stub_sample [0; 1]%Z [0; 1]%Z [Fin 0; Fin 0] [Fin 0; Fin (-1)].

Definition zero_target_config : @config stub :=
  stub_config 3 1 false [plain_sample]
              [two_class_sample; zero_target_sample] [two_class_sample].

Section AttainedNotions.

Context {C : Collaborators}.

(** Each tracker of [s] is the value [init2d] or [init3d] it started from,
    or the metric reported by one of the records [evs]. *)
Definition attained (init2d init3d : pynum) (s : state) (evs : list event)
  : Prop :=
  (best3dmetric s = init3d \/
   exists r, In (EvStats r) evs /\ st_cRMSE r = best3dmetric s) /\
  (best2dmetric s = init2d \/
   exists r, In (EvStats r) evs /\
             st_F1Score r = pymul (best2dmetric s) (PyInt 100)).

End AttainedNotions.

(** ** The mean squared error, in the words of its definition

    The pairs of values that numpy's broadcasting of two one-dimensional
    arrays puts side by side: equal lengths pair up elementwise, an array of
    one element is repeated along the other, and no other two lengths go
    together. *)
Definition broadcast_pairs (xs ys : array) : option (list (xfloat * xfloat)) :=
  if (List.length xs =? List.length ys)%nat then Some (combine xs ys)
  else match xs, ys with
       | [x], _ => Some (map (fun y => (x, y)) ys)
       | _, [y] => Some (map (fun x => (x, y)) xs)
       | _, _ => None
       end.

(** The squared difference of every pair. *)
Definition squared_errors (ps : list (xfloat * xfloat)) : array :=
  map (fun p => fmul (fsub (fst p) (snd p)) (fsub (fst p) (snd p))) ps.

(** The values added up one after the other, from zero. *)
Definition sum_of (a : array) : xfloat := fold_left fadd a (Fin 0).

(** The sum of the values divided by their number. *)
Definition mean_of (a : array) : xfloat :=
  fdiv (sum_of a) (Fin (inject_Z (Z.of_nat (List.length a)))).

Section LoaderNotions.

Context {C : Collaborators}.

(** What line 132 has established once the training loader is built:
    [DataLoader] refuses a batch size below one, its shuffling sampler
    refuses an empty dataset, and every pass of the sampler yields the
    samples of the dataset in some order, each exactly once. *)
Definition loader_built (cfg : config) : Prop :=
  (1 <= batch_size cfg)%Z /\
  train_dataset cfg <> [] /\
  forall pass : Z,
    Permutation (shuffle cfg pass (train_dataset cfg)) (train_dataset cfg).

End LoaderNotions.

(** * Properties *)

Local Close Scope string_scope.

(** ** Arithmetic of the idealised scalars *)

Lemma Qeq_bool_false (x y : Q) : ~ x == y -> Qeq_bool x y = false.
Proof.
  intro H. destruct (Qeq_bool x y) eqn:E; [| reflexivity].
  apply Qeq_bool_iff in E. contradiction.
Qed.


(** ** C4: normalisation round trip *)

(** C4. For all configuration bounds with [max_scale <> min_scale] and every
    finite value [x] (in particular every [x] between the bounds), applying
    the validation inverse transform, or the test one, to the normalised
    value gives back [x]; equality is that of the rationals, rounding being
    outside the model. *)
Theorem normalization_roundtrip (mn mx x : Q) :
  ~ mx == mn ->
  feq (denormalize_valid mn mx (normalize mn mx (Fin x))) (Fin x) /\
  feq (denormalize_test mn mx (normalize mn mx (Fin x))) (Fin x).
Proof.
  intro Hne.
  assert (Hd : ~ mx - mn == 0) by (intro H; apply Hne; lra).
  unfold denormalize_valid, denormalize_test, normalize, fsub.
  cbn [fmul fopp fadd fdiv].
  rewrite (Qeq_bool_false _ _ Hd).
  cbn [fmul fopp fadd fdiv].
  assert (H2 : Qeq_bool 2 0 = false) by reflexivity.
  rewrite H2.
  cbn [fmul fopp fadd fdiv feq].
  split; field; exact Hd.
Qed.

Lemma normalization_roundtrip_witness :
  feq (denormalize_valid 0 2 (normalize 0 2 (Fin (3 # 2)))) (Fin (3 # 2)) /\
  feq (denormalize_test 0 2 (normalize 0 2 (Fin (3 # 2)))) (Fin (3 # 2)).
Proof.
  apply (normalization_roundtrip 0 2 (3 # 2)).
  intro H. discriminate H.
Defined.

(** ** C9: [metric_mse] *)

Lemma zip_with_length {A B D} (f : A -> B -> D) (xs : list A) (ys : list B) :
  List.length xs = List.length ys ->
  List.length (zip_with f xs ys) = List.length xs.
Proof.
  revert ys. induction xs as [| x xs IH]; intros [| y ys] H; simpl in *;
    try discriminate; auto.
Qed.

Lemma zip_with_map_Fin (f : xfloat -> xfloat -> xfloat) (g : Q -> Q -> Q)
    (xs ys : list Q) :
  (forall x y, f (Fin x) (Fin y) = Fin (g x y)) ->
  zip_with f (map Fin xs) (map Fin ys) = map Fin (zip_with g xs ys).
Proof.
  intro Hfg. revert ys.
  induction xs as [| x xs IH]; intros [| y ys]; simpl; auto.
  rewrite Hfg, IH. reflexivity.
Qed.

Lemma fold_fadd_Fin (l : list Q) (a : Q) :
  fold_left fadd (map Fin l) (Fin a) = Fin (fold_left Qplus l a).
Proof.
  revert a. induction l as [| x l IH]; intro a; simpl; auto.
Qed.

Lemma np_sum_Fin (l : list Q) : np_sum (map Fin l) = Fin (Qsum l).
Proof. apply fold_fadd_Fin. Qed.

Lemma of_nat_nonzero (n : nat) :
  n <> O -> Qeq_bool (inject_Z (Z.of_nat n)) 0 = false.
Proof.
  intro Hn. apply Qeq_bool_false. intro H.
  unfold Qeq in H. simpl in H. lia.
Qed.

Lemma np_mean_Fin (l : list Q) :
  l <> [] ->
  np_mean (map Fin l)
  = Fin (Qsum l / inject_Z (Z.of_nat (List.length l))).
Proof.
  intro Hl. unfold np_mean. rewrite np_sum_Fin, length_map.
  unfold of_nat, fdiv. rewrite of_nat_nonzero; [reflexivity |].
  destruct l; [congruence | discriminate].
Qed.

Lemma count_nonzero_all_zero (targets : array) :
  Forall (fun t => fnonzero t = false) targets ->
  np_count_nonzero targets = 0%Z.
Proof.
  intro H. unfold np_count_nonzero.
  induction H as [| t l Ht _ IH]; simpl; [reflexivity |].
  rewrite Ht. exact IH.
Qed.

Lemma metric_mse_same_length (inputs targets : array) (ez : bool) :
  List.length inputs = List.length targets ->
  metric_mse inputs targets ez
  = if ez
    then Ok (Flt (fdiv (np_sum (zip_with sq_err inputs targets))
                       (Fin (inject_Z (np_count_nonzero targets)))))
    else Ok (Flt (np_mean (zip_with sq_err inputs targets))).
Proof.
  intro H. unfold metric_mse, np_elementwise.
  rewrite H, Nat.eqb_refl. simpl. destruct ez; reflexivity.
Qed.

Lemma zip_with_combine {A B D} (f : A -> B -> D) (xs : list A)
    (ys : list B) :
  zip_with f xs ys = map (fun p => f (fst p) (snd p)) (combine xs ys).
Proof.
  revert ys. induction xs as [| x xs IH]; intros [| y ys]; simpl; auto.
  rewrite IH. reflexivity.
Qed.

Lemma sum_of_np_sum (a : array) : sum_of a = np_sum a.
Proof. reflexivity. Qed.

(** The subtraction and the square of line 46, with numpy's broadcasting. *)
Lemma np_elementwise_pairs (inputs targets : array) :
  np_elementwise sq_err inputs targets
  = match broadcast_pairs inputs targets with
    | Some ps => Ok (squared_errors ps)
    | None => Raise ValueError
    end.
Proof.
  unfold np_elementwise, broadcast_pairs, squared_errors.
  destruct (List.length inputs =? List.length targets)%nat.
  - rewrite zip_with_combine. reflexivity.
  - destruct inputs as [| x [| x' inputs]].
    + destruct targets as [| y [| y' targets]]; try reflexivity.
    + rewrite map_map. reflexivity.
    + destruct targets as [| y [| y' targets]]; try reflexivity.
      rewrite !map_map. reflexivity.
Qed.

(** C9, as amended. With [exclude_zeros = True], for every pair of arrays
    whose target is entirely zero the divisor [count_nonzero(targets)] is
    zero, and whenever the subtraction [inputs - targets] is defined the
    division is carried out without a guard: the function returns the sum of
    the squared differences divided by zero, which is NaN or an infinity.
    With [exclude_zeros = False] the function is not total: the subtraction
    raises [ValueError] when the two shapes cannot be broadcast together;
    whenever they can, the function returns the mean of the squared
    differences, which for empty arrays is NaN.  In particular, on finite
    values of equal, non-zero number the result is the rational mean squared
    error. *)
Theorem metric_mse_cases :
  (forall inputs targets : array,
      Forall (fun t => fnonzero t = false) targets ->
      np_count_nonzero targets = 0%Z /\
      match broadcast_pairs inputs targets with
      | Some ps =>
          let r := fdiv (sum_of (squared_errors ps)) (Fin 0) in
          metric_mse inputs targets true = Ok (Flt r) /\
          (r = NaN \/ r = PInf \/ r = NInf)
      | None => metric_mse inputs targets true = Raise ValueError
      end) /\
  (forall inputs targets : array,
      match broadcast_pairs inputs targets with
      | Some ps =>
          metric_mse inputs targets false
          = Ok (Flt (mean_of (squared_errors ps))) /\
          (ps = [] -> metric_mse inputs targets false = Ok (Flt NaN))
      | None => metric_mse inputs targets false = Raise ValueError
      end) /\
  (forall xs ys : list Q,
      List.length xs = List.length ys -> ys <> [] ->
      metric_mse (map Fin xs) (map Fin ys) false
      = Ok (Flt (Fin (mean_squared_error xs ys)))).
Proof.
  split; [| split].
  - intros inputs targets Hz.
    pose proof (count_nonzero_all_zero targets Hz) as Hc.
    split; [exact Hc |].
    unfold metric_mse. rewrite Hc, np_elementwise_pairs.
    destruct (broadcast_pairs inputs targets) as [ps |]; [| reflexivity].
    cbv zeta. rewrite sum_of_np_sum. split; [reflexivity |].
    destruct (np_sum (squared_errors ps)) as [q | | |]; cbn [fdiv fsign].
    + change (Qeq_bool 0 0) with true. cbv iota.
      destruct (q ?= 0); cbn [inf_of_sign]; auto.
    + change (Qeq_bool 0 0) with true. cbn. auto.
    + change (Qeq_bool 0 0) with true. cbn. auto.
    + auto.
  - intros inputs targets.
    unfold metric_mse. rewrite np_elementwise_pairs.
    destruct (broadcast_pairs inputs targets) as [ps |]; [| reflexivity].
    cbn [bindR]. split; [reflexivity |]. intros ->. reflexivity.
  - intros xs ys Hlen Hne.
    rewrite metric_mse_same_length by (rewrite !length_map; exact Hlen).
    rewrite (zip_with_map_Fin sq_err (fun x y => (x - y) * (x - y)))
      by reflexivity.
    rewrite np_mean_Fin.
    + unfold mean_squared_error. rewrite zip_with_length by exact Hlen.
      reflexivity.
    + destruct xs, ys; simpl in *; congruence.
Qed.

Lemma metric_mse_cases_witness :
  Forall (fun t => fnonzero t = false) [Fin 0; Fin 0] /\
  np_count_nonzero [Fin 0; Fin 0] = 0%Z /\
  metric_mse [Fin 1; Fin 3] [Fin 0; Fin 0] true = Ok (Flt PInf) /\
  metric_mse [Fin 0; Fin 0] [Fin 0; Fin 0] true = Ok (Flt NaN) /\
  metric_mse (map Fin [1; 3]) (map Fin [0; 1]) false
  = Ok (Flt (Fin (mean_squared_error [1; 3] [0; 1]))).
Proof.
  assert (Hz : Forall (fun t => fnonzero t = false) [Fin 0; Fin 0])
    by (repeat constructor).
  split; [exact Hz |].
  split; [exact (proj1 (proj1 metric_mse_cases [Fin 1; Fin 3]
                                [Fin 0; Fin 0] Hz)) |].
  split; [exact (proj1 (proj2 (proj1 metric_mse_cases [Fin 1; Fin 3]
                                       [Fin 0; Fin 0] Hz))) |].
  split; [exact (proj1 (proj2 (proj1 metric_mse_cases [Fin 0; Fin 0]
                                       [Fin 0; Fin 0] Hz))) |].
  apply (proj2 (proj2 metric_mse_cases) [1; 3] [0; 1]).
  - reflexivity.
  - discriminate.
Defined.

(** C9, as stated, fails: with [exclude_zeros = False] the function is not
    total, since arrays of incompatible lengths make the subtraction raise
    (in both modes), and the mean of an empty array is a division by its
    zero length and yields NaN. *)
Lemma metric_mse_mean_not_total :
  metric_mse [] [] false = Ok (Flt NaN) /\
  is_number (metric_mse [] [] false) = false /\
  metric_mse [Fin 1; Fin 2] [Fin 1; Fin 2; Fin 3] false = Raise ValueError /\
  metric_mse [Fin 1; Fin 2] [Fin 0; Fin 0; Fin 0] true = Raise ValueError.
Proof. repeat split. Qed.

(** ** The confusion-matrix fallback and the verbose branch *)

Lemma unique_labels_single (c : Z) (l : list Z) :
  l <> [] -> Forall (eq c) l -> unique_labels l = [c].
Proof.
  intros Hne H. induction H as [| x l Hx Hl IH]; [congruence |].
  subst x.
  change (unique_labels (c :: l)) with (insert_label c (unique_labels l)).
  destruct l as [| y l'].
  - reflexivity.
  - rewrite IH by discriminate.
    simpl. rewrite Z.ltb_irrefl, Z.eqb_refl. reflexivity.
Qed.

Lemma single_class_confusion_fails (c : Z) (y_true y_pred : list Z) :
  Forall (eq c) y_true -> Forall (eq c) y_pred ->
  confusion_counts y_true y_pred = Raise ValueError.
Proof.
  intros Ht Hp. unfold confusion_counts, confusion_matrix_ravel.
  destruct (List.length y_true =? List.length y_pred)%nat; [| reflexivity].
  simpl negb. cbv iota.
  destruct (y_true ++ y_pred)%list as [| z l] eqn:E.
  - reflexivity.
  - rewrite (unique_labels_single c (z :: l)).
    + reflexivity.
    + discriminate.
    + rewrite <- E. apply Forall_app. split; assumption.
Qed.

(** ** The batches of a loader *)

Lemma chunks_fuel_concat {A} (n : nat) :
  (0 < n)%nat ->
  forall (fuel : nat) (l : list A),
    (List.length l <= fuel)%nat -> concat (chunks_fuel fuel n l) = l.
Proof.
  intro Hn. induction fuel as [| fuel IH]; intros l Hl.
  - destruct l; [reflexivity | simpl in Hl; lia].
  - destruct l as [| x l']; [reflexivity |].
    cbn [chunks_fuel concat]. rewrite IH.
    + apply firstn_skipn.
    + rewrite length_skipn. cbn [List.length] in *.
      destruct n; [lia |]. lia.
Qed.

(** For a positive batch size the batches are the dataset, cut in order. *)
Lemma chunks_concat {A} (n : nat) (l : list A) :
  (0 < n)%nat -> concat (chunks n l) = l.
Proof. intro Hn. apply chunks_fuel_concat; [exact Hn | apply Nat.le_refl]. Qed.

Lemma chunks_fuel_sizes {A} (n : nat) :
  (0 < n)%nat ->
  forall (fuel : nat) (l : list A),
    Forall (fun b => (1 <= List.length b <= n)%nat) (chunks_fuel fuel n l).
Proof.
  intro Hn. induction fuel as [| fuel IH]; intro l; [constructor |].
  destruct l as [| x l']; [constructor |].
  cbn [chunks_fuel]. constructor; [| apply IH].
  rewrite length_firstn. simpl. lia.
Qed.

(** No batch is empty and none exceeds the batch size. *)
Lemma chunks_sizes {A} (n : nat) (l : list A) :
  (0 < n)%nat -> Forall (fun b => (1 <= List.length b <= n)%nat) (chunks n l).
Proof. intro Hn. apply chunks_fuel_sizes. exact Hn. Qed.

(** ** Laws of the computations *)

Lemma bind_assoc {S A B D} (m : M S A) (f : A -> M S B) (g : B -> M S D)
    (s : S) :
  bind (bind m f) g s = bind m (fun a => bind (f a) g) s.
Proof.
  unfold bind. destruct (m s) as [[a | e] s']; reflexivity.
Qed.

Lemma bind_ret_l {S A B} (a : A) (k : A -> M S B) (s : S) :
  bind (ret a) k s = k a s.
Proof. reflexivity. Qed.

Lemma bind_ext {S A B} (m : M S A) (f g : A -> M S B) (s : S) :
  (forall a s', f a s' = g a s') -> bind m f s = bind m g s.
Proof.
  intro H. unfold bind. destruct (m s) as [[a | e] s']; auto.
Qed.

Lemma bind_cong_l {S A B} (m m' : M S A) (k : A -> M S B) (s : S) :
  m s = m' s -> bind m k s = bind m' k s.
Proof. intro H. unfold bind. rewrite H. reflexivity. Qed.

Lemma bind_ok {S A B} (m : M S A) (k : A -> M S B) (s s' : S) (a : A) :
  m s = (Ok a, s') -> bind m k s = k a s'.
Proof. intro H. unfold bind. rewrite H. reflexivity. Qed.

Lemma bind_raise {S A B} (m : M S A) (k : A -> M S B) (s s' : S) (e : exn) :
  m s = (Raise e, s') -> bind m k s = (Raise e, s').
Proof. intro H. unfold bind. rewrite H. reflexivity. Qed.

Section Properties.

Context {C : Collaborators}.

Lemma try_confusion_raise (y_true y_pred : list Z) (s : state) (e : exn) :
  confusion_counts y_true y_pred = Raise e ->
  try_confusion y_true y_pred s
  = (Ok zero_counts, log (EvPrint "Only 0 mask") s).
Proof. intro H. unfold try_confusion. rewrite H. reflexivity. Qed.

Lemma try_confusion_ok (y_true y_pred : list Z) (s : state) (c : counts) :
  confusion_counts y_true y_pred = Ok c ->
  try_confusion y_true y_pred s = (Ok c, s).
Proof. intro H. unfold try_confusion. rewrite H. reflexivity. Qed.

Lemma batch_values_unfold ph denorm verb (b : batch) (s : state) :
  batch_values ph denorm verb b s
  = let o := forward (net s) (training s) (batch_images b) in
    let s1 := log (EvForward ph (training s)) s in
    match try_confusion (batch_mask2d b) (argmax (fst o)) s1 with
    | (Ok c, s2) => score_batch verb (batch_mask3d b) (map denorm (snd o)) c s2
    | (Raise e, s2) => (Raise e, s2)
    end.
Proof. reflexivity. Qed.

(** C6. Whenever the confusion-matrix computation of a validation or test
    batch fails, the counts of the batch are [(0,0,0,0)], the message
    ['Only 0 mask'] is printed and nothing is raised; a batch whose ground
    truth and predictions hold a single class is such a case; and the
    iteration goes on with the 3D measurements of the batch exactly as it
    does after a successful computation, with these zero counts. *)
Theorem degenerate_confusion_fallback :
  (forall (y_true y_pred : list Z) (s : state) (e : exn),
      confusion_counts y_true y_pred = Raise e ->
      try_confusion y_true y_pred s
      = (Ok zero_counts, log (EvPrint "Only 0 mask") s)) /\
  (forall (c : Z) (y_true y_pred : list Z),
      Forall (eq c) y_true -> Forall (eq c) y_pred ->
      confusion_counts y_true y_pred = Raise ValueError) /\
  (forall ph denorm verb (b : batch) (s : state) (e : exn),
      confusion_counts
        (batch_mask2d b)
        (argmax (fst (forward (net s) (training s) (batch_images b))))
      = Raise e ->
      batch_values ph denorm verb b s
      = score_batch verb (batch_mask3d b)
          (map denorm (snd (forward (net s) (training s) (batch_images b))))
          zero_counts
          (log (EvPrint "Only 0 mask") (log (EvForward ph (training s)) s))).
Proof.
  split; [| split].
  - intros. eapply try_confusion_raise; eassumption.
  - apply single_class_confusion_fails.
  - intros ph denorm verb b s e H.
    rewrite batch_values_unfold. cbv zeta.
    rewrite (try_confusion_raise _ _ _ e) by exact H. reflexivity.
Qed.

Lemma verbose_report_raises (s : state) :
  verbose_report s
  = (Raise (NameError "s_rmse"),
     log (EvPrint "2D Val") (log (EvPrint "") s)).
Proof. reflexivity. Qed.

(** ** The 3D measurements of a batch *)

Lemma check_reg_targets_cases (y_true y_pred : array) :
  check_reg_targets y_true y_pred = Ok tt \/
  check_reg_targets y_true y_pred = Raise ValueError.
Proof.
  unfold check_reg_targets.
  repeat match goal with |- context [if ?b then _ else _] => destruct b end;
    auto.
Qed.

Lemma check_reg_targets_ok (y_true y_pred : array) :
  check_reg_targets y_true y_pred = Ok tt ->
  List.length y_true = List.length y_pred /\ y_true <> [].
Proof.
  unfold check_reg_targets.
  destruct (List.length y_true =? List.length y_pred)%nat eqn:E1;
    [| discriminate].
  destruct (List.length y_true =? 0)%nat eqn:E2; [discriminate |].
  intros _. apply Nat.eqb_eq in E1. apply Nat.eqb_neq in E2.
  split; [exact E1 |]. intro H. subst. apply E2. reflexivity.
Qed.

Lemma score_batch_checked verb (mask3d out3d : array) (c : counts)
    (s : state) :
  check_reg_targets mask3d out3d = Ok tt ->
  score_batch verb mask3d out3d c s
  = if verb
    then (Raise (NameError "s_rmse"),
          log (EvPrint "2D Val") (log (EvPrint "") s))
    else (Ok (scores_of c mask3d out3d), s).
Proof.
  intro Hc. destruct (check_reg_targets_ok _ _ Hc) as [Hlen Hne].
  destruct c as [[[tn fp] fn] tp].
  unfold score_batch, scores_of, mean_absolute_error, max_error.
  rewrite Hc.
  rewrite !metric_mse_same_length by (symmetry; exact Hlen).
  destruct mask3d as [| m ms]; [congruence |].
  destruct out3d as [| o os]; [discriminate |].
  destruct verb; reflexivity.
Qed.

Lemma score_batch_unchecked verb (mask3d out3d : array) (c : counts)
    (s : state) :
  check_reg_targets mask3d out3d = Raise ValueError ->
  score_batch verb mask3d out3d c s = (Raise ValueError, s).
Proof.
  intro Hc. destruct c as [[[tn fp] fn] tp].
  unfold score_batch, mean_absolute_error. rewrite Hc. reflexivity.
Qed.

(** ** One iteration of the metric engine *)

Lemma batch_values_cases ph denorm verb (b : batch) (s : state) :
  batch_values ph denorm verb b s
  = let out := forward (net s) (training s) (batch_images b) in
    let out3d := map denorm (snd out) in
    let cm := confusion_counts (batch_mask2d b) (argmax (fst out)) in
    let s1 := log (EvForward ph (training s)) s in
    let s2 := if is_ok cm then s1 else log (EvPrint "Only 0 mask") s1 in
    match check_reg_targets (batch_mask3d b) out3d with
    | Ok _ =>
        if verb
        then (Raise (NameError "s_rmse"),
              log (EvPrint "2D Val") (log (EvPrint "") s2))
        else (Ok (scores_of (counts_or_zero cm) (batch_mask3d b) out3d), s2)
    | Raise _ => (Raise ValueError, s2)
    end.
Proof.
  rewrite batch_values_unfold. cbv zeta.
  set (out := forward (net s) (training s) (batch_images b)).
  set (s1 := log (EvForward ph (training s)) s).
  destruct (confusion_counts (batch_mask2d b) (argmax (fst out)))
    as [c | e] eqn:Ecm.
  - rewrite (try_confusion_ok _ _ _ c Ecm). simpl is_ok. cbv iota.
    destruct (check_reg_targets_cases (batch_mask3d b) (map denorm (snd out)))
      as [Hc | Hc]; rewrite Hc.
    + apply score_batch_checked. exact Hc.
    + apply score_batch_unchecked. exact Hc.
  - rewrite (try_confusion_raise _ _ _ e Ecm). simpl is_ok. cbv iota.
    destruct (check_reg_targets_cases (batch_mask3d b) (map denorm (snd out)))
      as [Hc | Hc]; rewrite Hc.
    + apply score_batch_checked. exact Hc.
    + apply score_batch_unchecked. exact Hc.
Qed.

Lemma batch_values_same_model ph denorm verb (b : batch) (s : state) :
  same_model s (snd (batch_values ph denorm verb b s)).
Proof.
  rewrite batch_values_cases. cbv zeta.
  destruct (is_ok _); destruct (check_reg_targets _ _); destruct verb;
    repeat split.
Qed.

(** ** C5: the phase-end metrics are the closed forms of the sums *)

Lemma fold_accumulate_fields (scs : list batch_scores) (acc : accum) :
  fold_left accumulate scs acc
  = {| a_TN := fold_left pyadd (map sc_tn scs) (a_TN acc);
       a_FP := fold_left pyadd (map sc_fp scs) (a_FP acc);
       a_FN := fold_left pyadd (map sc_fn scs) (a_FN acc);
       a_TP := fold_left pyadd (map sc_tp scs) (a_TP acc);
       a_mean_mae := fold_left pyadd (map sc_mean_ae scs) (a_mean_mae acc);
       a_rmse1 := fold_left pyadd (map sc_s_rmse1 scs) (a_rmse1 acc);
       a_rmse2 := fold_left pyadd (map sc_s_rmse2 scs) (a_rmse2 acc) |}.
Proof.
  revert acc. induction scs as [| sc scs IH]; intro acc.
  - destruct acc; reflexivity.
  - simpl. rewrite IH. reflexivity.
Qed.

Lemma phase_end_closed_form (scs : list batch_scores) :
  phase_end (fold_left accumulate scs accum0) (py_len scs)
  = closed_form_metrics scs.
Proof. rewrite fold_accumulate_fields. reflexivity. Qed.

Lemma collect_scores_length ph denorm verb (loader : list batch) :
  forall (s s' : state) (scs : list batch_scores),
    collect_scores ph denorm verb loader s = (Ok scs, s') ->
    List.length scs = List.length loader.
Proof.
  induction loader as [| b rest IH]; intros s s' scs H.
  - inversion H. reflexivity.
  - simpl in H. unfold bind in H.
    destruct (batch_values ph denorm verb b s) as [[sc | e] s1];
      [| discriminate].
    destruct (collect_scores ph denorm verb rest s1) as [[scs' | e] s2] eqn:E;
      [| discriminate].
    inversion H; subst. simpl. f_equal. eapply IH. exact E.
Qed.

(** The loop with running totals gathers the same values as collecting
    the measurements and adding them up afterwards. *)
Lemma for_acc_collect ph denorm verb (loader : list batch) :
  forall (acc : accum) (s : state),
    for_acc loader acc (metric_batch ph denorm verb) s
    = bind (collect_scores ph denorm verb loader)
           (fun scs => ret (fold_left accumulate scs acc)) s.
Proof.
  induction loader as [| b rest IH]; intros acc s.
  - reflexivity.
  - simpl. unfold metric_batch at 1. rewrite !bind_assoc.
    apply bind_ext. intros sc s1.
    rewrite bind_ret_l, bind_assoc, IH.
    apply bind_ext. intros scs s2. reflexivity.
Qed.

Lemma metric_phase_closed_form ph denorm verb (loader : list batch)
    (s : state) :
  metric_phase ph denorm verb loader s
  = bind (collect_scores ph denorm verb loader)
         (fun scs => lift (closed_form_metrics scs)) s.
Proof.
  unfold metric_phase.
  rewrite (bind_cong_l _ _ _ _ (for_acc_collect ph denorm verb loader _ s)).
  rewrite bind_assoc.
  destruct (collect_scores ph denorm verb loader s) as [[scs | e] s1] eqn:E.
  - rewrite !(bind_ok _ _ _ _ _ E). rewrite bind_ret_l.
    rewrite <- phase_end_closed_form.
    unfold py_len. rewrite (collect_scores_length _ _ _ _ _ _ _ E).
    reflexivity.
  - rewrite !(bind_raise _ _ _ _ _ E). reflexivity.
Qed.

(** C5. In every validation phase and in every test phase, the metrics at
    the end of the phase are the closed forms applied to the sums of the
    per-batch counts and errors: [F1 = 2*TP/(2*TP+FN+FP)],
    [IoU = TP/(TP+FN+FP)], [meanMAE = sum(MAE)/num_batches],
    [RMSE = sqrt(sum(mse)/num_batches)] and
    [cRMSE = sqrt(sum(mse_excl_zero)/num_batches)]; every batch enters the
    sums once and the divisor is the number of batches.  The phase, with
    its running totals, is the same computation as collecting the
    measurements of all the batches and applying the closed forms. *)
Theorem phase_metrics_closed_form (cfg : config) :
  (forall (epoch : Z) (s : state),
      validation_phase cfg epoch s
      = (net_eval ;;;
         scs <- collect_scores (Valid epoch)
                  (denormalize_valid (min_scale cfg) (max_scale cfg))
                  false (valid_loader cfg) ;;
         lift (closed_form_metrics scs))%run s) /\
  (forall s : state,
      test_phase cfg s
      = (restore_checkpoint cfg ;;;
         net_eval ;;;
         scs <- collect_scores Test
                  (denormalize_test (min_scale cfg) (max_scale cfg))
                  (verbose cfg) (test_loader cfg) ;;
         m <- lift (closed_form_metrics scs) ;;
         emit (EvTestStats (test_record m)) ;;;
         ret m)%run s).
Proof.
  split.
  - intros epoch s. unfold validation_phase.
    apply bind_ext. intros _ s1. apply metric_phase_closed_form.
  - intro s. unfold test_phase.
    apply bind_ext. intros _ s1. apply bind_ext. intros _ s2.
    rewrite (bind_cong_l _ _ _ _ (metric_phase_closed_form _ _ _ _ s2)).
    apply bind_assoc.
Qed.

(** ** C7: the verbose branch of the test loop *)

Lemma batch_values_verbose ph denorm (b : batch) (s : state) :
  fst (batch_values ph denorm true b s)
  = Raise (if is_ok (check_reg_targets
                       (batch_mask3d b)
                       (map denorm
                            (snd (forward (net s) (training s)
                                          (batch_images b)))))
           then NameError "s_rmse" else ValueError).
Proof.
  rewrite batch_values_cases. cbv zeta.
  destruct (check_reg_targets _ _); reflexivity.
Qed.

Lemma metric_phase_verbose ph denorm (b : batch) (rest : list batch)
    (s : state) :
  fst (metric_phase ph denorm true (b :: rest) s)
  = Raise (if is_ok (check_reg_targets
                       (batch_mask3d b)
                       (map denorm
                            (snd (forward (net s) (training s)
                                          (batch_images b)))))
           then NameError "s_rmse" else ValueError).
Proof.
  unfold metric_phase. cbn [for_acc]. unfold metric_batch at 1.
  rewrite !bind_assoc.
  pose proof (batch_values_verbose ph denorm b s) as H.
  destruct (batch_values ph denorm true b s) as [[sc | e] s1] eqn:E.
  - simpl in H. discriminate.
  - rewrite (bind_raise _ _ _ _ _ E). simpl in *.
    injection H as H. rewrite H. reflexivity.
Qed.

Lemma net_eval_run (s : state) :
  net_eval s = (Ok tt, log EvNetEval (with_training false s)).
Proof. reflexivity. Qed.

Lemma test_phase_unfold (cfg : config) (s : state) :
  test_phase cfg s
  = bind (metric_phase Test
            (denormalize_test (min_scale cfg) (max_scale cfg))
            (verbose cfg) (test_loader cfg))
         (fun m => bind (emit (EvTestStats (test_record m)))
                        (fun _ => ret m))
         (log EvNetEval (with_training false (restored cfg s))).
Proof. reflexivity. Qed.

Lemma validation_phase_unfold (cfg : config) (epoch : Z) (s : state) :
  validation_phase cfg epoch s
  = metric_phase (Valid epoch)
      (denormalize_valid (min_scale cfg) (max_scale cfg))
      false (valid_loader cfg)
      (log EvNetEval (with_training false s)).
Proof. reflexivity. Qed.

(** C7. In the test loop with the verbose flag set, the verbose branch
    evaluates the name [s_rmse], which the module never binds, and raises
    [NameError] after its first two prints: every batch whose measurements
    were computed ends in that exception, and so does the test phase on its
    first batch (unless the regression metrics already rejected the inputs
    of that batch with [ValueError]). *)
Theorem verbose_branch_raises :
  (forall s : state,
      verbose_report s
      = (Raise (NameError "s_rmse"),
         log (EvPrint "2D Val") (log (EvPrint "") s))) /\
  (forall ph denorm (b : batch) (s : state),
      measurable denorm (forward (net s) (training s)) b ->
      fst (batch_values ph denorm true b s) = Raise (NameError "s_rmse")) /\
  (forall (cfg : config) (s : state) (b : batch) (rest : list batch),
      verbose cfg = true ->
      test_loader cfg = b :: rest ->
      fst (test_phase cfg s)
      = Raise (if is_ok (check_reg_targets
                           (batch_mask3d b)
                           (map (denormalize_test (min_scale cfg)
                                                  (max_scale cfg))
                                (snd (forward (net (restored cfg s)) false
                                              (batch_images b)))))
               then NameError "s_rmse" else ValueError)).
Proof.
  split; [| split].
  - apply verbose_report_raises.
  - intros ph denorm b s Hm. rewrite batch_values_verbose.
    unfold measurable in Hm. rewrite Hm. reflexivity.
  - intros cfg s b rest Hv Hl. rewrite test_phase_unfold, Hv, Hl.
    set (s2 := log EvNetEval (with_training false (restored cfg s))).
    pose proof (metric_phase_verbose Test
                  (denormalize_test (min_scale cfg) (max_scale cfg))
                  b rest s2) as H.
    destruct (metric_phase Test _ true (b :: rest) s2) as [[m | e] s3] eqn:E.
    + simpl in H. discriminate.
    + rewrite (bind_raise _ _ _ _ _ E). simpl in *.
      injection H as H. rewrite H. reflexivity.
Qed.

(** ** C8: a phase made of degenerate batches only *)

Lemma pysum_zeros (l : list pynum) :
  Forall (eq (PyInt 0)) l -> pysum l = PyInt 0.
Proof.
  unfold pysum. intro H. induction H as [| x l Hx _ IH]; [reflexivity |].
  subst x. simpl. exact IH.
Qed.

Lemma closed_form_zero_counts (scs : list batch_scores) :
  Forall (fun sc => sc_tp sc = PyInt 0 /\ sc_fn sc = PyInt 0 /\
                    sc_fp sc = PyInt 0) scs ->
  closed_form_metrics scs = Raise ZeroDivisionError.
Proof.
  intro H. unfold closed_form_metrics.
  rewrite (pysum_zeros (map sc_tp scs)), (pysum_zeros (map sc_fn scs)),
          (pysum_zeros (map sc_fp scs)).
  - reflexivity.
  - apply Forall_map. eapply Forall_impl; [| exact H].
    simpl. intros sc (_ & _ & Hfp). congruence.
  - apply Forall_map. eapply Forall_impl; [| exact H].
    simpl. intros sc (_ & Hfn & _). congruence.
  - apply Forall_map. eapply Forall_impl; [| exact H].
    simpl. intros sc (Htp & _ & _). congruence.
Qed.

Lemma batch_values_degenerate ph denorm verb (b : batch) (s s' : state)
    (sc : batch_scores) :
  degenerate (forward (net s) (training s)) b ->
  batch_values ph denorm verb b s = (Ok sc, s') ->
  sc_tp sc = PyInt 0 /\ sc_fn sc = PyInt 0 /\ sc_fp sc = PyInt 0.
Proof.
  unfold degenerate. intros Hd. rewrite batch_values_cases. cbv zeta.
  destruct (confusion_counts _ _) as [c | e]; [discriminate |].
  destruct (check_reg_targets _ _); [| discriminate].
  destruct verb; [discriminate |].
  intro H. inversion H; subst. repeat split.
Qed.

Lemma Forall_same_model (P : (list (img * img) -> logits * array) ->
                             batch -> Prop)
    (s s' : state) (l : list batch) :
  same_model s s' ->
  Forall (P (forward (net s) (training s))) l ->
  Forall (P (forward (net s') (training s'))) l.
Proof.
  intros (Hn & Ht & _). rewrite Hn, Ht. auto.
Qed.

Lemma collect_scores_degenerate ph denorm verb (loader : list batch) :
  forall (s s' : state) (scs : list batch_scores),
    Forall (degenerate (forward (net s) (training s))) loader ->
    collect_scores ph denorm verb loader s = (Ok scs, s') ->
    Forall (fun sc => sc_tp sc = PyInt 0 /\ sc_fn sc = PyInt 0 /\
                      sc_fp sc = PyInt 0) scs.
Proof.
  induction loader as [| b rest IH]; intros s s' scs Hd H.
  - inversion H. constructor.
  - inversion Hd as [| ? ? Hb Hrest]; subst.
    simpl in H.
    pose proof (batch_values_same_model ph denorm verb b s) as Hsm.
    destruct (batch_values ph denorm verb b s) as [[sc | e] s1] eqn:E.
    + rewrite (bind_ok _ _ _ _ _ E) in H.
      destruct (collect_scores ph denorm verb rest s1) as [[scs' | e] s2]
        eqn:E2.
      * rewrite (bind_ok _ _ _ _ _ E2) in H. inversion H; subst.
        constructor.
        -- eapply batch_values_degenerate; eassumption.
        -- eapply IH; [| exact E2].
           apply (Forall_same_model degenerate s s1); assumption.
      * rewrite (bind_raise _ _ _ _ _ E2) in H. discriminate.
    + rewrite (bind_raise _ _ _ _ _ E) in H. discriminate.
Qed.

Lemma collect_scores_measurable ph denorm (loader : list batch) :
  forall s : state,
    Forall (measurable denorm (forward (net s) (training s))) loader ->
    exists scs s', collect_scores ph denorm false loader s = (Ok scs, s').
Proof.
  induction loader as [| b rest IH]; intros s Hm.
  - exists [], s. reflexivity.
  - inversion Hm as [| ? ? Hb Hrest]; subst.
    pose proof (batch_values_same_model ph denorm false b s) as Hsm.
    assert (Hok : exists sc s1,
               batch_values ph denorm false b s = (Ok sc, s1)).
    { rewrite batch_values_cases. cbv zeta.
      unfold measurable in Hb. rewrite Hb. eauto. }
    destruct Hok as (sc & s1 & E). rewrite E in Hsm. simpl in Hsm.
    destruct (IH s1) as (scs & s2 & E2).
    { apply (Forall_same_model (measurable denorm) s s1); assumption. }
    exists (sc :: scs), s2. simpl.
    rewrite (bind_ok _ _ _ _ _ E), (bind_ok _ _ _ _ _ E2). reflexivity.
Qed.

Lemma metric_phase_degenerate ph denorm verb (loader : list batch)
    (s : state) :
  Forall (degenerate (forward (net s) (training s))) loader ->
  (forall m, fst (metric_phase ph denorm verb loader s) <> Ok m) /\
  (verb = false ->
   Forall (measurable denorm (forward (net s) (training s))) loader ->
   fst (metric_phase ph denorm verb loader s) = Raise ZeroDivisionError).
Proof.
  intro Hd. rewrite metric_phase_closed_form.
  split.
  - intro m.
    destruct (collect_scores ph denorm verb loader s) as [[scs | e] s1] eqn:E.
    + rewrite (bind_ok _ _ _ _ _ E). unfold lift. simpl.
      rewrite (closed_form_zero_counts scs); [discriminate |].
      eapply collect_scores_degenerate; eassumption.
    + rewrite (bind_raise _ _ _ _ _ E). discriminate.
  - intros Hv Hm. subst verb.
    destruct (collect_scores_measurable ph denorm loader s Hm)
      as (scs & s1 & E).
    rewrite (bind_ok _ _ _ _ _ E). unfold lift. simpl.
    apply closed_form_zero_counts.
    eapply collect_scores_degenerate; eassumption.
Qed.

(** C8. [F1] and [IoU] are divisions without a guard.  When every batch of
    a validation or test phase took the confusion-matrix fallback, the
    totals [TP], [FN] and [FP] are the Python integer zero, and the phase
    produces no metric: it raises.  The exception is [ZeroDivisionError],
    raised by the [F1] line, whenever the per-batch measurements themselves
    were computed (the regression metrics accepted every batch and, in the
    test phase, the verbose branch is off). *)
Theorem all_degenerate_phase_raises (cfg : config) :
  (forall (epoch : Z) (s : state),
      Forall (degenerate (forward (net s) false)) (valid_loader cfg) ->
      (forall m, fst (validation_phase cfg epoch s) <> Ok m) /\
      (Forall (measurable (denormalize_valid (min_scale cfg) (max_scale cfg))
                          (forward (net s) false))
              (valid_loader cfg) ->
       fst (validation_phase cfg epoch s) = Raise ZeroDivisionError)) /\
  (forall s : state,
      Forall (degenerate (forward (net (restored cfg s)) false))
             (test_loader cfg) ->
      (forall m, fst (test_phase cfg s) <> Ok m) /\
      (verbose cfg = false ->
       Forall (measurable (denormalize_test (min_scale cfg) (max_scale cfg))
                          (forward (net (restored cfg s)) false))
              (test_loader cfg) ->
       fst (test_phase cfg s) = Raise ZeroDivisionError)).
Proof.
  split.
  - intros epoch s Hd. rewrite validation_phase_unfold.
    destruct (metric_phase_degenerate (Valid epoch)
                (denormalize_valid (min_scale cfg) (max_scale cfg))
                false (valid_loader cfg)
                (log EvNetEval (with_training false s)) Hd) as [H1 H2].
    split; [exact H1 | intro Hm; apply H2; [reflexivity | exact Hm]].
  - intros s Hd. rewrite test_phase_unfold.
    set (s2 := log EvNetEval (with_training false (restored cfg s))).
    destruct (metric_phase_degenerate Test
                (denormalize_test (min_scale cfg) (max_scale cfg))
                (verbose cfg) (test_loader cfg) s2 Hd) as [H1 H2].
    split.
    + intro m.
      destruct (metric_phase Test _ (verbose cfg) (test_loader cfg) s2)
        as [[m' | e] s3] eqn:E.
      * exfalso. apply (H1 m'). reflexivity.
      * rewrite (bind_raise _ _ _ _ _ E). discriminate.
    + intros Hv Hm. specialize (H2 Hv Hm).
      destruct (metric_phase Test _ (verbose cfg) (test_loader cfg) s2)
        as [[m' | e] s3] eqn:E.
      * discriminate.
      * rewrite (bind_raise _ _ _ _ _ E). simpl in *.
        injection H2 as H2. rewrite H2. reflexivity.
Qed.

(** ** Reasoning about relations between states *)

Section Preserves.

Variables (S : Type) (R : S -> S -> Prop).
Hypothesis R_refl : forall s, R s s.
Hypothesis R_trans : forall s1 s2 s3, R s1 s2 -> R s2 s3 -> R s1 s3.

Lemma preserves_ret {A} (a : A) : preserves R (@ret S A a).
Proof. intro s. apply R_refl. Qed.

Lemma preserves_lift {A} (r : result A) : preserves R (@lift S A r).
Proof. intro s. apply R_refl. Qed.

Lemma preserves_get : preserves R (@get S).
Proof. intro s. apply R_refl. Qed.

Lemma preserves_modify (f : S -> S) :
  (forall s, R s (f s)) -> preserves R (modify f).
Proof. intros H s. apply H. Qed.

Lemma preserves_bind {A B} (m : M S A) (k : A -> M S B) :
  preserves R m -> (forall a, preserves R (k a)) -> preserves R (bind m k).
Proof.
  intros Hm Hk s. unfold bind. specialize (Hm s).
  destruct (m s) as [[a | e] s1]; simpl in *.
  - eapply R_trans; [exact Hm | apply Hk].
  - exact Hm.
Qed.

Lemma preserves_for_each {A} (l : list A) (body : A -> M S unit) :
  (forall x, preserves R (body x)) -> preserves R (for_each l body).
Proof.
  intro Hb. induction l as [| x l IH]; simpl.
  - apply preserves_ret.
  - apply preserves_bind; auto.
Qed.

Lemma preserves_for_acc {A B} (l : list A) (body : B -> A -> M S B) :
  (forall acc x, preserves R (body acc x)) ->
  forall acc, preserves R (for_acc l acc body).
Proof.
  intro Hb. induction l as [| x l IH]; intro acc; simpl.
  - apply preserves_ret.
  - apply preserves_bind; auto.
Qed.

End Preserves.

Ltac preserves_step Hr Ht :=
  match goal with
  | |- preserves _ (ret _) => apply (preserves_ret _ _ Hr)
  | |- preserves _ (lift _) => apply (preserves_lift _ _ Hr)
  | |- preserves _ get => apply (preserves_get _ _ Hr)
  | |- preserves _ (bind _ _) => apply (preserves_bind _ _ Ht); [| intro]
  | |- preserves _ (for_each _ _) =>
      apply (preserves_for_each _ _ Hr Ht); intro
  | |- preserves _ (for_acc _ _ _) =>
      apply (preserves_for_acc _ _ Hr Ht); intros
  | |- preserves _ (if ?b then _ else _) => destruct b
  | |- preserves _ (match ?x with _ => _ end) => destruct x
  end.

(** ** C2: the two checkpoint decisions *)

Lemma flt_trans (a b c : xfloat) :
  flt a b = true -> flt b c = true -> flt a c = true.
Proof.
  destruct a as [x | | |], b as [y | | |], c as [z | | |]; cbn [flt];
    try discriminate; try reflexivity.
  destruct (x ?= y) eqn:Exy; try discriminate.
  destruct (y ?= z) eqn:Eyz; try discriminate.
  intros _ _.
  assert (H : (x ?= z) = Lt).
  { apply Qlt_alt. apply Qlt_trans with y; apply Qlt_alt; assumption. }
  rewrite H. reflexivity.
Qed.

Lemma pyle_refl (a : pynum) : pyle a a.
Proof. right. reflexivity. Qed.

Lemma pyle_trans (a b c : pynum) : pyle a b -> pyle b c -> pyle a c.
Proof.
  unfold pyle, pylt. intros [H1 | H1] [H2 | H2]; subst; auto.
  left. eapply flt_trans; eassumption.
Qed.

Lemma improved_refl (s : state) : improved s s.
Proof. split; apply pyle_refl. Qed.

Lemma improved_trans (s1 s2 s3 : state) :
  improved s1 s2 -> improved s2 s3 -> improved s1 s3.
Proof.
  intros [A1 A2] [B1 B2]. split; eapply pyle_trans; eassumption.
Qed.

Lemma same_model_improved (s s' : state) : same_model s s' -> improved s s'.
Proof.
  intros (_ & _ & H2 & H3 & _). split; [rewrite H2 | rewrite H3];
    apply pyle_refl.
Qed.

Lemma emit_improved (e : event) : preserves improved (emit e).
Proof. intro s. split; right; reflexivity. Qed.

Lemma set_net_improved (n : net_state) : preserves improved (set_net n).
Proof. intro s. split; right; reflexivity. Qed.

Lemma net_eval_improved : preserves improved net_eval.
Proof. intro s. split; right; reflexivity. Qed.

Lemma net_call_improved ph (b : batch) : preserves improved (net_call ph b).
Proof. intro s. split; right; reflexivity. Qed.

Lemma batch_values_improved ph denorm verb (b : batch) :
  preserves improved (batch_values ph denorm verb b).
Proof.
  intro s. apply same_model_improved. apply batch_values_same_model.
Qed.

Lemma metric_phase_improved ph denorm verb (loader : list batch) :
  preserves improved (metric_phase ph denorm verb loader).
Proof.
  unfold metric_phase, metric_batch.
  repeat first [ apply batch_values_improved
               | preserves_step improved_refl improved_trans ].
Qed.

Lemma train_phase_improved (cfg : config) (epoch : Z) :
  preserves improved (train_phase cfg epoch).
Proof.
  unfold train_phase, train_batch, train_step.
  repeat first [ apply net_call_improved
               | apply set_net_improved
               | preserves_step improved_refl improved_trans ].
Qed.

Lemma checkpoint_2d_run (F1 : pynum) (s : state) :
  checkpoint_2d F1 s
  = (Ok tt,
     if pygt F1 (best2dmetric s)
     then log (EvPrint "Best 2D model saved!")
            (log (EvSave "2dbestnet.pth")
               (with_file "2dbestnet.pth" (with_best2d F1 s)))
     else s).
Proof.
  unfold checkpoint_2d, bind, get.
  destruct (pygt F1 (best2dmetric s)); reflexivity.
Qed.

Lemma checkpoint_3d_run (RMSE2 : pynum) (s : state) :
  checkpoint_3d RMSE2 s
  = (Ok tt,
     if pylt RMSE2 (best3dmetric s)
     then log (EvPrint "Best 3D model saved!")
            (log (EvSave "3dbestnet.pth")
               (with_file "3dbestnet.pth" (with_best3d RMSE2 s)))
     else s).
Proof.
  unfold checkpoint_3d, bind, get.
  destruct (pylt RMSE2 (best3dmetric s)); reflexivity.
Qed.

Lemma checkpoint_decision_improved (m : phase_metrics) :
  preserves improved (checkpoint_decision m).
Proof.
  unfold checkpoint_decision.
  apply (preserves_bind _ _ improved_trans); [| intros _].
  - intro s. rewrite checkpoint_2d_run. simpl.
    destruct (pygt (m_F1 m) (best2dmetric s)) eqn:E.
    + split; [left; exact E | apply pyle_refl].
    + apply improved_refl.
  - intro s. rewrite checkpoint_3d_run. simpl.
    destruct (pylt (m_RMSE2 m) (best3dmetric s)) eqn:E.
    + split; [apply pyle_refl | left; exact E].
    + apply improved_refl.
Qed.

Lemma epoch_body_improved (cfg : config) (epoch : Z) :
  preserves improved (epoch_body cfg epoch).
Proof.
  unfold epoch_body, validation_phase.
  repeat first [ apply train_phase_improved
               | apply net_eval_improved
               | apply metric_phase_improved
               | apply checkpoint_decision_improved
               | apply emit_improved
               | preserves_step improved_refl improved_trans ].
Qed.

Lemma checkpoint_decision_run (m : phase_metrics) (s : state) :
  checkpoint_decision m s
  = (Ok tt,
     let s1 := if pygt (m_F1 m) (best2dmetric s)
               then log (EvPrint "Best 2D model saved!")
                      (log (EvSave "2dbestnet.pth")
                         (with_file "2dbestnet.pth"
                            (with_best2d (m_F1 m) s)))
               else s in
     if pylt (m_RMSE2 m) (best3dmetric s1)
     then log (EvPrint "Best 3D model saved!")
            (log (EvSave "3dbestnet.pth")
               (with_file "3dbestnet.pth" (with_best3d (m_RMSE2 m) s1)))
     else s1).
Proof.
  unfold checkpoint_decision.
  rewrite (bind_ok _ _ _ _ _ (checkpoint_2d_run (m_F1 m) s)).
  apply checkpoint_3d_run.
Qed.


(** ** C10: the mode of the network along the epoch loop *)

Section Observes.

Variables (cur : bool) (Q : event -> Prop).

Lemma observes_refl (s : state) : observes cur Q s s.
Proof.
  intro H. split; [exact H |].
  exists []. rewrite app_nil_r. split; [reflexivity | constructor].
Qed.

Lemma observes_trans (s1 s2 s3 : state) :
  observes cur Q s1 s2 -> observes cur Q s2 s3 -> observes cur Q s1 s3.
Proof.
  intros H12 H23 H1.
  destruct (H12 H1) as (H2 & evs1 & E1 & F1).
  destruct (H23 H2) as (H3 & evs2 & E2 & F2).
  split; [exact H3 |].
  exists (evs1 ++ evs2)%list. split.
  - rewrite E2, E1, app_assoc. reflexivity.
  - apply Forall_app. split; assumption.
Qed.

(** A state update that touches neither the mode nor the trace. *)
Lemma observes_quiet (f : state -> state) :
  (forall s, training (f s) = training s /\ trace (f s) = trace s) ->
  preserves (observes cur Q) (modify f).
Proof.
  intros Hf s Hs. simpl. destruct (Hf s) as [Ht Htr].
  split; [congruence |].
  exists []. rewrite app_nil_r. split; [exact Htr | constructor].
Qed.

Lemma emit_observes (e : event) :
  Q e -> preserves (observes cur Q) (emit e).
Proof.
  intros He s Hs. simpl. split; [exact Hs |].
  exists [e]. split; [reflexivity | repeat constructor; exact He].
Qed.

Lemma set_net_observes (n : net_state) :
  preserves (observes cur Q) (set_net n).
Proof. apply observes_quiet. intro s. split; reflexivity. Qed.

Lemma net_call_observes ph (b : batch) :
  Q (EvForward ph cur) -> preserves (observes cur Q) (net_call ph b).
Proof.
  intros He s Hs. simpl. split; [exact Hs |].
  exists [EvForward ph (training s)]. split; [reflexivity |].
  rewrite Hs. repeat constructor. exact He.
Qed.

Hypothesis Q_print : forall msg, Q (EvPrint msg).
Hypothesis Q_save : forall name, Q (EvSave name).

Lemma batch_values_observes ph denorm verb (b : batch) :
  Q (EvForward ph cur) ->
  preserves (observes cur Q) (batch_values ph denorm verb b).
Proof.
  intro He.
  unfold batch_values, try_confusion, score_batch, verbose_report.
  repeat first [ apply net_call_observes; exact He
               | apply emit_observes; apply Q_print
               | preserves_step observes_refl observes_trans ].
Qed.

Lemma metric_phase_observes ph denorm verb (loader : list batch) :
  Q (EvForward ph cur) ->
  preserves (observes cur Q) (metric_phase ph denorm verb loader).
Proof.
  intro He. unfold metric_phase, metric_batch.
  repeat first [ apply batch_values_observes; exact He
               | preserves_step observes_refl observes_trans ].
Qed.

Lemma checkpoint_decision_observes (m : phase_metrics) :
  preserves (observes cur Q) (checkpoint_decision m).
Proof.
  unfold checkpoint_decision, checkpoint_2d, checkpoint_3d, torch_save,
    set_best2d, set_best3d.
  repeat first [ apply emit_observes; first [apply Q_print | apply Q_save]
               | apply observes_quiet; intro; split; reflexivity
               | preserves_step observes_refl observes_trans ].
Qed.

End Observes.

Lemma train_phase_observes (cfg : config) (epoch : Z) (m0 : bool) :
  preserves (observes m0 (epoch_event epoch m0)) (train_phase cfg epoch).
Proof.
  unfold train_phase, train_batch, train_step.
  repeat first [ apply net_call_observes; simpl; auto
               | apply set_net_observes
               | preserves_step (observes_refl m0 (epoch_event epoch m0))
                                (observes_trans m0 (epoch_event epoch m0)) ].
Qed.

Lemma valid_tail_observes (cfg : config) (epoch : Z) (m0 : bool)
    (l : epoch_losses) :
  preserves (observes false (epoch_event epoch m0))
    (bind (metric_phase (Valid epoch)
             (denormalize_valid (min_scale cfg) (max_scale cfg))
             false (valid_loader cfg))
          (fun m => bind (checkpoint_decision m)
                         (fun _ => emit (EvStats (epoch_record epoch l m))))).
Proof.
  repeat first [ apply metric_phase_observes; simpl; auto
               | apply checkpoint_decision_observes; simpl; auto
               | apply emit_observes; simpl; auto
               | preserves_step
                   (observes_refl false (epoch_event epoch m0))
                   (observes_trans false (epoch_event epoch m0)) ].
Qed.

Lemma epoch_body_unfold (cfg : config) (epoch : Z) (s s1 : state)
    (l : epoch_losses) :
  train_phase cfg epoch s = (Ok l, s1) ->
  epoch_body cfg epoch s
  = bind (metric_phase (Valid epoch)
            (denormalize_valid (min_scale cfg) (max_scale cfg))
            false (valid_loader cfg))
         (fun m => bind (checkpoint_decision m)
                        (fun _ => emit (EvStats (epoch_record epoch l m))))
         (log EvNetEval (with_training false s1)).
Proof.
  intro E. unfold epoch_body. rewrite (bind_ok _ _ _ _ _ E).
  unfold validation_phase. rewrite bind_assoc. reflexivity.
Qed.

(** What an epoch adds to the trace, and the mode it leaves behind. *)
Lemma epoch_body_events (cfg : config) (epoch : Z) (s : state) :
  exists evs,
    trace (snd (epoch_body cfg epoch s)) = (trace s ++ evs)%list /\
    Forall (epoch_event epoch (training s)) evs /\
    (is_ok (fst (epoch_body cfg epoch s)) = true ->
     training (snd (epoch_body cfg epoch s)) = false).
Proof.
  pose proof (train_phase_observes cfg epoch (training s) s eq_refl)
    as (Ht & evs1 & E1 & F1).
  destruct (train_phase cfg epoch s) as [[l | x] s1] eqn:E; simpl in *.
  - rewrite (epoch_body_unfold _ _ _ _ _ E).
    set (s1' := log EvNetEval (with_training false s1)).
    pose proof (valid_tail_observes cfg epoch (training s) l s1' eq_refl)
      as (Ht2 & evs2 & E2 & F2).
    exists (evs1 ++ EvNetEval :: evs2)%list. split; [| split].
    + rewrite E2. unfold s1'. simpl. rewrite E1, <- !app_assoc. reflexivity.
    + apply Forall_app. split; [exact F1 |].
      constructor; [exact I | exact F2].
    + intros _. exact Ht2.
  - unfold epoch_body. rewrite (bind_raise _ _ _ _ _ E). simpl.
    exists evs1. split; [exact E1 | split; [exact F1 | discriminate]].
Qed.

Lemma epochs_events (cfg : config) (l : list Z) :
  forall s : state,
    training s = false ->
    exists evs,
      trace (snd (for_each l (epoch_body cfg) s)) = (trace s ++ evs)%list /\
      Forall (fun ev => exists e, In e l /\ epoch_event e false ev) evs.
Proof.
  induction l as [| e l IH]; intros s Hs.
  - exists []. simpl. rewrite app_nil_r. split; [reflexivity | constructor].
  - destruct (epoch_body_events cfg e s) as (evs1 & E1 & F1 & Hmode).
    rewrite Hs in F1. cbn [for_each].
    destruct (epoch_body cfg e s) as [[[] | x] s1] eqn:E; simpl in *.
    + rewrite (bind_ok _ _ _ _ _ E).
      destruct (IH s1 (Hmode eq_refl)) as (evs2 & E2 & F2).
      exists (evs1 ++ evs2)%list. split.
      * rewrite E2, E1, app_assoc. reflexivity.
      * apply Forall_app. split.
        -- eapply Forall_impl; [| exact F1]. intros ev Hev.
           exists e. split; [left; reflexivity | exact Hev].
        -- eapply Forall_impl; [| exact F2]. intros ev (e' & Hin & Hev).
           exists e'. split; [right; exact Hin | exact Hev].
    + rewrite (bind_raise _ _ _ _ _ E). simpl.
      exists evs1. split; [exact E1 |].
      eapply Forall_impl; [| exact F1]. intros ev Hev.
      exists e. split; [left; reflexivity | exact Hev].
Qed.

Lemma py_range_empty (lo hi : Z) : (hi <= lo)%Z -> py_range lo hi = [].
Proof.
  intro H. unfold py_range.
  replace (Z.to_nat (hi - lo)) with O by lia. reflexivity.
Qed.

Lemma py_range_cons (lo hi : Z) :
  (lo < hi)%Z -> py_range lo hi = lo :: py_range (lo + 1) hi.
Proof.
  intro H. unfold py_range.
  replace (Z.to_nat (hi - lo)) with (Datatypes.S (Z.to_nat (hi - (lo + 1))))
    by lia.
  cbn [seq map]. f_equal; [lia |].
  rewrite <- seq_shift, map_map. apply map_ext. intro i. lia.
Qed.

Lemma py_range_length (lo hi : Z) :
  List.length (py_range lo hi) = Z.to_nat (hi - lo).
Proof. unfold py_range. rewrite length_map, length_seq. reflexivity. Qed.

Lemma In_py_range (lo hi e : Z) :
  In e (py_range lo hi) -> (lo <= e < hi)%Z.
Proof.
  unfold py_range. rewrite in_map_iff. intros (i & Hi & Hin).
  apply in_seq in Hin. lia.
Qed.

Lemma training_loop_unfold (cfg : config) (s : state) :
  training_loop cfg s
  = for_each (py_range 1 (nepochs cfg)) (epoch_body cfg)
      (log EvNetTrain
         (with_training true
            (with_best3d (PyInt 1000000) (with_best2d (PyInt 0) s)))).
Proof. reflexivity. Qed.

Lemma epoch_event_first (ev : event) :
  epoch_event 1 true ev -> epoch_event 1 (1 =? 1)%Z ev.
Proof. auto. Qed.

Lemma epoch_event_later (lo hi e : Z) (ev : event) :
  (2 <= lo)%Z -> In e (py_range lo hi) ->
  epoch_event e false ev -> epoch_event e (e =? 1)%Z ev.
Proof.
  intros Hlo Hin Hev. apply In_py_range in Hin.
  replace (e =? 1)%Z with false; [exact Hev |].
  symmetry. apply Z.eqb_neq. lia.
Qed.

(** The events of the whole loop, after the call of [net.train()]. *)
Lemma training_loop_events (cfg : config) (s : state) :
  exists evs,
    trace (snd (training_loop cfg s)) = (trace s ++ EvNetTrain :: evs)%list /\
    Forall (fun ev => exists e, epoch_event e (e =? 1)%Z ev) evs.
Proof.
  rewrite training_loop_unfold.
  set (s0 := log EvNetTrain _).
  assert (Htr : trace s0 = (trace s ++ [EvNetTrain])%list) by reflexivity.
  destruct (Z_lt_le_dec 1 (nepochs cfg)) as [Hn | Hn].
  - rewrite (py_range_cons 1 (nepochs cfg) Hn). cbn [for_each].
    destruct (epoch_body_events cfg 1 s0) as (evs1 & E1 & F1 & Hmode).
    change (training s0) with true in F1.
    destruct (epoch_body cfg 1 s0) as [[[] | x] s1] eqn:E;
      cbn [fst snd is_ok] in *.
    + rewrite (bind_ok _ _ _ _ _ E).
      destruct (epochs_events cfg (py_range (1 + 1) (nepochs cfg)) s1
                  (Hmode eq_refl)) as (evs2 & E2 & F2).
      exists (evs1 ++ evs2)%list. split.
      * rewrite E2, E1, Htr, <- !app_assoc. reflexivity.
      * apply Forall_app. split.
        -- eapply Forall_impl; [| exact F1]. intros ev Hev.
           exists 1%Z. apply epoch_event_first. exact Hev.
        -- eapply Forall_impl; [| exact F2]. intros ev (e & Hin & Hev).
           exists e. eapply epoch_event_later; [| exact Hin | exact Hev]. lia.
    + rewrite (bind_raise _ _ _ _ _ E). cbn [fst snd].
      exists evs1. split.
      * rewrite E1, Htr, <- app_assoc. reflexivity.
      * eapply Forall_impl; [| exact F1]. intros ev Hev.
        exists 1%Z. apply epoch_event_first. exact Hev.
  - rewrite (py_range_empty 1 (nepochs cfg) Hn). simpl.
    exists []. split; [reflexivity | constructor].
Qed.


(** ** C1: how many times the body of the epoch loop runs *)

Lemma count_stats_app (l1 l2 : list event) :
  count_stats (l1 ++ l2) = (count_stats l1 + count_stats l2)%nat.
Proof. unfold count_stats. rewrite filter_app, length_app. reflexivity. Qed.

Lemma count_stats_none (evs : list event) :
  Forall (fun ev => is_stats ev = false) evs -> count_stats evs = O.
Proof.
  intro H. unfold count_stats.
  induction H as [| ev evs Hev _ IH]; simpl; [reflexivity |].
  rewrite Hev. exact IH.
Qed.

Lemma train_phase_no_stats (cfg : config) (epoch : Z) (m0 : bool) :
  preserves (observes m0 (fun ev => is_stats ev = false))
            (train_phase cfg epoch).
Proof.
  unfold train_phase, train_batch, train_step.
  repeat first
    [ apply net_call_observes; reflexivity
    | apply set_net_observes
    | preserves_step (observes_refl m0 (fun ev => is_stats ev = false))
                     (observes_trans m0 (fun ev => is_stats ev = false)) ].
Qed.

(** An epoch writes its record exactly when it completes. *)
Lemma epoch_body_stats (cfg : config) (epoch : Z) (s : state) :
  exists evs,
    trace (snd (epoch_body cfg epoch s)) = (trace s ++ evs)%list /\
    count_stats evs
    = if is_ok (fst (epoch_body cfg epoch s)) then 1%nat else 0%nat.
Proof.
  set (Q := fun ev => is_stats ev = false).
  assert (Qp : forall msg, Q (EvPrint msg)) by reflexivity.
  assert (Qs : forall name, Q (EvSave name)) by reflexivity.
  pose proof (train_phase_no_stats cfg epoch (training s) s eq_refl)
    as (Ht & evs1 & E1 & F1).
  destruct (train_phase cfg epoch s) as [[l | x] s1] eqn:E;
    cbn [fst snd] in *.
  - rewrite (epoch_body_unfold _ _ _ _ _ E).
    set (s1' := log EvNetEval (with_training false s1)).
    pose proof (metric_phase_observes false Q Qp (Valid epoch)
                  (denormalize_valid (min_scale cfg) (max_scale cfg))
                  false (valid_loader cfg) eq_refl s1' eq_refl)
      as (Ht2 & evs2 & E2 & F2).
    destruct (metric_phase (Valid epoch) _ false (valid_loader cfg) s1')
      as [[m | x] s2] eqn:E';
      cbn [fst snd] in *.
    + rewrite (bind_ok _ _ _ _ _ E').
      pose proof (checkpoint_decision_observes false Q Qp Qs m s2 Ht2)
        as (Ht3 & evs3 & E3 & F3).
      rewrite checkpoint_decision_run in E3.
      rewrite (bind_ok _ _ _ _ _ (checkpoint_decision_run m s2)).
      cbn [fst snd] in *.
      exists (evs1 ++ EvNetEval :: evs2 ++ evs3
              ++ [EvStats (epoch_record epoch l m)])%list.
      split.
      * cbn [emit modify snd log trace]. rewrite E3, E2. unfold s1'.
        cbn [log trace with_training]. rewrite E1, <- !app_assoc.
        reflexivity.
      * rewrite count_stats_app. change (EvNetEval :: ?l)
          with ([EvNetEval] ++ l)%list.
        rewrite !count_stats_app.
        rewrite (count_stats_none evs1 F1), (count_stats_none evs2 F2),
                (count_stats_none evs3 F3).
        reflexivity.
    + rewrite (bind_raise _ _ _ _ _ E'). cbn [fst snd is_ok].
      exists (evs1 ++ EvNetEval :: evs2)%list. split.
      * rewrite E2. unfold s1'. cbn [log trace with_training].
        rewrite E1, <- !app_assoc. reflexivity.
      * rewrite count_stats_app.
        change (EvNetEval :: evs2) with ([EvNetEval] ++ evs2)%list.
        rewrite count_stats_app.
        rewrite (count_stats_none evs1 F1), (count_stats_none evs2 F2).
        reflexivity.
  - unfold epoch_body. rewrite (bind_raise _ _ _ _ _ E). cbn [fst snd is_ok].
    exists evs1. split; [exact E1 | apply count_stats_none; exact F1].
Qed.

Lemma epochs_stats (cfg : config) (l : list Z) :
  forall s : state,
    exists evs,
      trace (snd (for_each l (epoch_body cfg) s)) = (trace s ++ evs)%list /\
      (count_stats evs <= List.length l)%nat /\
      (is_ok (fst (for_each l (epoch_body cfg) s)) = true ->
       count_stats evs = List.length l).
Proof.
  induction l as [| e l IH]; intro s.
  - exists []. simpl. rewrite app_nil_r. repeat split; auto.
  - destruct (epoch_body_stats cfg e s) as (evs1 & E1 & N1).
    cbn [for_each].
    destruct (epoch_body cfg e s) as [[[] | x] s1] eqn:E;
      cbn [fst snd is_ok] in *.
    + rewrite (bind_ok _ _ _ _ _ E).
      destruct (IH s1) as (evs2 & E2 & N2 & N2').
      exists (evs1 ++ evs2)%list. split; [| split].
      * rewrite E2, E1, app_assoc. reflexivity.
      * rewrite count_stats_app, N1. simpl. lia.
      * intro Hok. rewrite count_stats_app, N1, (N2' Hok). reflexivity.
    + rewrite (bind_raise _ _ _ _ _ E). cbn [fst snd is_ok].
      exists evs1. split; [exact E1 |]. split; [| discriminate].
      rewrite N1. simpl. lia.
Qed.

(** The loop is [for epoch in range(1, nepochs)]: its body runs for the
    epochs [1], ..., [nepochs - 1].  The number of
    completed executions of the body, counted by the per-epoch records in
    the statistics log, is at most [nepochs - 1], and exactly [nepochs - 1]
    when the loop ends without an exception: one less than the configured
    count. *)
Lemma epoch_loop_count (cfg : config) (s : state) :
  exists evs,
    trace (snd (training_loop cfg s)) = (trace s ++ evs)%list /\
    (count_stats evs <= Z.to_nat (nepochs cfg - 1))%nat /\
    (is_ok (fst (training_loop cfg s)) = true ->
     count_stats evs = Z.to_nat (nepochs cfg - 1)).
Proof.
  rewrite training_loop_unfold.
  set (s0 := log EvNetTrain _).
  destruct (epochs_stats cfg (py_range 1 (nepochs cfg)) s0)
    as (evs & E & N & N').
  rewrite py_range_length in N, N'.
  exists (EvNetTrain :: evs). split; [| split].
  - rewrite E. unfold s0. cbn [log trace with_training with_best3d
                                with_best2d].
    rewrite <- app_assoc. reflexivity.
  - change (EvNetTrain :: evs) with ([EvNetTrain] ++ evs)%list.
    rewrite count_stats_app. exact N.
  - intro Hok.
    change (EvNetTrain :: evs) with ([EvNetTrain] ++ evs)%list.
    rewrite count_stats_app. exact (N' Hok).
Qed.

(** ** C3: the epoch losses *)

Lemma fold_add_losses (cfg : config) (ls : list (xfloat * xfloat))
    (tot : pynum * pynum) :
  fold_left (add_losses cfg) ls tot
  = (fold_left pyadd
       (map (fun l => pymul (Flt (fst l)) (PyInt (batch_size cfg))) ls)
       (fst tot),
     fold_left pyadd
       (map (fun l => pymul (Flt (snd l)) (PyInt (batch_size cfg))) ls)
       (snd tot)).
Proof.
  revert tot. induction ls as [| l ls IH]; intro tot.
  - destruct tot; reflexivity.
  - simpl. rewrite IH. reflexivity.
Qed.

Lemma for_acc_collect_losses (cfg : config) (epoch : Z)
    (loader : list batch) :
  forall (tot : pynum * pynum) (s : state),
    for_acc loader tot (train_batch cfg epoch) s
    = bind (collect_losses cfg epoch loader)
           (fun ls => ret (fold_left (add_losses cfg) (map fst ls) tot)) s.
Proof.
  induction loader as [| b rest IH]; intros tot s.
  - reflexivity.
  - simpl. unfold train_batch at 1. rewrite !bind_assoc.
    apply bind_ext. intros ls s1.
    rewrite bind_ret_l, bind_assoc, IH.
    apply bind_ext. intros r s2. rewrite bind_ret_l.
    destruct ls; reflexivity.
Qed.

(** What the code computes in every epoch: each per-batch loss is scaled by
    the configured [batch_size], whatever the number of samples of the
    batch, and the sum is divided by the number of samples of the
    dataset. *)
Lemma train_phase_scaled (cfg : config) (epoch : Z) (s : state) :
  train_phase cfg epoch s
  = (ls <- collect_losses cfg epoch (train_loader cfg epoch) ;;
     e2d <- lift (scaled_average (batch_size cfg)
                    (map (fun p => fst (fst p)) ls)
                    (List.length (train_dataset cfg))) ;;
     e3d <- lift (scaled_average (batch_size cfg)
                    (map (fun p => snd (fst p)) ls)
                    (List.length (train_dataset cfg))) ;;
     let el := pyadd (pymul (Flt (Fin (lweight2d cfg))) e2d)
                     (pymul (Flt (Fin (lweight3d cfg))) e3d) in
     s' <- get ;;
     set_net (lr_adjust_step (net s')) ;;;
     ret {| epoch_2d_loss := e2d; epoch_3d_loss := e3d; epoch_loss := el |}
    )%run s.
Proof.
  unfold train_phase.
  rewrite (bind_cong_l _ _ _ _
             (for_acc_collect_losses cfg epoch (train_loader cfg epoch) _ s)).
  rewrite bind_assoc. apply bind_ext. intros ls s1.
  rewrite bind_ret_l, fold_add_losses. cbn [fst snd].
  unfold scaled_average, pysum, py_len. rewrite !map_map. reflexivity.
Qed.

(** With full batches only, the code's scaling is the dataset-size-weighted
    average. *)
Lemma weighted_average_full_batches (k : Z) (losses : list (xfloat * nat))
    (n : nat) :
  Forall (fun p => Z.of_nat (snd p) = k) losses ->
  weighted_average losses n = scaled_average k (map fst losses) n.
Proof.
  intro H. unfold weighted_average, scaled_average. f_equal. f_equal.
  rewrite map_map. apply map_ext_Forall.
  eapply Forall_impl; [| exact H]. simpl. intros p Hp. rewrite Hp.
  reflexivity.
Qed.

End Properties.

(** ** The properties on concrete inputs *)

Lemma degenerate_confusion_fallback_witness :
  @try_confusion stub [0; 0]%Z [0; 0]%Z start
  = (Ok zero_counts, log (EvPrint "Only 0 mask") start) /\
  confusion_counts [0; 0]%Z [0; 0]%Z = Raise ValueError /\
  fst (@batch_values stub Test (denormalize_test 0 2) false
         [one_class_sample] start)
  = Ok {| sc_tn := PyInt 0; sc_fp := PyInt 0; sc_fn := PyInt 0;
          sc_tp := PyInt 0; sc_mean_ae := Flt (Fin (0 # 8));
          sc_s_rmse1 := Flt (Fin (0 # 32));
          sc_s_rmse2 := Flt (Fin (0 # 32)) |}.
Proof.
  destruct (@degenerate_confusion_fallback stub) as (H1 & H2 & H3).
  split; [| split].
  - apply (H1 _ _ _ ValueError). reflexivity.
  - apply (H2 0%Z); repeat constructor.
  - rewrite (H3 Test (denormalize_test 0 2) false [one_class_sample] start
               ValueError eq_refl).
    reflexivity.
Defined.

Lemma verbose_branch_raises_witness :
  fst (@batch_values stub Test (denormalize_test 0 2) true
         [two_class_sample] start)
  = Raise (NameError "s_rmse") /\
  fst (@test_phase stub verbose_config start) = Raise (NameError "s_rmse").
Proof.
  destruct (@verbose_branch_raises stub) as (H1 & H2 & H3).
  split.
  - apply H2. reflexivity.
  - exact (H3 verbose_config start [two_class_sample] [] eq_refl eq_refl).
Defined.

Lemma all_degenerate_phase_raises_witness :
  fst (@validation_phase stub degenerate_config 1 start)
  = Raise ZeroDivisionError /\
  fst (@test_phase stub degenerate_config start) = Raise ZeroDivisionError.
Proof.
  destruct (@all_degenerate_phase_raises stub degenerate_config) as [Hv Ht].
  split.
  - apply (Hv 1%Z start).
    + repeat constructor.
    + repeat constructor.
  - apply (Ht start).
    + repeat constructor.
    + reflexivity.
    + repeat constructor.
Defined.

(** A run configured for one epoch performs none; a run configured for
    three performs two, the second with the training batches in evaluation
    mode. *)
Example one_epoch_config_trace :
  @training_loop stub one_epoch_config start
  = (Ok tt, log EvNetTrain start).
Proof. reflexivity. Qed.

Example three_epoch_config_records :
  count_stats (trace (snd (@training_loop stub three_epoch_config start)))
  = 2%nat.
Proof. reflexivity. Qed.

Example three_epoch_config_modes :
  filter (fun ev => match ev with
                    | EvNetTrain | EvNetEval | EvForward _ _ => true
                    | _ => false
                    end)
         (trace (snd (@training_loop stub three_epoch_config start)))
  = [EvNetTrain;
     EvForward (Train 1) true; EvNetEval; EvForward (Valid 1) false;
     EvForward (Train 2) false; EvNetEval; EvForward (Valid 2) false].
Proof. reflexivity. Qed.

(** Only the 3D metric improves: only the 3D checkpoint is written. *)
Example only_3d_improves :
  trace (snd (@checkpoint_decision stub
                {| m_F1 := Flt (Fin 0); m_IoU := Flt (Fin 0);
                   m_mean_mae := Flt (Fin 5); m_RMSE1 := Flt (Fin 5);
                   m_RMSE2 := Flt (Fin 5) |}
                start))
  = [EvSave "3dbestnet.pth"; EvPrint "Best 3D model saved!"].
Proof. reflexivity. Qed.

(** A NaN metric never improves a tracker. *)
Example nan_never_improves :
  snd (@checkpoint_decision stub
         {| m_F1 := Flt NaN; m_IoU := Flt NaN; m_mean_mae := Flt NaN;
            m_RMSE1 := Flt NaN; m_RMSE2 := Flt NaN |}
         start)
  = start.
Proof. reflexivity. Qed.

(** C1. For every configuration the number of completed executions of the
    body of the epoch loop is at most [nepochs - 1], and exactly
    [nepochs - 1] when the loop ends without an exception; with
    [nepochs = 1] nothing but [net.train()] happens. *)
Theorem epoch_loop_one_short :
  (forall (C : Collaborators) (cfg : config) (s : state),
      exists evs,
        trace (snd (training_loop cfg s)) = (trace s ++ evs)%list /\
        (count_stats evs <= Z.to_nat (nepochs cfg - 1))%nat /\
        (is_ok (fst (training_loop cfg s)) = true ->
         count_stats evs = Z.to_nat (nepochs cfg - 1))) /\
  nepochs one_epoch_config = 1%Z /\
  @training_loop stub one_epoch_config start = (Ok tt, log EvNetTrain start).
Proof.
  split; [| split].
  - intros C cfg s. apply epoch_loop_count.
  - reflexivity.
  - reflexivity.
Qed.

(** C3. In every epoch the code scales each per-batch loss by the
    configured [batch_size] and divides the sum by the number of samples of
    the dataset.  With three samples in batches of two and a loss of 1 on
    both batches, the reported 2D and 3D epoch losses are 4/3, whereas the
    dataset-size-weighted average, which scales the loss of the partial
    last batch by its one sample, is 1. *)
Theorem epoch_loss_overweights_partial_batch :
  (forall (C : Collaborators) (cfg : config) (epoch : Z) (s : state),
      fst (train_phase cfg epoch s)
      = fst ((ls <- collect_losses cfg epoch (train_loader cfg epoch) ;;
              e2d <- lift (scaled_average (batch_size cfg)
                             (map (fun p => fst (fst p)) ls)
                             (List.length (train_dataset cfg))) ;;
              e3d <- lift (scaled_average (batch_size cfg)
                             (map (fun p => snd (fst p)) ls)
                             (List.length (train_dataset cfg))) ;;
              ret {| epoch_2d_loss := e2d; epoch_3d_loss := e3d;
                     epoch_loss :=
                       pyadd (pymul (Flt (Fin (lweight2d cfg))) e2d)
                             (pymul (Flt (Fin (lweight3d cfg))) e3d) |}
             )%run s)) /\
  map (@List.length _) (@train_loader stub partial_batch_config 1)
  = [2%nat; 1%nat] /\
  fst (@collect_losses stub partial_batch_config 1
         (@train_loader stub partial_batch_config 1) start)
  = Ok [(Fin 1, Fin 1, 2%nat); (Fin 1, Fin 1, 1%nat)] /\
  fst (@train_phase stub partial_batch_config 1 start)
  = Ok {| epoch_2d_loss := Flt (Fin (4 # 3));
          epoch_3d_loss := Flt (Fin (4 # 3));
          epoch_loss := Flt (Fin (24 # 9)) |} /\
  weighted_average [(Fin 1, 2%nat); (Fin 1, 1%nat)] 3
  = Ok (Flt (Fin (3 # 3))) /\
  ~ feq (Fin (4 # 3)) (Fin (3 # 3)).
Proof.
  split; [| repeat split].
  - intros C cfg epoch s. rewrite train_phase_scaled.
    destruct (collect_losses cfg epoch (train_loader cfg epoch) s)
      as [[ls | x] s1] eqn:E.
    + rewrite !(bind_ok _ _ _ _ _ E).
      destruct (scaled_average (batch_size cfg)
                  (map (fun p => fst (fst p)) ls)
                  (List.length (train_dataset cfg))) as [e2d | x];
        [| reflexivity].
      destruct (scaled_average (batch_size cfg)
                  (map (fun p => snd (fst p)) ls)
                  (List.length (train_dataset cfg))) as [e3d | x];
        reflexivity.
    + rewrite !(bind_raise _ _ _ _ _ E). reflexivity.
  - simpl. intro H. discriminate H.
Qed.

(** * Further properties of the script *)

(** ** The affine rescaling of the 3D target, lines 209, 252 and 324 *)

Lemma normalize_Fin (mn mx x : Q) :
  ~ mx == mn ->
  normalize mn mx (Fin x) = Fin (2 * (x + - mn) / (mx - mn) + - (1)).
Proof.
  intro Hne.
  assert (Hd : ~ mx - mn == 0) by (intro H; apply Hne; lra).
  unfold normalize, fsub. cbn [fmul fopp fadd fdiv].
  rewrite (Qeq_bool_false _ _ Hd). reflexivity.
Qed.

(** X1. Up to floating-point tolerance (the statement is that of exact
    arithmetic), with [min_scale < max_scale] the normalisation of line 209
    preserves the order of the values and sends the interval of physical
    values onto the range of the bounded activation: [min_scale] goes to
    -1, [max_scale] to 1, and every value between the bounds to a value
    between -1 and 1. *)
Theorem normalize_range (mn mx x : Q) :
  mn < mx ->
  exists y,
    normalize mn mx (Fin x) = Fin y /\
    (mn <= x -> -1 <= y) /\ (x <= mx -> y <= 1) /\
    (x == mn -> y == -1) /\ (x == mx -> y == 1) /\
    (forall x' y', x < x' -> normalize mn mx (Fin x') = Fin y' -> y < y').
Proof.
  intro Hlt.
  assert (Hne : ~ mx == mn) by (intro H; lra).
  assert (Hd : 0 < mx - mn) by lra.
  assert (Hd' : ~ mx - mn == 0) by lra.
  exists (2 * (x + - mn) / (mx - mn) + - (1)).
  split; [apply normalize_Fin; exact Hne |].
  assert (Hdiv : forall a b, a <= b -> a / (mx - mn) <= b / (mx - mn)).
  { intros a b Hab. apply Qle_shift_div_l; [exact Hd |].
    unfold Qdiv. rewrite <- Qmult_assoc, (Qmult_comm (/ _)), Qmult_inv_r
      by exact Hd'. lra. }
  assert (Hdivlt : forall a b, a < b -> a / (mx - mn) < b / (mx - mn)).
  { intros a b Hab. apply Qlt_shift_div_l; [exact Hd |].
    unfold Qdiv. rewrite <- Qmult_assoc, (Qmult_comm (/ _)), Qmult_inv_r
      by exact Hd'. lra. }
  assert (H0 : 0 / (mx - mn) == 0) by (field; exact Hd').
  assert (H1 : 2 * (mx + - mn) / (mx - mn) == 2) by (field; exact Hd').
  repeat split.
  - intro Hx. pose proof (Hdiv 0 (2 * (x + - mn)) ltac:(lra)). lra.
  - intro Hx.
    pose proof (Hdiv (2 * (x + - mn)) (2 * (mx + - mn)) ltac:(lra)). lra.
  - intro Hx. rewrite Hx. field. exact Hd'.
  - intro Hx. rewrite Hx. field. exact Hd'.
  - intros x' y' Hxx' Hy'. rewrite (normalize_Fin _ _ _ Hne) in Hy'.
    injection Hy' as Hy'. subst y'.
    pose proof (Hdivlt (2 * (x + - mn)) (2 * (x' + - mn)) ltac:(lra)). lra.
Qed.

Lemma normalize_range_witness :
  exists y,
    normalize 0 2 (Fin (1 # 2)) = Fin y /\
    (0 <= 1 # 2 -> -1 <= y) /\ (1 # 2 <= 2 -> y <= 1) /\
    (1 # 2 == 0 -> y == -1) /\ (1 # 2 == 2 -> y == 1) /\
    (forall x' y', 1 # 2 < x' -> normalize 0 2 (Fin x') = Fin y' -> y < y').
Proof. apply (normalize_range 0 2 (1 # 2)). reflexivity. Defined.

(** X2. The validation loop and the test loop write the inverse transform
    differently, [((y+1)/2)*(max-min)+min] and [(y+1)*(max-min)/2+min]; up
    to floating-point tolerance (equality is that of exact arithmetic) the
    two expressions denote the same value on every finite input, and they
    give the same infinity or NaN on an infinite or NaN input, equal bounds
    included. *)
Theorem denormalize_valid_test_agree (mn mx : Q) (y : xfloat) :
  feq (denormalize_valid mn mx y) (denormalize_test mn mx y).
Proof.
  unfold denormalize_valid, denormalize_test.
  generalize (mx - mn). intro d.
  destruct y as [q | | |].
  - cbn [fadd fmul fdiv]. change (Qeq_bool 2 0) with false.
    cbn [fadd fmul feq]. field.
  - change (fadd PInf (Fin 1)) with PInf.
    change (fdiv PInf (Fin 2)) with PInf.
    change (fmul PInf (Fin d)) with (inf_of_sign (sign_mul Gt (d ?= 0))).
    destruct (d ?= 0); exact I.
  - change (fadd NInf (Fin 1)) with NInf.
    change (fdiv NInf (Fin 2)) with NInf.
    change (fmul NInf (Fin d)) with (inf_of_sign (sign_mul Lt (d ?= 0))).
    destruct (d ?= 0); exact I.
  - exact I.
Qed.

(** X3. The normalisation also undoes both inverse transforms, up to
    floating-point tolerance (equality is that of exact arithmetic): for
    bounds with [max_scale <> min_scale], a finite network output that is
    denormalised and normalised again is unchanged. *)
Theorem denormalize_then_normalize (mn mx y : Q) :
  ~ mx == mn ->
  feq (normalize mn mx (denormalize_valid mn mx (Fin y))) (Fin y) /\
  feq (normalize mn mx (denormalize_test mn mx (Fin y))) (Fin y).
Proof.
  intro Hne.
  assert (Hd : ~ mx - mn == 0) by (intro H; apply Hne; lra).
  unfold denormalize_valid, denormalize_test.
  cbn [fadd fmul fdiv]. change (Qeq_bool 2 0) with false.
  cbn [fadd fmul fdiv]. rewrite !(normalize_Fin _ _ _ Hne).
  cbn [feq]. split; field; exact Hd.
Qed.

Lemma denormalize_then_normalize_witness :
  feq (normalize 0 2 (denormalize_valid 0 2 (Fin (1 # 3)))) (Fin (1 # 3)) /\
  feq (normalize 0 2 (denormalize_test 0 2 (Fin (1 # 3)))) (Fin (1 # 3)).
Proof.
  apply (denormalize_then_normalize 0 2 (1 # 3)). intro H. discriminate H.
Defined.



(** ** More on [metric_mse], lines 45-51 *)

Lemma Qsquare_nonneg (a : Q) : 0 <= a * a.
Proof. nra. Qed.

Lemma fold_Qplus_shift (l : list Q) (a : Q) :
  fold_left Qplus l a == a + Qsum l.
Proof.
  unfold Qsum. revert a. induction l as [| x l IH]; intro a; simpl.
  - lra.
  - rewrite IH, (IH (0 + x)). lra.
Qed.

Lemma Qsum_cons (x : Q) (l : list Q) : Qsum (x :: l) == x + Qsum l.
Proof. unfold Qsum at 1. simpl. rewrite fold_Qplus_shift. lra. Qed.

Lemma Qsum_nonneg (l : list Q) : Forall (fun x => 0 <= x) l -> 0 <= Qsum l.
Proof.
  intro H. induction H as [| x l Hx _ IH].
  - unfold Qsum. simpl. lra.
  - rewrite Qsum_cons. lra.
Qed.


Lemma squares_nonneg (xs ys : list Q) :
  Forall (fun x => 0 <= x) (zip_with (fun x y => (x - y) * (x - y)) xs ys).
Proof.
  revert ys. induction xs as [| x xs IH]; intros [| y ys]; simpl;
    constructor; [apply Qsquare_nonneg | apply IH].
Qed.

Lemma metric_mse_Fin (xs ys : list Q) (ez : bool) :
  List.length xs = List.length ys ->
  metric_mse (map Fin xs) (map Fin ys) ez
  = Ok (Flt (fdiv (Fin (Qsum (zip_with (fun x y => (x - y) * (x - y)) xs ys)))
                  (if ez then Fin (inject_Z (np_count_nonzero (map Fin ys)))
                   else of_nat (List.length xs)))).
Proof.
  intro Hlen.
  rewrite metric_mse_same_length by (rewrite !length_map; exact Hlen).
  rewrite (zip_with_map_Fin sq_err (fun x y => (x - y) * (x - y)))
    by reflexivity.
  unfold np_mean. rewrite np_sum_Fin, length_map, zip_with_length by exact Hlen.
  destruct ez; reflexivity.
Qed.

Lemma count_nonzero_le_length (a : array) :
  (0 <= np_count_nonzero a <= Z.of_nat (List.length a))%Z.
Proof.
  unfold np_count_nonzero. pose proof (filter_length_le fnonzero a). lia.
Qed.

Lemma fdiv_Fin_pos (a : Q) (z : Z) :
  (0 < z)%Z -> fdiv (Fin a) (Fin (inject_Z z)) = Fin (a / inject_Z z).
Proof.
  intro Hz. unfold fdiv. rewrite Qeq_bool_false; [reflexivity |].
  intro H. unfold Qeq in H. simpl in H. lia.
Qed.

(** X5. With [exclude_zeros = True] only the divisor changes: for arrays of
    equal length with at least one non-zero target, the numerator is the
    squared error summed over all the pixels, those with a zero target
    included, and it is divided by the number of non-zero targets.  The
    result is therefore never below the plain mean squared error. *)
Theorem metric_mse_exclude_zeros_divisor (xs ys : list Q) :
  List.length xs = List.length ys ->
  (0 < np_count_nonzero (map Fin ys))%Z ->
  let total := Qsum (zip_with (fun x y => (x - y) * (x - y)) xs ys) in
  let k := inject_Z (np_count_nonzero (map Fin ys)) in
  let n := inject_Z (Z.of_nat (List.length xs)) in
  metric_mse (map Fin xs) (map Fin ys) true = Ok (Flt (Fin (total / k))) /\
  metric_mse (map Fin xs) (map Fin ys) false = Ok (Flt (Fin (total / n))) /\
  total / n <= total / k.
Proof.
  intros Hlen Hk total k n.
  pose proof (count_nonzero_le_length (map Fin ys)) as Hkn.
  rewrite length_map, <- Hlen in Hkn.
  assert (Hn : (0 < Z.of_nat (List.length xs))%Z) by lia.
  split; [| split].
  - rewrite (metric_mse_Fin xs ys true Hlen). rewrite fdiv_Fin_pos by exact Hk.
    reflexivity.
  - rewrite (metric_mse_Fin xs ys false Hlen). unfold of_nat.
    rewrite fdiv_Fin_pos by exact Hn. reflexivity.
  - assert (Ht : 0 <= total) by (apply Qsum_nonneg, squares_nonneg).
    assert (Hk0 : 0 < k) by (unfold k, Qlt; simpl; lia).
    assert (Hn0 : 0 < n) by (unfold n, Qlt; simpl; lia).
    assert (Hle : k <= n) by (unfold k, n, Qle; simpl; lia).
    assert (Hq : 0 <= total / k).
    { apply Qle_shift_div_l; [exact Hk0 | lra]. }
    assert (Hqk : total / k * k == total) by (field; lra).
    apply Qle_shift_div_r; [exact Hn0 |]. nra.
Qed.

Lemma metric_mse_exclude_zeros_divisor_witness :
  metric_mse (map Fin [3; 1]) (map Fin [0; 1]) true
  = Ok (Flt (Fin (Qsum (zip_with (fun x y => (x - y) * (x - y)) [3; 1] [0; 1])
                  / inject_Z (np_count_nonzero (map Fin [0; 1]))))) /\
  metric_mse (map Fin [3; 1]) (map Fin [0; 1]) false
  = Ok (Flt (Fin (Qsum (zip_with (fun x y => (x - y) * (x - y)) [3; 1] [0; 1])
                  / inject_Z (Z.of_nat (List.length [3; 1]))))) /\
  Qsum (zip_with (fun x y => (x - y) * (x - y)) [3; 1] [0; 1])
  / inject_Z (Z.of_nat (List.length [3; 1]))
  <= Qsum (zip_with (fun x y => (x - y) * (x - y)) [3; 1] [0; 1])
     / inject_Z (np_count_nonzero (map Fin [0; 1])).
Proof.
  apply (metric_mse_exclude_zeros_divisor [3; 1] [0; 1]); reflexivity.
Defined.

Lemma Qsum_ext (l1 l2 : list Q) : Forall2 Qeq l1 l2 -> Qsum l1 == Qsum l2.
Proof.
  intro H. induction H as [| x y l1 l2 Hxy _ IH].
  - reflexivity.
  - rewrite !Qsum_cons, Hxy, IH. reflexivity.
Qed.

Lemma squares_sym (xs ys : list Q) :
  Forall2 Qeq (zip_with (fun x y => (x - y) * (x - y)) xs ys)
              (zip_with (fun x y => (x - y) * (x - y)) ys xs).
Proof.
  revert ys. induction xs as [| x xs IH]; intros [| y ys]; simpl;
    constructor; [ring | apply IH].
Qed.


Lemma squares_of_equal (xs ys : list Q) :
  Forall2 Qeq xs ys ->
  Forall (fun d => d == 0)
         (zip_with (fun x y => (x - y) * (x - y)) xs ys).
Proof.
  intro H. induction H as [| x y xs ys Hxy _ IH]; simpl; constructor;
    [rewrite Hxy; ring | exact IH].
Qed.

Lemma Qsum_of_zeros (l : list Q) :
  Forall (fun d => d == 0) l -> Qsum l == 0.
Proof.
  intro H. induction H as [| x l Hx _ IH].
  - reflexivity.
  - rewrite Qsum_cons, Hx, IH. reflexivity.
Qed.

(** X6. On non-empty arrays of finite values and equal length the plain
    mean squared error returned by [metric_mse] is never negative, is the
    same when its two arguments are exchanged, and is zero when prediction
    and target agree on every pixel. *)
Theorem metric_mse_plain_properties (xs ys : list Q) :
  List.length xs = List.length ys -> ys <> [] ->
  exists f f' : xfloat,
    metric_mse (map Fin xs) (map Fin ys) false = Ok (Flt f) /\
    metric_mse (map Fin ys) (map Fin xs) false = Ok (Flt f') /\
    not_negative f /\ feq f' f /\
    (Forall2 Qeq xs ys -> feq f (Fin 0)).
Proof.
  intros Hlen Hne.
  assert (Hn : (0 < Z.of_nat (List.length xs))%Z).
  { destruct xs, ys; simpl in *; try congruence; lia. }
  set (n := inject_Z (Z.of_nat (List.length xs))).
  assert (Hn0 : 0 < n) by (unfold n, Qlt; simpl; lia).
  set (total := Qsum (zip_with (fun x y => (x - y) * (x - y)) xs ys)).
  assert (Ht : 0 <= total) by (apply Qsum_nonneg, squares_nonneg).
  exists (Fin (total / n)),
         (Fin (Qsum (zip_with (fun x y => (x - y) * (x - y)) ys xs) / n)).
  split; [| split; [| split; [| split]]].
  - rewrite (metric_mse_Fin xs ys false Hlen). unfold of_nat.
    rewrite fdiv_Fin_pos by exact Hn. reflexivity.
  - rewrite (metric_mse_Fin ys xs false (eq_sym Hlen)). unfold of_nat.
    rewrite <- Hlen. rewrite fdiv_Fin_pos by exact Hn. reflexivity.
  - cbn [not_negative]. apply Qle_shift_div_l; [exact Hn0 | lra].
  - cbn [feq]. rewrite (Qsum_ext _ _ (squares_sym ys xs)). reflexivity.
  - intro Heq. cbn [feq]. unfold total.
    rewrite (Qsum_of_zeros _ (squares_of_equal xs ys Heq)).
    field. lra.
Qed.

Lemma metric_mse_plain_properties_witness :
  exists f f' : xfloat,
    metric_mse (map Fin [3; 1]) (map Fin [3; 1]) false = Ok (Flt f) /\
    metric_mse (map Fin [3; 1]) (map Fin [3; 1]) false = Ok (Flt f') /\
    not_negative f /\ feq f' f /\
    (Forall2 Qeq [3; 1] [3; 1] -> feq f (Fin 0)).
Proof.
  apply (metric_mse_plain_properties [3; 1] [3; 1]).
  - reflexivity.
  - discriminate.
Defined.

(** ** The loaders, lines 132-134 *)

Lemma chunks_fuel_nil_iff {A} (fuel n : nat) (l : list A) :
  (List.length l <= fuel)%nat -> (chunks_fuel fuel n l = [] <-> l = []).
Proof.
  intro Hl. destruct fuel as [| fuel]; destruct l as [| x l'];
    simpl in *; split; intro H; try reflexivity; try discriminate; lia.
Qed.

Lemma chunks_fuel_count {A} (n : nat) :
  (0 < n)%nat ->
  forall (fuel : nat) (l : list A),
    (List.length l <= fuel)%nat ->
    List.length (chunks_fuel fuel n l) = ((List.length l + n - 1) / n)%nat.
Proof.
  intro Hn. induction fuel as [| fuel IH]; intros l Hl.
  - destruct l; [| simpl in Hl; lia]. simpl.
    symmetry. apply Nat.div_small. lia.
  - destruct l as [| x l'].
    + simpl. symmetry. apply Nat.div_small. lia.
    + cbn [chunks_fuel List.length]. rewrite IH.
      * rewrite length_skipn. cbn [List.length].
        destruct (Nat.le_gt_cases (Datatypes.S (List.length l')) n) as [H | H].
        -- replace (Datatypes.S (List.length l') - n)%nat with O by lia.
           replace ((0 + n - 1) / n)%nat with O
             by (symmetry; apply Nat.div_small; lia).
           replace (Datatypes.S (List.length l') + n - 1)%nat
             with ((List.length l') + 1 * n)%nat by lia.
           rewrite Nat.div_add by lia.
           rewrite Nat.div_small by lia. reflexivity.
        -- replace (Datatypes.S (List.length l') + n - 1)%nat
             with ((Datatypes.S (List.length l') - n + n - 1) + 1 * n)%nat
             by lia.
           rewrite Nat.div_add by lia. lia.
      * rewrite length_skipn. cbn [List.length] in *.
        destruct n; lia.
Qed.

Lemma chunks_fuel_init_full {A} (n : nat) :
  (0 < n)%nat ->
  forall (fuel : nat) (l : list A),
    (List.length l <= fuel)%nat ->
    Forall (fun b => List.length b = n) (removelast (chunks_fuel fuel n l)).
Proof.
  intro Hn. induction fuel as [| fuel IH]; intros l Hl; [constructor |].
  destruct l as [| x l']; [constructor |].
  cbn [chunks_fuel].
  assert (Hs : (List.length (skipn n (x :: l')) <= fuel)%nat).
  { rewrite length_skipn. cbn [List.length] in *. destruct n; lia. }
  destruct (chunks_fuel fuel n (skipn n (x :: l'))) as [| b rest] eqn:E.
  - constructor.
  - change (removelast (firstn n (x :: l') :: b :: rest))
      with (firstn n (x :: l') :: removelast (b :: rest)).
    constructor.
    + assert (Hne : skipn n (x :: l') <> []).
      { intro H0. apply (chunks_fuel_nil_iff fuel n _ Hs) in H0.
        congruence. }
      rewrite length_firstn. apply Nat.min_l.
      destruct (Nat.le_gt_cases n (List.length (x :: l'))) as [H | H];
        [exact H |].
      exfalso. apply Hne. apply skipn_all2. lia.
    + rewrite <- E. apply IH. exact Hs.
Qed.

Lemma chunks_fuel_full {A} (n : nat) :
  (0 < n)%nat ->
  forall (fuel : nat) (l : list A),
    (List.length l <= fuel)%nat ->
    (List.length l mod n = 0)%nat ->
    Forall (fun b => List.length b = n) (chunks_fuel fuel n l).
Proof.
  intro Hn. induction fuel as [| fuel IH]; intros l Hl Hm; [constructor |].
  destruct l as [| x l']; [constructor |].
  cbn [chunks_fuel].
  assert (Hge : (n <= List.length (x :: l'))%nat).
  { destruct (Nat.le_gt_cases n (List.length (x :: l'))) as [H | H];
      [exact H |].
    rewrite Nat.mod_small in Hm by exact H. simpl in Hm. discriminate. }
  constructor.
  - rewrite length_firstn. apply Nat.min_l. exact Hge.
  - apply IH.
    + rewrite length_skipn. cbn [List.length] in *. lia.
    + rewrite length_skipn.
      replace (List.length (x :: l'))
        with ((List.length (x :: l') - n) + 1 * n)%nat in Hm by lia.
      rewrite Nat.Div0.mod_add in Hm. exact Hm.
Qed.

Lemma chunks_one {A} (l : list A) : chunks 1 l = map (fun x => [x]) l.
Proof.
  unfold chunks.
  assert (H : forall fuel (l : list A),
             (List.length l <= fuel)%nat ->
             chunks_fuel fuel 1 l = map (fun x => [x]) l).
  { induction fuel as [| fuel IH]; intros l0 Hl.
    - destruct l0; [reflexivity | simpl in Hl; lia].
    - destruct l0 as [| x l']; [reflexivity |].
      cbn [chunks_fuel firstn skipn map]. f_equal. apply IH.
      simpl in Hl. lia. }
  apply H. apply Nat.le_refl.
Qed.

Section More.

Context {C : Collaborators}.

(** X7. Once the training loader has been built at line 132 (batch size
    of at least one, non-empty dataset, a sampler that yields a permutation
    of the dataset), a pass of the loader yields at least one batch and
    every training sample exactly once; no batch is empty, every batch but
    the last holds exactly [batch_size] samples, the last holds at most
    that many, and the number of batches is the number of training samples
    divided by [batch_size], rounded up. *)
Theorem train_loader_batches (cfg : config) (pass : Z) :
  loader_built cfg ->
  let bs := Z.to_nat (batch_size cfg) in
  Permutation (concat (train_loader cfg pass)) (train_dataset cfg) /\
  train_loader cfg pass <> [] /\
  Forall (fun b => (1 <= List.length b <= bs)%nat) (train_loader cfg pass) /\
  Forall (fun b => List.length b = bs) (removelast (train_loader cfg pass)) /\
  List.length (train_loader cfg pass)
  = ((List.length (train_dataset cfg) + bs - 1) / bs)%nat.
Proof.
  intros (Hbs & Hne & Hperm) bs.
  assert (Hn : (0 < bs)%nat) by (unfold bs; lia).
  pose proof (Permutation_length (Hperm pass)) as Hlen.
  assert (Hcount : List.length (train_loader cfg pass)
                   = ((List.length (train_dataset cfg) + bs - 1) / bs)%nat).
  { rewrite <- Hlen. unfold train_loader, chunks. fold bs.
    apply chunks_fuel_count; [exact Hn | apply Nat.le_refl]. }
  split; [| split; [| split; [| split]]].
  - unfold train_loader, chunks. fold bs.
    rewrite chunks_fuel_concat; [apply Hperm | exact Hn | apply Nat.le_refl].
  - intro H. rewrite H in Hcount. cbn [List.length] in Hcount.
    assert (Hd : (1 <= List.length (train_dataset cfg))%nat).
    { destruct (train_dataset cfg); [congruence | simpl; lia]. }
    assert (Hq : (1 <= (List.length (train_dataset cfg) + bs - 1) / bs)%nat).
    { apply Nat.div_le_lower_bound; lia. }
    lia.
  - unfold train_loader, chunks. fold bs. apply chunks_fuel_sizes. exact Hn.
  - unfold train_loader, chunks. fold bs.
    apply chunks_fuel_init_full; [exact Hn | apply Nat.le_refl].
  - exact Hcount.
Qed.

(** X8. The validation and test loaders are built with a batch size of
    one: each yields one single-sample batch per sample of its dataset, in
    order.  The number of batches that divides the summed errors at the end
    of a phase is therefore the number of samples. *)
Theorem eval_loaders_single_samples (cfg : config) :
  valid_loader cfg = map (fun s => [s]) (valid_dataset cfg) /\
  test_loader cfg = map (fun s => [s]) (test_dataset cfg) /\
  py_len (valid_loader cfg) = py_len (valid_dataset cfg) /\
  py_len (test_loader cfg) = py_len (test_dataset cfg).
Proof.
  unfold valid_loader, test_loader, py_len. rewrite !chunks_one.
  rewrite !length_map. repeat split.
Qed.

(** ** What the phases leave untouched *)

Ltac rel_step Hr Ht :=
  match goal with
  | |- preserves _ (ret _) => apply (preserves_ret _ _ Hr)
  | |- preserves _ (lift _) => apply (preserves_lift _ _ Hr)
  | |- preserves _ get => apply (preserves_get _ _ Hr)
  | |- preserves _ (bind _ _) => apply (preserves_bind _ _ Ht); [| intro]
  | |- preserves _ (for_each _ _) =>
      apply (preserves_for_each _ _ Hr Ht); intro
  | |- preserves _ (for_acc _ _ _) =>
      apply (preserves_for_acc _ _ Hr Ht); intros
  | |- preserves _ (if ?b then _ else _) => destruct b
  | |- preserves _ (match ?x with _ => _ end) => destruct x
  end.

Lemma same_model_refl (s : state) : same_model s s.
Proof. repeat split. Qed.

Lemma same_model_trans (s1 s2 s3 : state) :
  same_model s1 s2 -> same_model s2 s3 -> same_model s1 s3.
Proof.
  unfold same_model. intros (A1 & A2 & A3 & A4 & A5) (B1 & B2 & B3 & B4 & B5).
  repeat split; congruence.
Qed.

Lemma metric_phase_same_model ph denorm verb (loader : list batch) :
  preserves same_model (metric_phase ph denorm verb loader).
Proof.
  unfold metric_phase, metric_batch.
  repeat first [ exact (batch_values_same_model _ _ _ _)
               | rel_step same_model_refl same_model_trans ].
Qed.

(** X9. A validation phase is read-only: whatever the batches and whether
    it returns or raises, it leaves the parameters of the network, both
    best-metric trackers and every file as they were; the only thing it
    changes is the mode of the network, which it leaves in evaluation
    mode. *)
Theorem validation_phase_read_only (cfg : config) (epoch : Z) (s : state) :
  let s' := snd (validation_phase cfg epoch s) in
  net s' = net s /\
  best2dmetric s' = best2dmetric s /\
  best3dmetric s' = best3dmetric s /\
  files s' = files s /\
  training s' = false.
Proof.
  cbv zeta. rewrite validation_phase_unfold.
  destruct (metric_phase_same_model (Valid epoch)
              (denormalize_valid (min_scale cfg) (max_scale cfg)) false
              (valid_loader cfg) (log EvNetEval (with_training false s)))
    as (H1 & H2 & H3 & H4 & H5).
  repeat split; assumption.
Qed.

Lemma restored_fields (cfg : config) (s : state) :
  files (restored cfg s) = files s /\
  best2dmetric (restored cfg s) = best2dmetric s /\
  best3dmetric (restored cfg s) = best3dmetric s /\
  training (restored cfg s) = training s /\
  trace (restored cfg s) = trace s.
Proof. unfold restored. destruct (files s _); repeat split. Qed.

(** X10. The final test phase saves no checkpoint: whether it returns or
    raises, no [torch.save] is observed, the checkpoint files and both
    best-metric trackers are as before, and the parameters it evaluates are
    those obtained by the restore of lines 301-303; it leaves the network
    in evaluation mode.  (Its output to [stats.txt] is the Test record.) *)
Theorem test_phase_writes_no_checkpoint (cfg : config) (s : state) :
  let s' := snd (test_phase cfg s) in
  files s' = files s /\
  best2dmetric s' = best2dmetric s /\
  best3dmetric s' = best3dmetric s /\
  net s' = net (restored cfg s) /\
  training s' = false /\
  exists evs,
    trace s' = (trace s ++ EvNetEval :: evs)%list /\
    forall name, ~ In (EvSave name) evs.
Proof.
  cbv zeta. rewrite test_phase_unfold.
  set (s2 := log EvNetEval (with_training false (restored cfg s))).
  set (tail := bind (metric_phase Test
                       (denormalize_test (min_scale cfg) (max_scale cfg))
                       (verbose cfg) (test_loader cfg))
                    (fun m => bind (emit (EvTestStats (test_record m)))
                                   (fun _ => ret m))).
  assert (Hsm : preserves same_model tail).
  { unfold tail.
    repeat first [ apply metric_phase_same_model
                 | rel_step same_model_refl same_model_trans ].
    intro s0. repeat split. }
  set (Q := fun ev => forall name, ev <> EvSave name).
  assert (Hob : preserves (observes false Q) tail).
  { unfold tail.
    repeat first [ apply metric_phase_observes;
                   [intros msg name; discriminate
                   | intros name; discriminate]
                 | apply emit_observes; intros name; discriminate
                 | rel_step (observes_refl false Q) (observes_trans false Q) ].
  }
  destruct (Hsm s2) as (H1 & H2 & H3 & H4 & H5).
  destruct (Hob s2 eq_refl) as (Ht & evs & E & F).
  destruct (restored_fields cfg s) as (R1 & R2 & R3 & R4 & R5).
  split; [rewrite H5; exact R1 |].
  split; [rewrite H3; exact R2 |].
  split; [rewrite H4; exact R3 |].
  split; [exact H1 |].
  split; [exact Ht |].
  exists evs. split.
  - rewrite E. unfold s2. cbn [log trace with_training]. rewrite R5.
    rewrite <- app_assoc. reflexivity.
  - intros name Hin. rewrite Forall_forall in F. exact (F _ Hin name eq_refl).
Qed.





Lemma emits_refl (Q : event -> Prop) (s : state) : emits Q s s.
Proof. exists []. split; [rewrite app_nil_r; reflexivity | constructor]. Qed.

Lemma emits_trans (Q : event -> Prop) (s1 s2 s3 : state) :
  emits Q s1 s2 -> emits Q s2 s3 -> emits Q s1 s3.
Proof.
  intros (e1 & E1 & F1) (e2 & E2 & F2). exists (e1 ++ e2)%list. split.
  - rewrite E2, E1, app_assoc. reflexivity.
  - apply Forall_app. split; assumption.
Qed.

Ltac emits_leaf :=
  apply preserves_modify;
  let s0 := fresh "s" in
  intro s0;
  first
    [ exists []; split;
      [ rewrite app_nil_r;
        first [ reflexivity
              | unfold restored; destruct (files s0 _); reflexivity ]
      | constructor ]
    | eexists [_]; split;
      [ reflexivity | constructor; [cbn; auto | constructor] ] ].

Lemma script_emits_best_file_saves (cfg : config) :
  preserves (emits best_file_save) (script cfg).
Proof.
  unfold script, training_loop, test_phase, epoch_body, train_phase,
    train_batch, train_step, validation_phase, metric_phase, metric_batch,
    batch_values, score_batch, try_confusion, verbose_report,
    checkpoint_decision, checkpoint_2d, checkpoint_3d, torch_save, net_call,
    net_train, net_eval, restore_checkpoint, emit, set_net, set_training,
    set_best2d, set_best3d.
  repeat first [ emits_leaf
               | rel_step (emits_refl best_file_save)
                          (emits_trans best_file_save) ].
Qed.

(** X11. From the first epoch to the end of the test phase, every
    [torch.save] of the run, whether it completes or raises, is made to
    one of the two paths [out_file + '/2dbestnet.pth'] and
    [out_file + '/3dbestnet.pth']: no checkpoint is ever saved under
    another name, in particular not under the restore tag. *)
Theorem script_saves_only_best_files (cfg : config) (s : state) :
  exists evs,
    trace (snd (script cfg s)) = (trace s ++ evs)%list /\
    forall name : string,
      In (EvSave name) evs ->
      name = "2dbestnet.pth"%string \/ name = "3dbestnet.pth"%string.
Proof.
  destruct (script_emits_best_file_saves cfg s) as (evs & E & F).
  exists evs. split; [exact E |].
  intros name Hin. rewrite Forall_forall in F. exact (F _ Hin).
Qed.

(** ** The training phase *)

Lemma train_step_returns (cfg : config) (epoch : Z) (b : batch) (s : state) :
  exists ls s', train_step cfg epoch b s = (Ok ls, s').
Proof.
  unfold train_step, net_call, set_net, emit, modify, get, bind, ret.
  cbv beta iota zeta. eexists. eexists. reflexivity.
Qed.

Lemma collect_losses_returns (cfg : config) (epoch : Z)
    (loader : list batch) :
  forall s : state,
    exists ls s',
      collect_losses cfg epoch loader s = (Ok ls, s') /\
      map snd ls = map (@List.length _) loader.
Proof.
  induction loader as [| b rest IH]; intro s.
  - exists [], s. split; reflexivity.
  - destruct (train_step_returns cfg epoch b s) as (l & s1 & E1).
    destruct (IH s1) as (ls & s2 & E2 & Hlen).
    exists ((fst l, snd l, List.length b) :: ls), s2. split.
    + cbn [collect_losses].
      rewrite (bind_ok _ _ _ _ _ E1), (bind_ok _ _ _ _ _ E2). reflexivity.
    + simpl. rewrite Hlen. reflexivity.
Qed.

Lemma Forall_sizes_transfer (ls : list (xfloat * xfloat * nat))
    (loader : list batch) (k : Z) (f : xfloat * xfloat * nat -> xfloat) :
  map snd ls = map (@List.length _) loader ->
  Forall (fun b => Z.of_nat (List.length b) = k) loader ->
  Forall (fun p : xfloat * nat => Z.of_nat (snd p) = k)
         (map (fun p => (f p, snd p)) ls).
Proof.
  revert loader. induction ls as [| p ls IH]; intros [| b loader] Hm Hf;
    simpl in *; try discriminate; constructor.
  - inversion Hf; subst. injection Hm as Hp _. simpl. rewrite Hp. reflexivity.
  - inversion Hf; subst. injection Hm as _ Hm. eapply IH; eassumption.
Qed.

(** X14. Once the training loader has been built at line 132, when the
    number of training samples is a multiple of the batch size every batch
    is full and the epoch losses the code reports are the
    dataset-size-weighted averages of the per-batch losses: the scaling by
    the configured batch size then coincides with the scaling by the size
    of each batch. *)
Theorem epoch_loss_full_batches (cfg : config) (epoch : Z) (s : state) :
  loader_built cfg ->
  (Z.of_nat (List.length (train_dataset cfg)) mod batch_size cfg = 0)%Z ->
  Forall (fun b => Z.of_nat (List.length b) = batch_size cfg)
         (train_loader cfg epoch) /\
  fst (train_phase cfg epoch s)
  = fst ((ls <- collect_losses cfg epoch (train_loader cfg epoch) ;;
          e2d <- lift (weighted_average
                         (map (fun p => (fst (fst p), snd p)) ls)
                         (List.length (train_dataset cfg))) ;;
          e3d <- lift (weighted_average
                         (map (fun p => (snd (fst p), snd p)) ls)
                         (List.length (train_dataset cfg))) ;;
          ret {| epoch_2d_loss := e2d; epoch_3d_loss := e3d;
                 epoch_loss :=
                   pyadd (pymul (Flt (Fin (lweight2d cfg))) e2d)
                         (pymul (Flt (Fin (lweight3d cfg))) e3d) |}
         )%run s).
Proof.
  intros (Hbs & Hne & Hperm) Hmod.
  rewrite <- (Permutation_length (Hperm epoch)) in Hmod.
  assert (Hbs' : (0 < batch_size cfg)%Z) by lia. clear Hbs.
  rename Hbs' into Hbs.
  assert (Hfull : Forall (fun b => Z.of_nat (List.length b) = batch_size cfg)
                         (train_loader cfg epoch)).
  { unfold train_loader, chunks.
    eapply Forall_impl;
      [| apply (chunks_fuel_full (Z.to_nat (batch_size cfg)));
         [lia | apply Nat.le_refl |] ].
    - simpl. intros b Hb. rewrite Hb. lia.
    - apply Nat2Z.inj. rewrite Nat2Z.inj_mod. rewrite Z2Nat.id by lia.
      exact Hmod. }
  split; [exact Hfull |].
  rewrite train_phase_scaled.
  destruct (collect_losses_returns cfg epoch (train_loader cfg epoch) s)
    as (ls & s1 & E & Hlen).
  rewrite !(bind_ok _ _ _ _ _ E).
  rewrite (weighted_average_full_batches (batch_size cfg)
             (map (fun p => (fst (fst p), snd p)) ls))
    by (apply (Forall_sizes_transfer ls (train_loader cfg epoch));
        assumption).
  rewrite (weighted_average_full_batches (batch_size cfg)
             (map (fun p => (snd (fst p), snd p)) ls))
    by (apply (Forall_sizes_transfer ls (train_loader cfg epoch));
        assumption).
  rewrite !map_map. cbn [fst].
  destruct (scaled_average (batch_size cfg) (map (fun p => fst (fst p)) ls)
              (List.length (train_dataset cfg))) as [e2d | x];
    [| reflexivity].
  destruct (scaled_average (batch_size cfg) (map (fun p => snd (fst p)) ls)
              (List.length (train_dataset cfg))) as [e3d | x];
    reflexivity.
Qed.

(** ** The statistics log *)

Lemma stats_epochs_app (l1 l2 : list event) :
  stats_epochs (l1 ++ l2) = (stats_epochs l1 ++ stats_epochs l2)%list.
Proof. unfold stats_epochs. apply flat_map_app. Qed.

Lemma stats_epochs_none (evs : list event) :
  Forall (fun ev => is_stats ev = false) evs -> stats_epochs evs = [].
Proof.
  intro H. induction H as [| ev evs Hev _ IH]; [reflexivity |].
  change (stats_epochs (ev :: evs))
    with ((match ev with EvStats r => [st_epoch r] | _ => [] end)
          ++ stats_epochs evs)%list.
  rewrite IH. destruct ev; try reflexivity. discriminate Hev.
Qed.

(** An epoch writes one record, carrying its own index, exactly when it
    completes. *)
Lemma epoch_body_stats_epochs (cfg : config) (epoch : Z) (s : state) :
  exists evs,
    trace (snd (epoch_body cfg epoch s)) = (trace s ++ evs)%list /\
    stats_epochs evs
    = if is_ok (fst (epoch_body cfg epoch s)) then [epoch] else [].
Proof.
  set (Q := fun ev => is_stats ev = false).
  assert (Qp : forall msg, Q (EvPrint msg)) by reflexivity.
  assert (Qs : forall name, Q (EvSave name)) by reflexivity.
  pose proof (train_phase_no_stats cfg epoch (training s) s eq_refl)
    as (Ht & evs1 & E1 & F1).
  destruct (train_phase cfg epoch s) as [[l | x] s1] eqn:E;
    cbn [fst snd] in *.
  - rewrite (epoch_body_unfold _ _ _ _ _ E).
    set (s1' := log EvNetEval (with_training false s1)).
    pose proof (metric_phase_observes false Q Qp (Valid epoch)
                  (denormalize_valid (min_scale cfg) (max_scale cfg))
                  false (valid_loader cfg) eq_refl s1' eq_refl)
      as (Ht2 & evs2 & E2 & F2).
    destruct (metric_phase (Valid epoch) _ false (valid_loader cfg) s1')
      as [[m | x] s2] eqn:E';
      cbn [fst snd] in *.
    + rewrite (bind_ok _ _ _ _ _ E').
      pose proof (checkpoint_decision_observes false Q Qp Qs m s2 Ht2)
        as (Ht3 & evs3 & E3 & F3).
      rewrite checkpoint_decision_run in E3.
      rewrite (bind_ok _ _ _ _ _ (checkpoint_decision_run m s2)).
      cbn [fst snd] in *.
      exists (evs1 ++ [EvNetEval] ++ evs2 ++ evs3
              ++ [EvStats (epoch_record epoch l m)])%list.
      split.
      * cbn [emit modify snd log trace]. rewrite E3, E2. unfold s1'.
        cbn [log trace with_training]. rewrite E1, <- !app_assoc.
        reflexivity.
      * rewrite !stats_epochs_app.
        rewrite (stats_epochs_none evs1 F1), (stats_epochs_none evs2 F2),
                (stats_epochs_none evs3 F3).
        reflexivity.
    + rewrite (bind_raise _ _ _ _ _ E'). cbn [fst snd is_ok].
      exists (evs1 ++ [EvNetEval] ++ evs2)%list. split.
      * rewrite E2. unfold s1'. cbn [log trace with_training].
        rewrite E1, <- !app_assoc. reflexivity.
      * rewrite !stats_epochs_app.
        rewrite (stats_epochs_none evs1 F1), (stats_epochs_none evs2 F2).
        reflexivity.
  - unfold epoch_body. rewrite (bind_raise _ _ _ _ _ E). cbn [fst snd is_ok].
    exists evs1. split; [exact E1 | apply stats_epochs_none; exact F1].
Qed.

Lemma epochs_stats_epochs (cfg : config) (l : list Z) :
  forall s : state,
    exists evs done rest,
      l = (done ++ rest)%list /\
      trace (snd (for_each l (epoch_body cfg) s)) = (trace s ++ evs)%list /\
      stats_epochs evs = done /\
      (is_ok (fst (for_each l (epoch_body cfg) s)) = true -> rest = []).
Proof.
  induction l as [| e l IH]; intro s.
  - exists [], [], []. simpl. rewrite app_nil_r. repeat split.
  - destruct (epoch_body_stats_epochs cfg e s) as (evs1 & E1 & N1).
    cbn [for_each].
    destruct (epoch_body cfg e s) as [[[] | x] s1] eqn:E;
      cbn [fst snd is_ok] in *.
    + rewrite (bind_ok _ _ _ _ _ E).
      destruct (IH s1) as (evs2 & done & rest & Hl & E2 & N2 & N2').
      exists (evs1 ++ evs2)%list, (e :: done), rest.
      split; [| split; [| split]].
      * rewrite Hl. reflexivity.
      * rewrite E2, E1, app_assoc. reflexivity.
      * rewrite stats_epochs_app, N1, N2. reflexivity.
      * exact N2'.
    + rewrite (bind_raise _ _ _ _ _ E). cbn [fst snd is_ok].
      exists evs1, [], (e :: l).
      split; [reflexivity |]. split; [exact E1 |].
      split; [exact N1 | discriminate].
Qed.

Lemma firstn_seq_min (k a n : nat) :
  firstn k (seq a n) = seq a (Nat.min k n).
Proof.
  revert a n. induction k as [| k IH]; intros a [| n]; simpl;
    try reflexivity.
  rewrite IH. reflexivity.
Qed.

Lemma py_range_prefix (lo hi : Z) (done rest : list Z) :
  py_range lo hi = (done ++ rest)%list ->
  done = py_range lo (lo + Z.of_nat (List.length done)) /\
  (List.length done <= Z.to_nat (hi - lo))%nat.
Proof.
  intro H.
  assert (Hlen : (List.length done <= Z.to_nat (hi - lo))%nat).
  { rewrite <- (py_range_length lo hi), H, length_app. lia. }
  split; [| exact Hlen].
  assert (Hf : done = firstn (List.length done) (py_range lo hi)).
  { rewrite H, firstn_app, Nat.sub_diag, firstn_all. simpl.
    rewrite app_nil_r. reflexivity. }
  rewrite Hf at 1. unfold py_range. rewrite firstn_map, firstn_seq_min.
  rewrite Nat.min_l by exact Hlen.
  replace (Z.to_nat (lo + Z.of_nat (List.length done) - lo))
    with (List.length done) by lia.
  reflexivity.
Qed.

(** X15. The per-epoch records of the statistics log carry the epoch
    indices 1, 2, ..., k in this order, without gap or repetition; k is at
    most [nepochs - 1], and equal to it when the loop ends without an
    exception. *)
Theorem stats_log_epochs_in_order (cfg : config) (s : state) :
  exists evs k,
    trace (snd (training_loop cfg s)) = (trace s ++ evs)%list /\
    stats_epochs evs = py_range 1 (1 + Z.of_nat k) /\
    (k <= Z.to_nat (nepochs cfg - 1))%nat /\
    (is_ok (fst (training_loop cfg s)) = true ->
     stats_epochs evs = py_range 1 (nepochs cfg)).
Proof.
  rewrite training_loop_unfold.
  set (s0 := log EvNetTrain _).
  destruct (epochs_stats_epochs cfg (py_range 1 (nepochs cfg)) s0)
    as (evs & done & rest & Hl & E & N & N').
  destruct (py_range_prefix 1 (nepochs cfg) done rest Hl) as [Hd Hk].
  exists (EvNetTrain :: evs), (List.length done).
  split; [| split; [| split]].
  - rewrite E. unfold s0.
    cbn [log trace with_training with_best3d with_best2d].
    rewrite <- app_assoc. reflexivity.
  - change (stats_epochs (EvNetTrain :: evs)) with (stats_epochs evs).
    rewrite N. exact Hd.
  - exact Hk.
  - intro Hok. change (stats_epochs (EvNetTrain :: evs))
      with (stats_epochs evs).
    rewrite N, Hl, (N' Hok), app_nil_r. reflexivity.
Qed.

(** ** The trackers and the statistics log *)

Lemma flt_irrefl (a : xfloat) : flt a a = false.
Proof.
  destruct a as [x | | |]; try reflexivity. cbn [flt].
  rewrite (proj1 (Qeq_alt x x) (Qeq_refl x)). reflexivity.
Qed.

Lemma pylt_below (a b b' : pynum) :
  pylt a b = false -> pyle b' b -> pylt a b' = false.
Proof.
  unfold pyle, pylt. intros Hab [Hlt | Heq]; [| subst; exact Hab].
  destruct (flt (to_float a) (to_float b')) eqn:E; [| reflexivity].
  rewrite (flt_trans _ _ _ E Hlt) in Hab. discriminate.
Qed.

Lemma pygt_above (a b b' : pynum) :
  pygt a b = false -> pyle b b' -> pygt a b' = false.
Proof.
  unfold pyle, pygt, pylt. intros Hab [Hlt | Heq]; [| subst; exact Hab].
  destruct (flt (to_float b') (to_float a)) eqn:E; [| reflexivity].
  rewrite (flt_trans _ _ _ Hlt E) in Hab. discriminate.
Qed.

Lemma dominated_improved (s s' : state) (ev : event) :
  improved s s' -> dominated s ev -> dominated s' ev.
Proof.
  intros [H2 H3]. destruct ev; simpl; auto.
  intros (Hc & F1 & HF & Hg). split.
  - eapply pylt_below; eassumption.
  - exists F1. split; [exact HF |]. eapply pygt_above; eassumption.
Qed.

Lemma dominated_no_stats (s : state) (evs : list event) :
  Forall (fun ev => is_stats ev = false) evs -> Forall (dominated s) evs.
Proof.
  intro H. eapply Forall_impl; [| exact H].
  intros ev Hev. destruct ev; try exact I. discriminate Hev.
Qed.

Lemma checkpoint_decision_dominates (m : phase_metrics) (s : state) :
  pylt (m_RMSE2 m) (best3dmetric (snd (checkpoint_decision m s))) = false /\
  pygt (m_F1 m) (best2dmetric (snd (checkpoint_decision m s))) = false.
Proof.
  rewrite checkpoint_decision_run. cbv zeta. cbn [snd].
  destruct (pygt (m_F1 m) (best2dmetric s)) eqn:E2;
    cbn [best3dmetric best2dmetric log with_file with_best2d];
    destruct (pylt (m_RMSE2 m) (best3dmetric s)) eqn:E3;
    cbn [best3dmetric best2dmetric log with_file with_best2d with_best3d];
    split; try assumption; apply flt_irrefl.
Qed.

Lemma epoch_body_dominated (cfg : config) (epoch : Z) (s : state) :
  exists evs,
    trace (snd (epoch_body cfg epoch s)) = (trace s ++ evs)%list /\
    Forall (dominated (snd (epoch_body cfg epoch s))) evs.
Proof.
  set (Q := fun ev => is_stats ev = false).
  assert (Qp : forall msg, Q (EvPrint msg)) by reflexivity.
  assert (Qs : forall name, Q (EvSave name)) by reflexivity.
  pose proof (train_phase_no_stats cfg epoch (training s) s eq_refl)
    as (Ht & evs1 & E1 & F1).
  destruct (train_phase cfg epoch s) as [[l | x] s1] eqn:E;
    cbn [fst snd] in *.
  - rewrite (epoch_body_unfold _ _ _ _ _ E).
    set (s1' := log EvNetEval (with_training false s1)).
    pose proof (metric_phase_observes false Q Qp (Valid epoch)
                  (denormalize_valid (min_scale cfg) (max_scale cfg))
                  false (valid_loader cfg) eq_refl s1' eq_refl)
      as (Ht2 & evs2 & E2 & F2).
    destruct (metric_phase (Valid epoch) _ false (valid_loader cfg) s1')
      as [[m | x] s2] eqn:E';
      cbn [fst snd] in *.
    + rewrite (bind_ok _ _ _ _ _ E').
      pose proof (checkpoint_decision_observes false Q Qp Qs m s2 Ht2)
        as (Ht3 & evs3 & E3 & F3).
      destruct (checkpoint_decision_dominates m s2) as [D3 D2].
      destruct (checkpoint_decision m s2) as [r3 s3] eqn:E3'.
      assert (Hr3 : r3 = Ok tt).
      { pose proof (checkpoint_decision_run m s2) as Hrun.
        rewrite E3' in Hrun. injection Hrun as Hr _. exact Hr. }
      subst r3. rewrite (bind_ok _ _ _ _ _ E3').
      cbn [fst snd] in *.
      exists (evs1 ++ [EvNetEval] ++ evs2 ++ evs3
              ++ [EvStats (epoch_record epoch l m)])%list.
      split.
      * cbn [emit modify snd log trace]. rewrite E3, E2. unfold s1'.
        cbn [log trace with_training]. rewrite E1, <- !app_assoc.
        reflexivity.
      * cbn [emit modify snd].
        repeat (apply Forall_app; split);
          try (apply dominated_no_stats; assumption).
        -- repeat constructor.
        -- constructor; [| constructor].
           cbn [dominated epoch_record st_cRMSE st_F1Score log
                best3dmetric best2dmetric].
           split; [exact D3 |]. exists (m_F1 m). split; [reflexivity |].
           exact D2.
    + rewrite (bind_raise _ _ _ _ _ E'). cbn [fst snd is_ok].
      exists (evs1 ++ [EvNetEval] ++ evs2)%list. split.
      * rewrite E2. unfold s1'. cbn [log trace with_training].
        rewrite E1, <- !app_assoc. reflexivity.
      * repeat (apply Forall_app; split);
          try (apply dominated_no_stats; assumption).
        repeat constructor.
  - unfold epoch_body. rewrite (bind_raise _ _ _ _ _ E). cbn [fst snd is_ok].
    exists evs1. split; [exact E1 | apply dominated_no_stats; exact F1].
Qed.

Lemma epochs_dominated (cfg : config) (l : list Z) :
  forall s : state,
    exists evs,
      trace (snd (for_each l (epoch_body cfg) s)) = (trace s ++ evs)%list /\
      Forall (dominated (snd (for_each l (epoch_body cfg) s))) evs.
Proof.
  induction l as [| e l IH]; intro s.
  - exists []. simpl. rewrite app_nil_r. split; [reflexivity | constructor].
  - destruct (epoch_body_dominated cfg e s) as (evs1 & E1 & D1).
    cbn [for_each].
    destruct (epoch_body cfg e s) as [[[] | x] s1] eqn:E;
      cbn [fst snd] in *.
    + rewrite (bind_ok _ _ _ _ _ E).
      destruct (IH s1) as (evs2 & E2 & D2).
      exists (evs1 ++ evs2)%list. split.
      * rewrite E2, E1, app_assoc. reflexivity.
      * apply Forall_app. split; [| exact D2].
        eapply Forall_impl; [| exact D1]. intros ev Hev.
        eapply dominated_improved; [| exact Hev].
        apply (preserves_for_each _ _ improved_refl improved_trans).
        apply epoch_body_improved.
    + rewrite (bind_raise _ _ _ _ _ E). cbn [fst snd].
      exists evs1. split; assumption.
Qed.

(** X16. At the end of the epoch loop the trackers account for every
    logged epoch: no record of the statistics log reports a cRMSE strictly
    below [best3dmetric], and none reports an F1 (logged as a percentage)
    strictly above [best2dmetric]. *)
Theorem trackers_dominate_log (cfg : config) (s : state) :
  exists evs,
    trace (snd (training_loop cfg s)) = (trace s ++ evs)%list /\
    Forall (dominated (snd (training_loop cfg s))) evs.
Proof.
  rewrite training_loop_unfold.
  set (s0 := log EvNetTrain _).
  destruct (epochs_dominated cfg (py_range 1 (nepochs cfg)) s0)
    as (evs & E & D).
  exists (EvNetTrain :: evs). split.
  - rewrite E. unfold s0.
    cbn [log trace with_training with_best3d with_best2d].
    rewrite <- app_assoc. reflexivity.
  - constructor; [exact I | exact D].
Qed.

(** ** Which parameters the test phase evaluates *)






End More.

Lemma partial_batch_config_built : @loader_built stub partial_batch_config.
Proof.
  split; [simpl; lia |]. split; [discriminate |].
  intro pass. apply Permutation_refl.
Qed.

Lemma full_batch_config_built : @loader_built stub full_batch_config.
Proof.
  split; [simpl; lia |]. split; [discriminate |].
  intro pass. apply Permutation_refl.
Qed.

Lemma train_loader_batches_witness :
  @loader_built stub partial_batch_config /\
  Permutation (concat (@train_loader stub partial_batch_config 1))
              [plain_sample; plain_sample; plain_sample] /\
  @train_loader stub partial_batch_config 1 <> [] /\
  Forall (fun b => (1 <= List.length b <= 2)%nat)
         (@train_loader stub partial_batch_config 1) /\
  Forall (fun b => List.length b = 2%nat)
         (removelast (@train_loader stub partial_batch_config 1)) /\
  List.length (@train_loader stub partial_batch_config 1)
  = ((3 + 2 - 1) / 2)%nat.
Proof.
  split; [exact partial_batch_config_built |].
  apply (@train_loader_batches stub partial_batch_config 1).
  exact partial_batch_config_built.
Defined.



Lemma epoch_loss_full_batches_witness :
  Forall (fun b => Z.of_nat (List.length b) = 2%Z)
         (@train_loader stub full_batch_config 1) /\
  fst (@train_phase stub full_batch_config 1 start)
  = fst ((ls <- @collect_losses stub full_batch_config 1
                  (@train_loader stub full_batch_config 1) ;;
          e2d <- lift (weighted_average
                         (map (fun p => (fst (fst p), snd p)) ls) 4) ;;
          e3d <- lift (weighted_average
                         (map (fun p => (snd (fst p), snd p)) ls) 4) ;;
          ret {| epoch_2d_loss := e2d; epoch_3d_loss := e3d;
                 epoch_loss :=
                   pyadd (pymul (Flt (Fin 1)) e2d)
                         (pymul (Flt (Fin 1)) e3d) |}
         )%run start).
Proof.
  apply (@epoch_loss_full_batches stub full_batch_config 1 start);
    [exact full_batch_config_built | reflexivity].
Defined.

Lemma stats_log_epochs_in_order_witness :
  is_ok (fst (@training_loop stub three_epoch_config start)) = true /\
  exists evs k,
    trace (snd (@training_loop stub three_epoch_config start))
    = (trace start ++ evs)%list /\
    stats_epochs evs = py_range 1 (1 + Z.of_nat k) /\
    (k <= Z.to_nat (nepochs three_epoch_config - 1))%nat /\
    (is_ok (fst (@training_loop stub three_epoch_config start)) = true ->
     stats_epochs evs = py_range 1 (nepochs three_epoch_config)).
Proof.
  split.
  - vm_compute. reflexivity.
  - apply (@stats_log_epochs_in_order stub three_epoch_config start).
Defined.

(** ** The confusion matrix of a batch *)

Lemma insert_label_In (z x : Z) (l : list Z) :
  In x (insert_label z l) <-> x = z \/ In x l.
Proof.
  induction l as [| y l IH]; simpl.
  - intuition.
  - destruct (z <? y)%Z eqn:E1; [simpl; intuition |].
    destruct (z =? y)%Z eqn:E2.
    + apply Z.eqb_eq in E2. subst. simpl. intuition.
    + simpl. rewrite IH. intuition.
Qed.

Lemma unique_labels_In (x : Z) (l : list Z) :
  In x (unique_labels l) <-> In x l.
Proof.
  induction l as [| y l IH]; [reflexivity |].
  unfold unique_labels in *. cbn [fold_right].
  rewrite insert_label_In, IH. simpl. intuition.
Qed.

Lemma insert_label_increasing (z : Z) (l : list Z) :
  increasing l -> increasing (insert_label z l).
Proof.
  induction l as [| y l IH]; intro H; [exact I |].
  cbn [insert_label].
  destruct (z <? y)%Z eqn:E1.
  - apply Z.ltb_lt in E1. split; assumption.
  - destruct (z =? y)%Z eqn:E2; [exact H |].
    apply Z.ltb_ge in E1. apply Z.eqb_neq in E2.
    destruct l as [| w l'].
    + simpl. split; [lia | exact I].
    + destruct H as [Hyw Hl]. specialize (IH Hl).
      cbn [insert_label] in *.
      destruct (z <? w)%Z eqn:E3.
      * split; [lia | exact IH].
      * destruct (z =? w)%Z; split; assumption.
Qed.

Lemma unique_labels_increasing (l : list Z) : increasing (unique_labels l).
Proof.
  induction l as [| y l IH]; [exact I |].
  unfold unique_labels in *. cbn [fold_right].
  apply insert_label_increasing. exact IH.
Qed.

Lemma unpack4_inv {A} (l : list A) (a b c d : A) :
  unpack4 l = Ok (a, b, c, d) -> l = [a; b; c; d].
Proof.
  destruct l as [| x1 [| x2 [| x3 [| x4 [| x5 l]]]]]; try discriminate.
  intro H. injection H as -> -> -> ->. reflexivity.
Qed.

Lemma length_flat_map_rows {A B} (f : A -> A -> B) (cols rows : list A) :
  List.length (flat_map (fun a => map (f a) cols) rows)
  = (List.length rows * List.length cols)%nat.
Proof.
  induction rows as [| r rows IH]; [reflexivity |].
  cbn [flat_map]. rewrite length_app, length_map, IH. reflexivity.
Qed.

(** The four cells of a two-label matrix partition the pairs. *)
Lemma pair_cells_partition (a b : Z) (l : list (Z * Z)) :
  a <> b ->
  (forall p, In p l -> (fst p = a \/ fst p = b) /\ (snd p = a \/ snd p = b)) ->
  let cell x y :=
    List.length (filter (fun p => (fst p =? x)%Z && (snd p =? y)%Z) l) in
  (cell a a + cell a b + cell b a + cell b b)%nat = List.length l.
Proof.
  intros Hab Hl. cbv zeta.
  induction l as [| [x y] l IH]; [reflexivity |].
  assert (IH' := IH (fun p Hp => Hl p (or_intror Hp))). clear IH.
  destruct (Hl (x, y) (or_introl eq_refl)) as [Hx Hy]. cbn [fst snd] in *.
  cbn [filter fst snd].
  assert (Eab : (a =? b)%Z = false) by (apply Z.eqb_neq; exact Hab).
  assert (Eba : (b =? a)%Z = false)
    by (apply Z.eqb_neq; intro; apply Hab; symmetry; assumption).
  destruct Hx as [-> | ->], Hy as [-> | ->];
    rewrite ?Z.eqb_refl, ?Eab, ?Eba; cbn [andb List.length]; lia.
Qed.

Lemma In_combine_left {A B} (x : A) (xs : list A) (ys : list B) :
  List.length xs = List.length ys -> In x xs ->
  exists y, In (x, y) (combine xs ys).
Proof.
  revert ys. induction xs as [| x' xs IH]; intros [| y ys] Hlen Hin;
    try discriminate; [destruct Hin |].
  destruct Hin as [-> | Hin].
  - exists y. left. reflexivity.
  - destruct (IH ys) as [y' Hy']; [simpl in Hlen; lia | exact Hin |].
    exists y'. right. exact Hy'.
Qed.

Lemma In_combine_right {A B} (y : B) (xs : list A) (ys : list B) :
  List.length xs = List.length ys -> In y ys ->
  exists x, In (x, y) (combine xs ys).
Proof.
  revert ys. induction xs as [| x' xs IH]; intros [| y' ys] Hlen Hin;
    try discriminate; [destruct Hin |].
  destruct Hin as [-> | Hin].
  - exists x'. left. reflexivity.
  - destruct (IH ys) as [x Hx]; [simpl in Hlen; lia | exact Hin |].
    exists x. right. exact Hx.
Qed.

Lemma filter_length_pos {A} (f : A -> bool) (x : A) (l : list A) :
  In x l -> f x = true -> (1 <= List.length (filter f l))%nat.
Proof.
  intros Hin Hf.
  assert (H : In x (filter f l)) by (apply filter_In; split; assumption).
  destruct (filter f l); [destruct H | simpl; lia].
Qed.

(** What a successful unpacking of the confusion matrix tells. *)
Lemma confusion_counts_inv (y_true y_pred : list Z)
    (c : pynum * pynum * pynum * pynum) :
  confusion_counts y_true y_pred = Ok c ->
  exists a b : Z,
    (a < b)%Z /\
    (forall x, In x (y_true ++ y_pred) <-> x = a \/ x = b) /\
    c = (NpInt (count_pairs y_true y_pred a a),
         NpInt (count_pairs y_true y_pred a b),
         NpInt (count_pairs y_true y_pred b a),
         NpInt (count_pairs y_true y_pred b b)) /\
    (0 <= count_pairs y_true y_pred a a)%Z /\
    (0 <= count_pairs y_true y_pred a b)%Z /\
    (0 <= count_pairs y_true y_pred b a)%Z /\
    (0 <= count_pairs y_true y_pred b b)%Z /\
    (count_pairs y_true y_pred a a + count_pairs y_true y_pred a b
     + count_pairs y_true y_pred b a + count_pairs y_true y_pred b b
     = Z.of_nat (List.length y_true))%Z /\
    (1 <= count_pairs y_true y_pred a b + count_pairs y_true y_pred b a
          + count_pairs y_true y_pred b b)%Z.
Proof.
  unfold confusion_counts, confusion_matrix_ravel. intro H.
  destruct (List.length y_true =? List.length y_pred)%nat eqn:Elen;
    [| discriminate].
  apply Nat.eqb_eq in Elen. cbn [negb] in H.
  pose proof (unique_labels_increasing (y_true ++ y_pred)) as Hinc.
  pose proof (fun x => unique_labels_In x (y_true ++ y_pred)) as Hin.
  destruct (unique_labels (y_true ++ y_pred)) as [| l0 ls] eqn:El;
    [discriminate |].
  rewrite <- El in H. cbn [bindR] in H.
  destruct c as [[[tn fp] fn] tp].
  apply unpack4_inv in H.
  assert (Hn : (List.length (unique_labels (y_true ++ y_pred))
                * List.length (unique_labels (y_true ++ y_pred)) = 4)%nat).
  { rewrite <- (length_flat_map_rows
                  (fun a b => NpInt (count_pairs y_true y_pred a b))).
    rewrite H. reflexivity. }
  rewrite El in H, Hn.
  destruct ls as [| b [| l2 ls]]; cbn [List.length] in Hn; try nia.
  rename l0 into a. clear Hn.
  cbn [flat_map map app] in H. injection H as <- <- <- <-.
  destruct Hinc as [Hab _].
  assert (Hlab : forall x, In x (y_true ++ y_pred) <-> x = a \/ x = b).
  { intro x. rewrite <- Hin. simpl. intuition. }
  assert (Hcells := pair_cells_partition a b (combine y_true y_pred)
                      ltac:(lia)).
  cbv zeta in Hcells.
  assert (Hpairs : forall p, In p (combine y_true y_pred) ->
                     (fst p = a \/ fst p = b) /\ (snd p = a \/ snd p = b)).
  { intros [x y] Hp. cbn [fst snd]. split; apply Hlab, in_or_app.
    - left. eapply in_combine_l. exact Hp.
    - right. eapply in_combine_r. exact Hp. }
  specialize (Hcells Hpairs).
  rewrite length_combine, <- Elen, Nat.min_id in Hcells.
  assert (Hb : exists p, In p (combine y_true y_pred) /\
                         (fst p = b \/ snd p = b)).
  { pose proof (proj2 (Hlab b) (or_intror eq_refl)) as Hb.
    apply in_app_or in Hb. destruct Hb as [Hb | Hb].
    - destruct (In_combine_left b y_true y_pred Elen Hb) as [y Hy].
      exists (b, y). split; [exact Hy | left; reflexivity].
    - destruct (In_combine_right b y_true y_pred Elen Hb) as [x Hx].
      exists (x, b). split; [exact Hx | right; reflexivity]. }
  exists a, b. unfold count_pairs.
  split; [exact Hab |]. split; [exact Hlab |]. split; [reflexivity |].
  do 4 (split; [lia |]). split; [lia |].
  destruct Hb as ([x y] & Hp & Hxy). cbn [fst snd] in Hxy.
  destruct (Hpairs (x, y) Hp) as [Hx Hy]. cbn [fst snd] in Hx, Hy.
  assert (Hcase : (x = a /\ y = b) \/ (x = b /\ y = a) \/ (x = b /\ y = b))
    by lia.
  destruct Hcase as [[-> ->] | [[-> ->] | [-> ->]]].
  - pose proof (filter_length_pos
                  (fun p => (fst p =? a)%Z && (snd p =? b)%Z) _ _ Hp) as Hf.
    cbn [fst snd] in Hf. rewrite !Z.eqb_refl in Hf. specialize (Hf eq_refl).
    lia.
  - pose proof (filter_length_pos
                  (fun p => (fst p =? b)%Z && (snd p =? a)%Z) _ _ Hp) as Hf.
    cbn [fst snd] in Hf. rewrite !Z.eqb_refl in Hf. specialize (Hf eq_refl).
    lia.
  - pose proof (filter_length_pos
                  (fun p => (fst p =? b)%Z && (snd p =? b)%Z) _ _ Hp) as Hf.
    cbn [fst snd] in Hf. rewrite !Z.eqb_refl in Hf. specialize (Hf eq_refl).
    lia.
Qed.

(** X17. The unpacking [tn, fp, fn, tp = ...ravel()] succeeds only when
    ground truth and prediction together hold exactly two labels [a < b]
    (whatever their values).  The four counts are then the numbers of pixels
    with (truth, prediction) equal to (a,a), (a,b), (b,a) and (b,b): they
    are non-negative, they add up to the number of pixels of the batch, and
    [fp + fn + tp] is at least one, so that such a batch never contributes
    a zero denominator to [F1] or [IoU]. *)
Theorem confusion_counts_two_labels (y_true y_pred : list Z)
    (c : pynum * pynum * pynum * pynum) :
  confusion_counts y_true y_pred = Ok c ->
  exists a b : Z,
    (a < b)%Z /\
    (forall x, In x (y_true ++ y_pred) <-> x = a \/ x = b) /\
    c = (NpInt (count_pairs y_true y_pred a a),
         NpInt (count_pairs y_true y_pred a b),
         NpInt (count_pairs y_true y_pred b a),
         NpInt (count_pairs y_true y_pred b b)) /\
    (0 <= count_pairs y_true y_pred a a)%Z /\
    (0 <= count_pairs y_true y_pred a b)%Z /\
    (0 <= count_pairs y_true y_pred b a)%Z /\
    (0 <= count_pairs y_true y_pred b b)%Z /\
    (count_pairs y_true y_pred a a + count_pairs y_true y_pred a b
     + count_pairs y_true y_pred b a + count_pairs y_true y_pred b b
     = Z.of_nat (List.length y_true))%Z /\
    (1 <= count_pairs y_true y_pred a b + count_pairs y_true y_pred b a
          + count_pairs y_true y_pred b b)%Z.
Proof. exact (confusion_counts_inv y_true y_pred c). Qed.

Lemma confusion_counts_two_labels_witness :
  confusion_counts [0; 2; 2]%Z [2; 2; 0]%Z
  = Ok (NpInt 0, NpInt 1, NpInt 1, NpInt 1) /\
  exists a b : Z,
    (a < b)%Z /\
    (forall x, In x ([0; 2; 2] ++ [2; 2; 0])%Z <-> x = a \/ x = b) /\
    (NpInt 0, NpInt 1, NpInt 1, NpInt 1)
    = (NpInt (count_pairs [0; 2; 2]%Z [2; 2; 0]%Z a a),
       NpInt (count_pairs [0; 2; 2]%Z [2; 2; 0]%Z a b),
       NpInt (count_pairs [0; 2; 2]%Z [2; 2; 0]%Z b a),
       NpInt (count_pairs [0; 2; 2]%Z [2; 2; 0]%Z b b)) /\
    (0 <= count_pairs [0; 2; 2]%Z [2; 2; 0]%Z a a)%Z /\
    (0 <= count_pairs [0; 2; 2]%Z [2; 2; 0]%Z a b)%Z /\
    (0 <= count_pairs [0; 2; 2]%Z [2; 2; 0]%Z b a)%Z /\
    (0 <= count_pairs [0; 2; 2]%Z [2; 2; 0]%Z b b)%Z /\
    (count_pairs [0; 2; 2]%Z [2; 2; 0]%Z a a
     + count_pairs [0; 2; 2]%Z [2; 2; 0]%Z a b
     + count_pairs [0; 2; 2]%Z [2; 2; 0]%Z b a
     + count_pairs [0; 2; 2]%Z [2; 2; 0]%Z b b
     = Z.of_nat (List.length [0; 2; 2]%Z))%Z /\
    (1 <= count_pairs [0; 2; 2]%Z [2; 2; 0]%Z a b
          + count_pairs [0; 2; 2]%Z [2; 2; 0]%Z b a
          + count_pairs [0; 2; 2]%Z [2; 2; 0]%Z b b)%Z.
Proof.
  split; [reflexivity |].
  apply (confusion_counts_two_labels [0; 2; 2]%Z [2; 2; 0]%Z).
  reflexivity.
Defined.

(** ** The range of [F1] and [IoU] *)

Lemma wrap64_small (z : Z) : (0 <= z < 2 ^ 63)%Z -> wrap64 z = z.
Proof.
  intro H. unfold wrap64.
  rewrite Z.mod_small; lia.
Qed.


Lemma counted_add (tp fn fp tp' fn' fp' : pynum) (b b' : Z) :
  (0 <= b)%Z -> (0 <= b')%Z -> (b + b' < 2 ^ 63)%Z ->
  counted tp fn fp b -> counted tp' fn' fp' b' ->
  counted (pyadd tp tp') (pyadd fn fn') (pyadd fp fp') (b + b').
Proof.
  intros Hb Hb' Hlt
    [(-> & -> & ->) | (t & n & p & -> & -> & -> & Ht & Hn & Hp & H)]
    [(-> & -> & ->) | (t' & n' & p' & -> & -> & -> & Ht' & Hn' & Hp' & H')];
    cbn [pyadd].
  - left. repeat split.
  - right. exists t', n', p'.
    rewrite !wrap64_small by lia. repeat split; lia.
  - right. exists t, n, p.
    rewrite !Z.add_0_r, !wrap64_small by lia. repeat split; lia.
  - right. exists (t + t')%Z, (n + n')%Z, (p + p')%Z.
    rewrite !wrap64_small by lia. repeat split; lia.
Qed.

Lemma Qdiv_le_cross (x y d1 d2 : Q) :
  0 < d1 -> 0 < d2 -> x * d2 <= y * d1 -> x / d1 <= y / d2.
Proof.
  intros H1 H2 H.
  apply Qle_shift_div_r; [exact H1 |].
  assert (E : y / d2 * d1 == (y * d1) / d2) by (field; lra).
  rewrite E. apply Qle_shift_div_l; assumption.
Qed.

(** The two ratios computed from proper counts. *)
Lemma ratios_of_counts (t n p : Z) :
  (0 <= t)%Z -> (0 <= n)%Z -> (0 <= p)%Z -> (1 <= t + n + p)%Z ->
  let f := inject_Z (2 * t) / inject_Z (2 * t + n + p) in
  let i := inject_Z t / inject_Z (t + n + p) in
  0 <= i /\ i <= f /\ f <= 1.
Proof.
  intros Ht Hn Hp H. cbv zeta.
  assert (Qt : 0 <= inject_Z t) by (rewrite <- (Zle_Qle 0); exact Ht).
  assert (Qn : 0 <= inject_Z n) by (rewrite <- (Zle_Qle 0); exact Hn).
  assert (Qp : 0 <= inject_Z p) by (rewrite <- (Zle_Qle 0); exact Hp).
  assert (Q1 : 1 <= inject_Z (t + n + p)) by (rewrite <- (Zle_Qle 1); exact H).
  rewrite !inject_Z_plus, !inject_Z_mult in *.
  change (inject_Z 2) with 2.
  set (a := inject_Z t) in *. set (b := inject_Z n) in *.
  set (c := inject_Z p) in *.
  split; [| split].
  - apply Qle_shift_div_l; lra.
  - apply Qdiv_le_cross; [lra | lra | nra].
  - apply Qle_shift_div_r; lra.
Qed.

Section Ratios.

Context {C : Collaborators}.

Lemma batch_values_counted ph denorm verb (b : batch) (s s' : state)
    (sc : batch_scores) :
  batch_values ph denorm verb b s = (Ok sc, s') ->
  counted (sc_tp sc) (sc_fn sc) (sc_fp sc)
          (Z.of_nat (List.length (batch_mask2d b))).
Proof.
  rewrite batch_values_cases. cbv zeta.
  destruct (check_reg_targets _ _); [| discriminate].
  destruct verb; [discriminate |].
  intro H. injection H as <- _.
  destruct (confusion_counts (batch_mask2d b) _) as [c | e] eqn:E.
  - destruct (confusion_counts_inv _ _ _ E)
      as (x & y & _ & _ & -> & Haa & Hab & Hba & Hbb & Hsum & Hpos).
    right. cbn [counts_or_zero scores_of sc_tp sc_fn sc_fp].
    eexists _, _, _. repeat split; try reflexivity; lia.
  - left. repeat split.
Qed.

Lemma pixels_nonneg (loader : list batch) : (0 <= pixels loader)%Z.
Proof. induction loader; simpl; lia. Qed.

Lemma collect_scores_counted ph denorm verb (loader : list batch) :
  forall (s s' : state) (scs : list batch_scores)
         (tp fn fp : pynum) (b0 : Z),
    collect_scores ph denorm verb loader s = (Ok scs, s') ->
    (0 <= b0)%Z -> (b0 + pixels loader < 2 ^ 63)%Z ->
    counted tp fn fp b0 ->
    counted (fold_left pyadd (map sc_tp scs) tp)
            (fold_left pyadd (map sc_fn scs) fn)
            (fold_left pyadd (map sc_fp scs) fp)
            (b0 + pixels loader).
Proof.
  induction loader as [| b rest IH]; intros s s' scs tp fn fp b0 H Hb0 Hlt Hc.
  - inversion H; subst. simpl. rewrite Z.add_0_r. exact Hc.
  - simpl in H. unfold bind in H.
    destruct (batch_values ph denorm verb b s) as [[sc | e] s1] eqn:E;
      [| discriminate].
    destruct (collect_scores ph denorm verb rest s1) as [[scs' | e] s2] eqn:E';
      [| discriminate].
    inversion H; subst. cbn [map fold_left].
    pose proof (pixels_nonneg rest) as Hr.
    cbn [pixels fold_right] in *. fold (pixels rest) in *.
    replace (b0 + (Z.of_nat (List.length (batch_mask2d b)) + pixels rest))%Z
      with ((b0 + Z.of_nat (List.length (batch_mask2d b))) + pixels rest)%Z
      by lia.
    eapply IH; [exact E' | lia | lia |].
    apply counted_add; [lia | lia | lia | exact Hc |].
    eapply batch_values_counted. exact E.
Qed.

Lemma metric_phase_ratios ph denorm verb (loader : list batch)
    (s : state) (m : phase_metrics) :
  fst (metric_phase ph denorm verb loader s) = Ok m ->
  (2 * pixels loader < 2 ^ 63)%Z ->
  ratios_in_range m.
Proof.
  rewrite metric_phase_closed_form. unfold bind, lift.
  destruct (collect_scores ph denorm verb loader s) as [[scs | e] s1] eqn:E;
    [| discriminate].
  cbn [fst]. intros H Hlt.
  pose proof (pixels_nonneg loader) as Hnn.
  pose proof (collect_scores_counted ph denorm verb loader s s1 scs
                (PyInt 0) (PyInt 0) (PyInt 0) 0 E ltac:(lia) ltac:(lia)
                (or_introl (conj eq_refl (conj eq_refl eq_refl)))) as Hc.
  unfold closed_form_metrics in H. cbv zeta in H. unfold pysum in H.
  destruct Hc as [(Ht & Hn & Hp) | (t & n & p & Ht & Hn & Hp & H0 & H1 & H2 & H3)];
    rewrite Ht, Hn, Hp in H.
  - discriminate H.
  - cbn [pymul pyadd pytruediv to_float] in H.
    rewrite (wrap64_small (2 * t)) in H by lia.
    rewrite (wrap64_small (2 * t + n)) in H by lia.
    rewrite (wrap64_small (2 * t + n + p)) in H by lia.
    rewrite (wrap64_small (t + n)) in H by lia.
    rewrite (wrap64_small (t + n + p)) in H by lia.
    rewrite !fdiv_Fin_pos in H by lia.
    cbn [bindR] in H.
    destruct (pytruediv _ _) as [mm |]; [| discriminate].
    cbn [bindR] in H.
    destruct (pytruediv _ _) as [r1 |]; [| discriminate].
    cbn [bindR] in H.
    destruct (pytruediv _ _) as [r2 |]; [| discriminate].
    cbn [bindR] in H. injection H as <-.
    eexists _, _. split; [reflexivity |]. split; [reflexivity |].
    apply ratios_of_counts; lia.
Qed.

(** X18. Whenever a validation phase or the test phase returns its
    metrics, [F1] and [IoU] are numbers (neither NaN nor an infinity) with
    [0 <= IoU <= F1 <= 1], as long as twice the number of ground-truth
    pixels of the phase fits in an [int64], the type in which the counts
    are summed. *)
Theorem f1_iou_in_range (cfg : config) :
  (forall (epoch : Z) (s : state) (m : phase_metrics),
      fst (validation_phase cfg epoch s) = Ok m ->
      (2 * pixels (valid_loader cfg) < 2 ^ 63)%Z ->
      ratios_in_range m) /\
  (forall (s : state) (m : phase_metrics),
      fst (test_phase cfg s) = Ok m ->
      (2 * pixels (test_loader cfg) < 2 ^ 63)%Z ->
      ratios_in_range m).
Proof.
  split.
  - intros epoch s m H Hlt. rewrite validation_phase_unfold in H.
    eapply metric_phase_ratios; eassumption.
  - intros s m H Hlt. rewrite test_phase_unfold in H.
    unfold bind at 1 in H.
    destruct (metric_phase Test
                (denormalize_test (min_scale cfg) (max_scale cfg))
                (verbose cfg) (test_loader cfg)
                (log EvNetEval (with_training false (restored cfg s))))
      as [[m' | e] s1] eqn:E; cbn [fst] in H; [| discriminate].
    injection H as <-.
    eapply metric_phase_ratios; [rewrite E; reflexivity | exact Hlt].
Qed.

End Ratios.

Lemma f1_iou_in_range_witness :
  exists m : phase_metrics,
    fst (@validation_phase stub one_epoch_config 1 start) = Ok m /\
    (2 * @pixels stub (@valid_loader stub one_epoch_config) < 2 ^ 63)%Z /\
    ratios_in_range m.
Proof.
  eexists. split; [reflexivity |]. split; [reflexivity |].
  apply (proj1 (@f1_iou_in_range stub one_epoch_config) 1%Z start);
    reflexivity.
Defined.

(** ** What an epoch of training leaves as it was *)

Section Training.

Context {C : Collaborators}.

Lemma train_step_state (cfg : config) (epoch : Z) (b : batch) (s : state) :
  let r := train_step cfg epoch b s in
  is_ok (fst r) = true /\
  training (snd r) = training s /\
  best2dmetric (snd r) = best2dmetric s /\
  best3dmetric (snd r) = best3dmetric s /\
  files (snd r) = files s /\
  trace (snd r) = (trace s ++ [EvForward (Train epoch) (training s)])%list.
Proof. cbv zeta. repeat split. Qed.

Lemma train_batches_state (cfg : config) (epoch : Z) (loader : list batch) :
  forall (tot : pynum * pynum) (s : state),
    let r := for_acc loader tot (train_batch cfg epoch) s in
    is_ok (fst r) = true /\
    training (snd r) = training s /\
    best2dmetric (snd r) = best2dmetric s /\
    best3dmetric (snd r) = best3dmetric s /\
    files (snd r) = files s /\
    trace (snd r)
    = (trace s
       ++ map (fun _ => EvForward (Train epoch) (training s)) loader)%list.
Proof.
  induction loader as [| b rest IH]; intros tot s; cbv zeta.
  - cbn [for_acc map]. rewrite app_nil_r. repeat split.
  - cbn [for_acc map].
    destruct (train_step_state cfg epoch b s)
      as (Hok & Ht & H2 & H3 & Hf & Htr).
    destruct (train_step cfg epoch b s) as [[ls | e] s1] eqn:E;
      cbn [fst snd is_ok] in *; [| discriminate].
    assert (Hrun : bind (train_batch cfg epoch tot b)
                        (fun acc' => for_acc rest acc' (train_batch cfg epoch))
                        s
                   = for_acc rest (add_losses cfg tot ls)
                             (train_batch cfg epoch) s1).
    { unfold train_batch at 1.
      rewrite bind_assoc, (bind_ok _ _ _ _ _ E), bind_ret_l. reflexivity. }
    rewrite Hrun.
    destruct (IH (add_losses cfg tot ls) s1)
      as (Hok' & Ht' & H2' & H3' & Hf' & Htr').
    rewrite Ht', H2', H3', Hf', Htr', Ht, H2, H3, Hf, Htr, <- app_assoc.
    repeat split. exact Hok'.
Qed.

(** The training phase of an epoch leaves the mode, both best-metric
    trackers and the checkpoint files as they were, and runs one forward
    pass per batch, each in the mode in which the phase was entered. *)
Lemma train_phase_state (cfg : config) (epoch : Z) (s : state) :
  let r := train_phase cfg epoch s in
  training (snd r) = training s /\
  best2dmetric (snd r) = best2dmetric s /\
  best3dmetric (snd r) = best3dmetric s /\
  files (snd r) = files s /\
  trace (snd r)
  = (trace s
     ++ map (fun _ => EvForward (Train epoch) (training s))
            (train_loader cfg epoch))%list.
Proof.
  cbv zeta.
  destruct (train_batches_state cfg epoch (train_loader cfg epoch)
              (PyInt 0, PyInt 0) s) as (Hok & Ht & H2 & H3 & Hf & Htr).
  unfold train_phase.
  destruct (for_acc (train_loader cfg epoch) (PyInt 0, PyInt 0)
                    (train_batch cfg epoch) s) as [[tot | e] s1] eqn:E;
    cbn [fst snd is_ok] in *; [| discriminate].
  rewrite (bind_ok _ _ _ _ _ E).
  unfold lift, bind at 1.
  destruct (pytruediv (fst tot) (py_len (train_dataset cfg))) as [e2d | x];
    [| cbn [fst snd is_ok]; auto 6].
  unfold bind at 1.
  destruct (pytruediv (snd tot) (py_len (train_dataset cfg))) as [e3d | x];
    [| cbn [fst snd is_ok]; auto 6].
  cbn. auto 6.
Qed.

End Training.


(** ** Validation samples without any 3D change *)

Lemma finite_list (l : array) :
  forallb is_finite l = true -> exists qs, l = map Fin qs.
Proof.
  induction l as [| [q | | |] l IH]; simpl; intro H; try discriminate.
  - exists []. reflexivity.
  - destruct (IH H) as [qs ->]. exists (q :: qs). reflexivity.
Qed.

Lemma check_reg_targets_finite (y_true y_pred : array) :
  check_reg_targets y_true y_pred = Ok tt ->
  forallb is_finite y_true = true /\ forallb is_finite y_pred = true.
Proof.
  unfold check_reg_targets.
  destruct (negb _); [discriminate |].
  destruct (_ =? 0)%nat; [discriminate |].
  destruct (forallb is_finite y_true); [| discriminate].
  destruct (forallb is_finite y_pred); [| discriminate].
  auto.
Qed.

Lemma masked_error_cases (out3d mask3d : array) :
  forallb is_finite out3d = true -> forallb is_finite mask3d = true ->
  let g := fdiv (np_sum (zip_with sq_err out3d mask3d))
                (Fin (inject_Z (np_count_nonzero mask3d))) in
  not_negative g /\
  (Forall (fun t => fnonzero t = false) mask3d -> no_number g).
Proof.
  intros Ho Hm. cbv zeta.
  destruct (finite_list _ Ho) as [xs ->].
  destruct (finite_list _ Hm) as [ys ->].
  rewrite (zip_with_map_Fin sq_err (fun x y => (x - y) * (x - y)))
    by reflexivity.
  rewrite np_sum_Fin.
  pose proof (Qsum_nonneg _ (squares_nonneg xs ys)) as Hq.
  set (q := Qsum _) in *.
  assert (Hk : (0 <= np_count_nonzero (map Fin ys))%Z)
    by (unfold np_count_nonzero; lia).
  assert (Hzero : np_count_nonzero (map Fin ys) = 0%Z ->
                  no_number (fdiv (Fin q) (Fin (inject_Z 0)))).
  { intros _. cbn [fdiv]. change (Qeq_bool (inject_Z 0) 0) with true.
    cbv iota. destruct (q ?= 0) eqn:E.
    - right. reflexivity.
    - exfalso. apply (proj2 (Qlt_alt _ _)) in E. lra.
    - left. reflexivity. }
  split.
  - destruct (Z.eq_dec (np_count_nonzero (map Fin ys)) 0) as [E | E].
    + rewrite E. destruct (Hzero E) as [-> | ->]; exact I.
    + rewrite fdiv_Fin_pos by lia. cbn [not_negative].
      apply Qle_shift_div_l.
      * rewrite <- (Zlt_Qlt 0). lia.
      * lra.
  - intro Hz. pose proof (count_nonzero_all_zero _ Hz) as E.
    rewrite E. exact (Hzero E).
Qed.

Lemma fadd_not_negative (a b : xfloat) :
  not_negative a -> not_negative b -> not_negative (fadd a b).
Proof.
  destruct a, b; simpl; try tauto. intros. lra.
Qed.

Lemma fadd_no_number_l (a b : xfloat) :
  no_number a -> not_negative b -> no_number (fadd a b).
Proof.
  intros [-> | ->] Hb; destruct b; simpl in *; unfold no_number; tauto.
Qed.

Lemma fadd_no_number_r (a b : xfloat) :
  not_negative a -> no_number b -> no_number (fadd a b).
Proof.
  intros Ha [-> | ->]; destruct a; simpl in *; unfold no_number; tauto.
Qed.

Lemma pyadd_Flt_r (a : pynum) (g : xfloat) :
  pyadd a (Flt g) = Flt (fadd (to_float a) g).
Proof. destruct a; reflexivity. Qed.

Section ZeroTargets.

Context {C : Collaborators}.

Lemma scores_of_rmse2 (c : counts) (mask3d out3d : array) :
  sc_s_rmse2 (scores_of c mask3d out3d)
  = Flt (fdiv (np_sum (zip_with sq_err out3d mask3d))
              (Fin (inject_Z (np_count_nonzero mask3d)))).
Proof. destruct c as [[[tn fp] fn] tp]. reflexivity. Qed.

Lemma batch_values_rmse2 ph denorm verb (b : batch) (s s' : state)
    (sc : batch_scores) :
  batch_values ph denorm verb b s = (Ok sc, s') ->
  exists g,
    sc_s_rmse2 sc = Flt g /\ not_negative g /\
    (Forall (fun t => fnonzero t = false) (batch_mask3d b) -> no_number g).
Proof.
  rewrite batch_values_cases. cbv zeta.
  destruct (check_reg_targets _ _) as [[] |] eqn:E; [| discriminate].
  destruct verb; [discriminate |].
  intro H. injection H as <- _.
  destruct (check_reg_targets_finite _ _ E) as [Hm Ho].
  rewrite scores_of_rmse2. eexists. split; [reflexivity |].
  apply masked_error_cases; assumption.
Qed.

Lemma collect_scores_rmse2 ph denorm verb (loader : list batch) :
  forall (s s' : state) (scs : list batch_scores) (a : pynum),
    collect_scores ph denorm verb loader s = (Ok scs, s') ->
    not_negative (to_float a) ->
    let total := fold_left pyadd (map sc_s_rmse2 scs) a in
    not_negative (to_float total) /\
    (Exists (fun b => Forall (fun t => fnonzero t = false) (batch_mask3d b))
            loader \/ no_number (to_float a) ->
     exists g, total = Flt g /\ no_number g).
Proof.
  induction loader as [| b rest IH]; intros s s' scs a H Ha; cbv zeta.
  - inversion H; subst. simpl. split; [exact Ha |].
    intros [Hex | Hbad]; [inversion Hex |].
    destruct a as [z | z | g]; simpl in Hbad.
    + destruct Hbad; discriminate.
    + destruct Hbad; discriminate.
    + exists g. split; [reflexivity | exact Hbad].
  - simpl in H. unfold bind in H.
    destruct (batch_values ph denorm verb b s) as [[sc | e] s1] eqn:E;
      [| discriminate].
    destruct (collect_scores ph denorm verb rest s1) as [[scs' | e] s2] eqn:E';
      [| discriminate].
    inversion H; subst. cbn [map fold_left].
    destruct (batch_values_rmse2 _ _ _ _ _ _ _ E) as (g & Hg & Hnn & Hz).
    rewrite Hg, pyadd_Flt_r.
    assert (Hnn' : not_negative (to_float (Flt (fadd (to_float a) g))))
      by (apply fadd_not_negative; assumption).
    destruct (IH s1 _ scs' (Flt (fadd (to_float a) g)) E' Hnn')
      as [Htot Hbad].
    split; [exact Htot |].
    intros [Hex | Ha']; apply Hbad.
    + inversion Hex as [? ? Hb | ? ? Hr]; subst.
      * right. apply fadd_no_number_r; [exact Ha | exact (Hz Hb)].
      * left. exact Hr.
    + right. apply fadd_no_number_l; assumption.
Qed.

Lemma metric_phase_zero_target ph denorm verb (loader : list batch)
    (s : state) (m : phase_metrics) :
  Exists (fun b => Forall (fun t => fnonzero t = false) (batch_mask3d b))
         loader ->
  fst (metric_phase ph denorm verb loader s) = Ok m ->
  m_RMSE2 m = Flt PInf \/ m_RMSE2 m = Flt NaN.
Proof.
  intro Hex. rewrite metric_phase_closed_form. unfold bind, lift.
  destruct (collect_scores ph denorm verb loader s) as [[scs | e] s1] eqn:E;
    [| discriminate].
  cbn [fst]. intro H.
  pose proof (collect_scores_length _ _ _ _ _ _ _ E) as Hlen.
  assert (Hpos : (0 < Z.of_nat (List.length scs))%Z).
  { rewrite Hlen. destruct loader; [inversion Hex | simpl; lia]. }
  destruct (collect_scores_rmse2 ph denorm verb loader s s1 scs (PyInt 0) E)
    as [_ Hbad]; [cbv; discriminate |].
  destruct (Hbad (or_introl Hex)) as (g & Hg & Hng).
  unfold closed_form_metrics in H. cbv zeta in H.
  destruct (pytruediv _ _) as [F1 |]; [| discriminate]. cbn [bindR] in H.
  destruct (pytruediv _ _) as [IoU |]; [| discriminate]. cbn [bindR] in H.
  destruct (pytruediv _ _) as [mae |]; [| discriminate]. cbn [bindR] in H.
  destruct (pytruediv _ _) as [mse |]; [| discriminate]. cbn [bindR] in H.
  unfold pysum in H. rewrite Hg in H. unfold py_len in H.
  cbn [pytruediv to_float] in H.
  assert (Hdiv : fdiv g (Fin (inject_Z (Z.of_nat (List.length scs)))) = g).
  { assert (Hq : Qeq_bool (inject_Z (Z.of_nat (List.length scs))) 0 = false).
    { apply Qeq_bool_false. intro H0. unfold Qeq in H0. simpl in H0. lia. }
    assert (Hc : (inject_Z (Z.of_nat (List.length scs)) ?= 0) = Gt).
    { apply (proj1 (Qgt_alt _ _)). rewrite <- (Zlt_Qlt 0). exact Hpos. }
    destruct Hng as [-> | ->]; cbn [fdiv fsign]; [| reflexivity].
    rewrite Hq, Hc. reflexivity. }
  rewrite Hdiv in H. cbn [bindR] in H. injection H as <-.
  cbn [m_RMSE2]. destruct Hng as [-> | ->]; [left | right]; reflexivity.
Qed.

(** The 3D tracker and its file are as they were. *)
Lemma epoch_body_keeps_3d (cfg : config) (epoch : Z) (s : state) :
  Exists (fun b => Forall (fun t => fnonzero t = false) (batch_mask3d b))
         (valid_loader cfg) ->
  best3dmetric (snd (epoch_body cfg epoch s)) = best3dmetric s /\
  files (snd (epoch_body cfg epoch s)) "3dbestnet.pth"%string
  = files s "3dbestnet.pth"%string.
Proof.
  intro Hex.
  destruct (train_phase_state cfg epoch s) as (_ & _ & T3 & Tf & _).
  cbv zeta in T3, Tf.
  destruct (train_phase cfg epoch s) as [[l | x] s1] eqn:E;
    cbn [fst snd] in *.
  - rewrite (epoch_body_unfold _ _ _ _ _ E).
    set (s1' := log EvNetEval (with_training false s1)).
    pose proof (metric_phase_same_model (Valid epoch)
                  (denormalize_valid (min_scale cfg) (max_scale cfg))
                  false (valid_loader cfg) s1') as (_ & _ & _ & V3 & Vf).
    pose proof (metric_phase_zero_target (Valid epoch)
                  (denormalize_valid (min_scale cfg) (max_scale cfg))
                  false (valid_loader cfg) s1') as Hm.
    destruct (metric_phase (Valid epoch) _ false (valid_loader cfg) s1')
      as [[m | x] s2] eqn:E'; cbn [fst snd] in *.
    + rewrite (bind_ok _ _ _ _ _ E').
      assert (Hno : forall x, pylt (m_RMSE2 m) x = false).
      { intro x. unfold pylt.
        destruct (Hm m Hex eq_refl) as [-> | ->]; cbn [to_float flt].
        - destruct (to_float x); reflexivity.
        - reflexivity. }
      unfold bind. rewrite checkpoint_decision_run. cbv zeta.
      rewrite Hno. cbn [emit modify snd log best3dmetric files].
      destruct (pygt (m_F1 m) (best2dmetric s2));
        cbn [log with_file with_best2d best3dmetric files];
        rewrite ?V3, ?Vf; unfold s1'; cbn; rewrite ?T3, ?Tf; auto.
    + rewrite (bind_raise _ _ _ _ _ E'). cbn [snd].
      rewrite V3, Vf. unfold s1'. cbn. rewrite T3, Tf. auto.
  - unfold epoch_body. rewrite (bind_raise _ _ _ _ _ E). cbn [snd].
    rewrite T3, Tf. auto.
Qed.

Lemma epochs_keep_3d (cfg : config) (l : list Z) :
  Exists (fun b => Forall (fun t => fnonzero t = false) (batch_mask3d b))
         (valid_loader cfg) ->
  forall s : state,
    best3dmetric (snd (for_each l (epoch_body cfg) s)) = best3dmetric s /\
    files (snd (for_each l (epoch_body cfg) s)) "3dbestnet.pth"%string
    = files s "3dbestnet.pth"%string.
Proof.
  intro Hex. induction l as [| e l IH]; intro s; [split; reflexivity |].
  cbn [for_each].
  destruct (epoch_body_keeps_3d cfg e s Hex) as [H3 Hf].
  destruct (epoch_body cfg e s) as [[[] | x] s1] eqn:E; cbn [snd] in *.
  - rewrite (bind_ok _ _ _ _ _ E).
    destruct (IH s1) as [H3' Hf']. rewrite H3', Hf'. auto.
  - rewrite (bind_raise _ _ _ _ _ E). cbn [snd]. auto.
Qed.

(** X21. When one validation sample has a 3D ground truth that is zero on
    every pixel, the masked error of that sample divides by zero pixels:
    every validation phase that returns reports a cRMSE of [+inf] or NaN,
    the test [RMSE2 < best3dmetric] is false in every epoch, and over the
    whole loop [best3dmetric] keeps its initial value 1000000 and
    [3dbestnet.pth] is never written. *)
Theorem zero_target_blocks_3d_checkpoint (cfg : config) :
  Exists (fun smp => Forall (fun t => fnonzero t = false) (s_mask3d smp))
         (valid_dataset cfg) ->
  (forall (epoch : Z) (s : state) (m : phase_metrics),
      fst (validation_phase cfg epoch s) = Ok m ->
      (m_RMSE2 m = Flt PInf \/ m_RMSE2 m = Flt NaN) /\
      forall x : pynum, pylt (m_RMSE2 m) x = false) /\
  (forall s : state,
      best3dmetric (snd (training_loop cfg s)) = PyInt 1000000 /\
      files (snd (training_loop cfg s)) "3dbestnet.pth"%string
      = files s "3dbestnet.pth"%string).
Proof.
  intro Hex.
  assert (Hl : Exists (fun b => Forall (fun t => fnonzero t = false)
                                       (batch_mask3d b))
                      (valid_loader cfg)).
  { unfold valid_loader. rewrite chunks_one.
    apply Exists_exists in Hex. destruct Hex as (smp & Hin & Hz).
    apply Exists_exists. exists [smp]. split.
    - apply in_map_iff. exists smp. auto.
    - unfold batch_mask3d. cbn [flat_map]. rewrite app_nil_r. exact Hz. }
  split.
  - intros epoch s m H. rewrite validation_phase_unfold in H.
    pose proof (metric_phase_zero_target _ _ _ _ _ _ Hl H) as Hm.
    split; [exact Hm |].
    intro x. unfold pylt. destruct Hm as [-> | ->]; cbn [to_float flt].
    + destruct (to_float x); reflexivity.
    + reflexivity.
  - intro s. rewrite training_loop_unfold.
    set (s0 := log EvNetTrain _).
    destruct (epochs_keep_3d cfg (py_range 1 (nepochs cfg)) Hl s0)
      as [H3 Hf].
    rewrite H3, Hf. split; reflexivity.
Qed.

End ZeroTargets.

Lemma zero_target_blocks_3d_checkpoint_witness :
  Exists (fun smp => Forall (fun t => fnonzero t = false)
                            (@s_mask3d stub smp))
         (@valid_dataset stub zero_target_config) /\
  is_ok (fst (@training_loop stub zero_target_config start)) = true /\
  @best3dmetric stub (snd (@training_loop stub zero_target_config start))
  = PyInt 1000000 /\
  @files stub (snd (@training_loop stub zero_target_config start))
    "3dbestnet.pth"%string = None.
Proof.
  assert (Hex : Exists (fun smp => Forall (fun t => fnonzero t = false)
                                          (@s_mask3d stub smp))
                       (@valid_dataset stub zero_target_config)).
  { apply Exists_cons_tl, Exists_cons_hd. repeat constructor. }
  split; [exact Hex |]. split; [vm_compute; reflexivity |].
  exact (proj2 (@zero_target_blocks_3d_checkpoint stub zero_target_config Hex)
               start).
Defined.

(** ** The trackers are values of the statistics log *)

Section Attained.

Context {C : Collaborators}.

Lemma attained_app (i2 i3 : pynum) (s1 s2 : state) (evs1 evs2 : list event) :
  attained i2 i3 s1 evs1 ->
  attained (best2dmetric s1) (best3dmetric s1) s2 evs2 ->
  attained i2 i3 s2 (evs1 ++ evs2).
Proof.
  intros [A3 A2] [B3 B2]. split.
  - destruct B3 as [B3 | (r & Hr & E)].
    + rewrite B3. destruct A3 as [A3 | (r & Hr & E)]; [left; exact A3 |].
      right. exists r. split; [apply in_or_app; left; exact Hr | exact E].
    + right. exists r. split; [apply in_or_app; right; exact Hr | exact E].
  - destruct B2 as [B2 | (r & Hr & E)].
    + rewrite B2. destruct A2 as [A2 | (r & Hr & E)]; [left; exact A2 |].
      right. exists r. split; [apply in_or_app; left; exact Hr | exact E].
    + right. exists r. split; [apply in_or_app; right; exact Hr | exact E].
Qed.

Lemma epoch_body_attained (cfg : config) (epoch : Z) (s : state) :
  exists evs,
    trace (snd (epoch_body cfg epoch s)) = (trace s ++ evs)%list /\
    attained (best2dmetric s) (best3dmetric s)
             (snd (epoch_body cfg epoch s)) evs.
Proof.
  set (Q := fun _ : event => True).
  assert (Qp : forall msg, Q (EvPrint msg)) by (intro; exact I).
  assert (Qs : forall name, Q (EvSave name)) by (intro; exact I).
  destruct (train_phase_state cfg epoch s) as (_ & T2 & T3 & _ & _).
  cbv zeta in T2, T3.
  pose proof (train_phase_no_stats cfg epoch (training s) s eq_refl)
    as (Ht & evs1 & E1 & _).
  destruct (train_phase cfg epoch s) as [[l | x] s1] eqn:E;
    cbn [fst snd] in *.
  - rewrite (epoch_body_unfold _ _ _ _ _ E).
    set (s1' := log EvNetEval (with_training false s1)).
    pose proof (metric_phase_same_model (Valid epoch)
                  (denormalize_valid (min_scale cfg) (max_scale cfg))
                  false (valid_loader cfg) s1') as (_ & _ & V2 & V3 & _).
    pose proof (metric_phase_observes false Q Qp (Valid epoch)
                  (denormalize_valid (min_scale cfg) (max_scale cfg))
                  false (valid_loader cfg) I s1' eq_refl)
      as (Ht2 & evs2 & E2 & _).
    destruct (metric_phase (Valid epoch) _ false (valid_loader cfg) s1')
      as [[m | x] s2] eqn:E';
      cbn [fst snd] in *.
    + rewrite (bind_ok _ _ _ _ _ E').
      pose proof (checkpoint_decision_observes false Q Qp Qs m s2 Ht2)
        as (_ & evs3 & E3 & _).
      pose proof (checkpoint_decision_run m s2) as Hrun.
      destruct (checkpoint_decision m s2) as [r3 s3] eqn:E3'.
      injection Hrun as Hr3 Hs3. subst r3.
      rewrite (bind_ok _ _ _ _ _ E3').
      cbn [fst snd] in *.
      exists (evs1 ++ [EvNetEval] ++ evs2 ++ evs3
              ++ [EvStats (epoch_record epoch l m)])%list.
      assert (Hin : In (EvStats (epoch_record epoch l m))
                       (evs1 ++ [EvNetEval] ++ evs2 ++ evs3
                        ++ [EvStats (epoch_record epoch l m)])%list).
      { repeat (apply in_or_app; right). left. reflexivity. }
      split.
      * cbn [emit modify snd log trace]. rewrite E3, E2. unfold s1'.
        cbn [log trace with_training]. rewrite E1, <- !app_assoc.
        reflexivity.
      * cbn [emit modify snd]. unfold attained.
        cbn [log best3dmetric best2dmetric].
        assert (B2 : best2dmetric s2 = best2dmetric s)
          by (rewrite V2; unfold s1'; cbn; exact T2).
        assert (B3 : best3dmetric s2 = best3dmetric s)
          by (rewrite V3; unfold s1'; cbn; exact T3).
        rewrite Hs3. cbv zeta.
        destruct (pygt (m_F1 m) (best2dmetric s2)) eqn:G2;
          cbn [log with_file with_best2d best3dmetric best2dmetric];
          destruct (pylt (m_RMSE2 m) (best3dmetric s2)) eqn:G3;
          cbn [log with_file with_best2d with_best3d
               best3dmetric best2dmetric];
          (split;
           [ first [ left; exact B3
                   | right; eexists; split; [exact Hin | reflexivity] ]
           | first [ left; exact B2
                   | right; eexists; split; [exact Hin | reflexivity] ] ]).
    + rewrite (bind_raise _ _ _ _ _ E'). cbn [fst snd is_ok].
      exists (evs1 ++ [EvNetEval] ++ evs2)%list. split.
      * rewrite E2. unfold s1'. cbn [log trace with_training].
        rewrite E1, <- !app_assoc. reflexivity.
      * split; left.
        -- rewrite V3. unfold s1'. cbn. exact T3.
        -- rewrite V2. unfold s1'. cbn. exact T2.
  - unfold epoch_body. rewrite (bind_raise _ _ _ _ _ E). cbn [fst snd is_ok].
    exists evs1. split; [exact E1 |]. split; left; assumption.
Qed.

Lemma epochs_attained (cfg : config) (l : list Z) :
  forall s : state,
    exists evs,
      trace (snd (for_each l (epoch_body cfg) s)) = (trace s ++ evs)%list /\
      attained (best2dmetric s) (best3dmetric s)
               (snd (for_each l (epoch_body cfg) s)) evs.
Proof.
  induction l as [| e l IH]; intro s.
  - exists []. simpl. rewrite app_nil_r. split; [reflexivity |].
    split; left; reflexivity.
  - destruct (epoch_body_attained cfg e s) as (evs1 & E1 & A1).
    cbn [for_each].
    destruct (epoch_body cfg e s) as [[[] | x] s1] eqn:E;
      cbn [fst snd] in *.
    + rewrite (bind_ok _ _ _ _ _ E).
      destruct (IH s1) as (evs2 & E2 & A2).
      exists (evs1 ++ evs2)%list. split.
      * rewrite E2, E1, app_assoc. reflexivity.
      * eapply attained_app; eassumption.
    + rewrite (bind_raise _ _ _ _ _ E). cbn [fst snd].
      exists evs1. split; assumption.
Qed.

(** X22. At the end of the epoch loop each tracker is a value of the
    statistics log: [best3dmetric] is its initial 1000000 or the cRMSE of a
    logged epoch, and [best2dmetric] is its initial 0 or the F1 of a logged
    epoch (the log holds F1*100). *)
Theorem trackers_attained_in_log (cfg : config) (s : state) :
  exists evs,
    trace (snd (training_loop cfg s)) = (trace s ++ evs)%list /\
    attained (PyInt 0) (PyInt 1000000) (snd (training_loop cfg s)) evs.
Proof.
  rewrite training_loop_unfold.
  set (s0 := log EvNetTrain _).
  destruct (epochs_attained cfg (py_range 1 (nepochs cfg)) s0)
    as (evs & E & [A3 A2]).
  exists (EvNetTrain :: evs). split.
  - rewrite E. unfold s0.
    cbn [log trace with_training with_best3d with_best2d].
    rewrite <- app_assoc. reflexivity.
  - split.
    + destruct A3 as [A3 | (r & Hr & Er)]; [left; exact A3 |].
      right. exists r. split; [right; exact Hr | exact Er].
    + destruct A2 as [A2 | (r & Hr & Er)]; [left; exact A2 |].
      right. exists r. split; [right; exact Hr | exact Er].
Qed.

End Attained.


(** ** The epoch loop: checkpoints and modes *)

Lemma for_each_app {S A} (l1 l2 : list A) (body : A -> M S unit) (s : S) :
  for_each (l1 ++ l2) body s
  = match for_each l1 body s with
    | (Ok _, s') => for_each l2 body s'
    | (Raise e, s') => (Raise e, s')
    end.
Proof.
  revert s. induction l1 as [| x l1 IH]; intro s; [reflexivity |].
  cbn [app for_each]. unfold bind.
  destruct (body x s) as [[[] | e] s1]; [apply IH | reflexivity].
Qed.

Lemma map_seq_from (lo : Z) (b : nat) :
  forall a : nat,
    map (fun i => (lo + Z.of_nat i)%Z) (seq a b)
    = map (fun i => (lo + Z.of_nat a + Z.of_nat i)%Z) (seq 0 b).
Proof.
  induction b as [| b IH]; intro a; [reflexivity |].
  cbn [seq map]. f_equal; [lia |].
  rewrite IH, <- seq_shift, map_map.
  apply map_ext. intro i. lia.
Qed.

Lemma py_range_split (lo mid hi : Z) :
  (lo <= mid <= hi)%Z ->
  py_range lo hi = (py_range lo mid ++ py_range mid hi)%list.
Proof.
  intro H. unfold py_range.
  replace (Z.to_nat (hi - lo))
    with (Z.to_nat (mid - lo) + Z.to_nat (hi - mid))%nat by lia.
  rewrite seq_app, map_app. f_equal.
  cbn [Nat.add]. rewrite map_seq_from.
  apply map_ext. intro i. lia.
Qed.

Section Loop.

Context {C : Collaborators}.

(** An epoch whose training phase returns goes on with the validation
    phase, and applies the checkpoint decision to the metrics this
    validation phase returns. *)
Lemma epoch_body_run (cfg : config) (epoch : Z) (s s1 s2 : state)
    (l : epoch_losses) (m : phase_metrics) :
  train_phase cfg epoch s = (Ok l, s1) ->
  validation_phase cfg epoch s1 = (Ok m, s2) ->
  epoch_body cfg epoch s
  = (Ok tt,
     log (EvStats (epoch_record epoch l m))
         (snd (checkpoint_decision m s2))).
Proof.
  intros E E'. rewrite (epoch_body_unfold _ _ _ _ _ E).
  rewrite validation_phase_unfold in E'.
  rewrite (bind_ok _ _ _ _ _ E').
  unfold bind. rewrite checkpoint_decision_run. reflexivity.
Qed.

Lemma validation_phase_same_model (cfg : config) (epoch : Z) (s : state) :
  net (snd (validation_phase cfg epoch s)) = net s /\
  best2dmetric (snd (validation_phase cfg epoch s)) = best2dmetric s /\
  best3dmetric (snd (validation_phase cfg epoch s)) = best3dmetric s /\
  files (snd (validation_phase cfg epoch s)) = files s.
Proof.
  rewrite validation_phase_unfold.
  destruct (metric_phase_same_model (Valid epoch)
              (denormalize_valid (min_scale cfg) (max_scale cfg))
              false (valid_loader cfg)
              (log EvNetEval (with_training false s)))
    as (H1 & _ & H2 & H3 & H4).
  rewrite H1, H2, H3, H4. repeat split.
Qed.

(** C2. After a validation phase both checks run, each on its own metric:
    the 2D tracker and the file [2dbestnet.pth] change exactly when
    [F1 > best2dmetric], the 3D tracker and the file [3dbestnet.pth] exactly
    when [RMSE2 < best3dmetric]; either, both or neither save happens, and
    the outcome for one task is a function of that task's metric and
    tracker alone.  Across any sequence of epochs [best2dmetric] never
    decreases and [best3dmetric] never increases, so that over the whole
    loop they stay on the right side of their initial values 0 and
    1000000.  And the loop does run both checks in every epoch: an epoch
    whose training and validation phases return ends by applying this
    decision to the metrics that its own validation phase returned, against
    the trackers and checkpoint files the earlier epochs left, saving the
    parameters as this epoch's training left them, and then writes its
    record; the loop is the sequence of these epochs, started from the
    trackers 0 and 1000000. *)
Theorem checkpoints_independent_monotone :
  (forall (m : phase_metrics) (s : state),
      let up2 := pygt (m_F1 m) (best2dmetric s) in
      let up3 := pylt (m_RMSE2 m) (best3dmetric s) in
      let s' := snd (checkpoint_decision m s) in
      fst (checkpoint_decision m s) = Ok tt /\
      best2dmetric s' = (if up2 then m_F1 m else best2dmetric s) /\
      files s' "2dbestnet.pth"%string
      = (if up2 then Some (state_dict (net s))
         else files s "2dbestnet.pth"%string) /\
      best3dmetric s' = (if up3 then m_RMSE2 m else best3dmetric s) /\
      files s' "3dbestnet.pth"%string
      = (if up3 then Some (state_dict (net s))
         else files s "3dbestnet.pth"%string) /\
      trace s'
      = (trace s
         ++ (if up2
             then [EvSave "2dbestnet.pth"; EvPrint "Best 2D model saved!"]
             else [])
         ++ (if up3
             then [EvSave "3dbestnet.pth"; EvPrint "Best 3D model saved!"]
             else []))%list) /\
  (forall (cfg : config) (epochs : list Z) (s : state),
      improved s (snd (for_each epochs (epoch_body cfg) s))) /\
  (forall (cfg : config) (s : state),
      pyle (PyInt 0) (best2dmetric (snd (training_loop cfg s))) /\
      pyle (best3dmetric (snd (training_loop cfg s))) (PyInt 1000000)) /\
  (forall (cfg : config) (epoch : Z) (s s1 s2 : state)
          (l : epoch_losses) (m : phase_metrics),
      train_phase cfg epoch s = (Ok l, s1) ->
      validation_phase cfg epoch s1 = (Ok m, s2) ->
      let up2 := pygt (m_F1 m) (best2dmetric s) in
      let up3 := pylt (m_RMSE2 m) (best3dmetric s) in
      let s' := snd (epoch_body cfg epoch s) in
      epoch_body cfg epoch s
      = (Ok tt,
         log (EvStats (epoch_record epoch l m))
             (snd (checkpoint_decision m s2))) /\
      best2dmetric s' = (if up2 then m_F1 m else best2dmetric s) /\
      files s' "2dbestnet.pth"%string
      = (if up2 then Some (state_dict (net s1))
         else files s "2dbestnet.pth"%string) /\
      best3dmetric s' = (if up3 then m_RMSE2 m else best3dmetric s) /\
      files s' "3dbestnet.pth"%string
      = (if up3 then Some (state_dict (net s1))
         else files s "3dbestnet.pth"%string) /\
      trace s'
      = (trace s2
         ++ (if up2
             then [EvSave "2dbestnet.pth"; EvPrint "Best 2D model saved!"]
             else [])
         ++ (if up3
             then [EvSave "3dbestnet.pth"; EvPrint "Best 3D model saved!"]
             else [])
         ++ [EvStats (epoch_record epoch l m)])%list) /\
  (forall (cfg : config) (s : state),
      training_loop cfg s
      = for_each (py_range 1 (nepochs cfg)) (epoch_body cfg)
          (log EvNetTrain
             (with_training true
                (with_best3d (PyInt 1000000) (with_best2d (PyInt 0) s))))).
Proof.
  assert (Hdec : forall (m : phase_metrics) (s : state),
      let up2 := pygt (m_F1 m) (best2dmetric s) in
      let up3 := pylt (m_RMSE2 m) (best3dmetric s) in
      let s' := snd (checkpoint_decision m s) in
      fst (checkpoint_decision m s) = Ok tt /\
      best2dmetric s' = (if up2 then m_F1 m else best2dmetric s) /\
      files s' "2dbestnet.pth"%string
      = (if up2 then Some (state_dict (net s))
         else files s "2dbestnet.pth"%string) /\
      best3dmetric s' = (if up3 then m_RMSE2 m else best3dmetric s) /\
      files s' "3dbestnet.pth"%string
      = (if up3 then Some (state_dict (net s))
         else files s "3dbestnet.pth"%string) /\
      trace s'
      = (trace s
         ++ (if up2
             then [EvSave "2dbestnet.pth"; EvPrint "Best 2D model saved!"]
             else [])
         ++ (if up3
             then [EvSave "3dbestnet.pth"; EvPrint "Best 3D model saved!"]
             else []))%list).
  { intros m s. cbv zeta. rewrite checkpoint_decision_run. cbv zeta.
    destruct (pygt (m_F1 m) (best2dmetric s));
      cbn [best3dmetric log with_file with_best2d];
      destruct (pylt (m_RMSE2 m) (best3dmetric s));
      cbn; rewrite <- ?app_assoc, ?app_nil_r; repeat split; reflexivity. }
  split; [exact Hdec |]. split; [| split; [| split]].
  - intros cfg epochs s.
    apply (preserves_for_each _ _ improved_refl improved_trans).
    apply epoch_body_improved.
  - intros cfg s. unfold training_loop.
    set (loop := for_each (py_range 1 (nepochs cfg)) (epoch_body cfg)).
    change (improved
              (log EvNetTrain
                 (with_training true
                    (with_best3d (PyInt 1000000) (with_best2d (PyInt 0) s))))
              (snd (loop
                 (log EvNetTrain
                    (with_training true
                       (with_best3d (PyInt 1000000)
                          (with_best2d (PyInt 0) s))))))).
    apply (preserves_for_each _ _ improved_refl improved_trans).
    apply epoch_body_improved.
  - intros cfg epoch s s1 s2 l m E E'. cbv zeta.
    rewrite (epoch_body_run _ _ _ _ _ _ _ E E'). cbn [snd].
    destruct (train_phase_state cfg epoch s) as (_ & T2 & T3 & Tf & _).
    rewrite E in T2, T3, Tf. cbn [snd] in T2, T3, Tf.
    destruct (validation_phase_same_model cfg epoch s1)
      as (V1 & V2 & V3 & Vf).
    rewrite E' in V1, V2, V3, Vf. cbn [snd] in V1, V2, V3, Vf.
    destruct (Hdec m s2) as (_ & D2 & Df2 & D3 & Df3 & Dt).
    cbv zeta in D2, Df2, D3, Df3, Dt.
    cbn [log best2dmetric best3dmetric files trace].
    rewrite D2, Df2, D3, Df3, Dt, V1, V2, V3, Vf, T2, T3, Tf.
    rewrite <- !app_assoc. repeat split.
  - intros cfg s. apply training_loop_unfold.
Qed.

Lemma epoch_body_eval (cfg : config) (epoch : Z) (s s1 : state)
    (l : epoch_losses) :
  train_phase cfg epoch s = (Ok l, s1) ->
  training (snd (epoch_body cfg epoch s)) = false /\
  exists evs1,
    trace (snd (epoch_body cfg epoch s))
    = (trace s1 ++ EvNetEval :: evs1)%list /\
    ~ In EvNetTrain evs1.
Proof.
  intro E. rewrite (epoch_body_unfold _ _ _ _ _ E).
  set (Q := fun ev : event => ev <> EvNetTrain).
  assert (Qp : forall msg, Q (EvPrint msg)) by (intros msg H; discriminate).
  assert (Qs : forall name, Q (EvSave name)) by (intros msg H; discriminate).
  set (s1' := log EvNetEval (with_training false s1)).
  assert (Qf : Q (EvForward (Valid epoch) false))
    by (intro H; discriminate).
  pose proof (metric_phase_observes false Q Qp (Valid epoch)
                (denormalize_valid (min_scale cfg) (max_scale cfg))
                false (valid_loader cfg) Qf s1' eq_refl)
    as (Ht2 & evs2 & E2 & F2).
  destruct (metric_phase (Valid epoch) _ false (valid_loader cfg) s1')
    as [[m | x] s2] eqn:E'; cbn [fst snd] in *.
  - rewrite (bind_ok _ _ _ _ _ E').
    pose proof (checkpoint_decision_observes false Q Qp Qs m s2 Ht2)
      as (Ht3 & evs3 & E3 & F3).
    pose proof (checkpoint_decision_run m s2) as Hrun.
    destruct (checkpoint_decision m s2) as [r3 s3] eqn:E3'.
    injection Hrun as Hr3 _. subst r3.
    rewrite (bind_ok _ _ _ _ _ E3'). cbn [fst snd] in *.
    cbn [emit modify snd log training trace]. split; [exact Ht3 |].
    exists (evs2 ++ evs3 ++ [EvStats (epoch_record epoch l m)])%list.
    split.
    + rewrite E3, E2. unfold s1'. cbn [log trace with_training].
      rewrite <- !app_assoc. reflexivity.
    + intro Hin. apply in_app_or in Hin. destruct Hin as [Hin | Hin].
      * rewrite Forall_forall in F2. exact (F2 _ Hin eq_refl).
      * apply in_app_or in Hin. destruct Hin as [Hin | Hin].
        -- rewrite Forall_forall in F3. exact (F3 _ Hin eq_refl).
        -- destruct Hin as [Hin | []]. discriminate Hin.
  - rewrite (bind_raise _ _ _ _ _ E'). cbn [fst snd].
    split; [exact Ht2 |].
    exists evs2. split.
    + rewrite E2. unfold s1'. cbn [log trace with_training].
      rewrite <- !app_assoc. reflexivity.
    + intro Hin. rewrite Forall_forall in F2. exact (F2 _ Hin eq_refl).
Qed.

Lemma epoch_body_ok_eval (cfg : config) (epoch : Z) (s : state) :
  is_ok (fst (epoch_body cfg epoch s)) = true ->
  training (snd (epoch_body cfg epoch s)) = false.
Proof.
  intro Hok.
  destruct (train_phase cfg epoch s) as [[l | x] s1] eqn:E.
  - exact (proj1 (epoch_body_eval cfg epoch s s1 l E)).
  - unfold epoch_body in Hok. rewrite (bind_raise _ _ _ _ _ E) in Hok.
    discriminate Hok.
Qed.

Lemma epochs_ok_eval (cfg : config) (epochs : list Z) :
  forall s : state,
    epochs <> [] ->
    is_ok (fst (for_each epochs (epoch_body cfg) s)) = true ->
    training (snd (for_each epochs (epoch_body cfg) s)) = false.
Proof.
  induction epochs as [| e rest IH]; intros s Hne Hok; [congruence |].
  cbn [for_each] in *. unfold bind in *.
  pose proof (epoch_body_ok_eval cfg e s) as He.
  destruct (epoch_body cfg e s) as [[[] | x] s1]; cbn [fst snd is_ok] in *;
    [| discriminate].
  destruct rest as [| e' rest'].
  - cbn [for_each ret snd]. apply He. reflexivity.
  - apply IH; [discriminate | exact Hok].
Qed.

(** C10. Over the whole epoch loop [net.train()] is called exactly once, as
    the first action, before any epoch; every validation phase begins by
    calling [net.eval()] and leaves the network in evaluation mode, and
    nothing puts it back in training mode.  Consequently the forward passes
    of the training batches run in training mode in epoch 1 only: in every
    later epoch they run in evaluation mode.  Validation forward passes
    always run in evaluation mode.  Every epoch of the loop whose training
    phase returns does call [net.eval()] and ends in evaluation mode; a
    training phase forwards every batch of its loader in the mode in which
    it is entered; and while epoch 1 is entered in training mode, every
    later epoch that the loop reaches is entered in evaluation mode. *)
Theorem eval_mode_after_first_epoch (cfg : config) (s : state) :
  (exists evs,
      trace (snd (training_loop cfg s))
      = (trace s ++ EvNetTrain :: evs)%list /\
      ~ In EvNetTrain evs /\
      (forall e m, In (EvForward (Train e) m) evs -> m = (e =? 1)%Z) /\
      (forall e m, In (EvForward (Valid e) m) evs -> m = false)) /\
  (forall (epoch : Z) (s1 : state),
      training (snd (validation_phase cfg epoch s1)) = false /\
      exists evs1,
        trace (snd (validation_phase cfg epoch s1))
        = (trace s1 ++ EvNetEval :: evs1)%list /\
        ~ In EvNetTrain evs1) /\
  (forall (epoch : Z) (s0 s1 : state) (l : epoch_losses),
      train_phase cfg epoch s0 = (Ok l, s1) ->
      training (snd (epoch_body cfg epoch s0)) = false /\
      exists evs1,
        trace (snd (epoch_body cfg epoch s0))
        = (trace s1 ++ EvNetEval :: evs1)%list /\
        ~ In EvNetTrain evs1) /\
  (forall (epoch : Z) (s0 : state),
      training (snd (train_phase cfg epoch s0)) = training s0 /\
      trace (snd (train_phase cfg epoch s0))
      = (trace s0
         ++ map (fun _ => EvForward (Train epoch) (training s0))
                (train_loader cfg epoch))%list) /\
  (let entry :=
     log EvNetTrain
       (with_training true
          (with_best3d (PyInt 1000000) (with_best2d (PyInt 0) s))) in
   training entry = true /\
   training_loop cfg s
   = for_each (py_range 1 (nepochs cfg)) (epoch_body cfg) entry /\
   forall e : Z,
     (1 < e < nepochs cfg)%Z ->
     let before := for_each (py_range 1 e) (epoch_body cfg) entry in
     is_ok (fst before) = true ->
     training (snd before) = false /\
     training_loop cfg s
     = for_each (py_range e (nepochs cfg)) (epoch_body cfg) (snd before)).
Proof.
  split; [| split; [| split; [| split]]].
  - destruct (training_loop_events cfg s) as (evs & E & F).
    exists evs. rewrite Forall_forall in F.
    split; [exact E |]. split; [| split].
    + intro Hin. destruct (F _ Hin) as (e & He). exact He.
    + intros e m Hin. destruct (F _ Hin) as (e' & He' & Hm).
      subst e'. exact Hm.
    + intros e m Hin. destruct (F _ Hin) as (e' & He' & Hm). exact Hm.
  - intros epoch s1. rewrite validation_phase_unfold.
    set (s1' := log EvNetEval (with_training false s1)).
    pose proof (metric_phase_observes false (epoch_event epoch false)
                  (fun _ => I) (Valid epoch)
                  (denormalize_valid (min_scale cfg) (max_scale cfg))
                  false (valid_loader cfg) (conj eq_refl eq_refl)
                  s1' eq_refl) as (Ht & evs1 & E1 & F1).
    split; [exact Ht |].
    exists evs1. split.
    + rewrite E1. unfold s1'. simpl. rewrite <- app_assoc. reflexivity.
    + intro Hin. rewrite Forall_forall in F1. exact (F1 _ Hin).
  - intros epoch s0 s1 l E. exact (epoch_body_eval cfg epoch s0 s1 l E).
  - intros epoch s0.
    destruct (train_phase_state cfg epoch s0) as (Ht & _ & _ & _ & Htr).
    split; assumption.
  - cbv zeta. split; [reflexivity |].
    split; [apply training_loop_unfold |].
    intros e He Hok.
    split.
    + apply epochs_ok_eval; [| exact Hok].
      rewrite (py_range_cons 1 e) by lia. discriminate.
    + rewrite training_loop_unfold.
      rewrite (py_range_split 1 e (nepochs cfg)) by lia.
      rewrite for_each_app.
      destruct (for_each (py_range 1 e) (epoch_body cfg) _)
        as [[[] | x] s'] eqn:E; cbn [fst snd is_ok] in *;
        [reflexivity | discriminate].
Qed.

End Loop.

Lemma checkpoints_independent_monotone_witness :
  exists (l : epoch_losses) (s1 : @state stub) (m : phase_metrics)
         (s2 : @state stub),
    @train_phase stub three_epoch_config 1 start = (Ok l, s1) /\
    @validation_phase stub three_epoch_config 1 s1 = (Ok m, s2) /\
    @epoch_body stub three_epoch_config 1 start
    = (Ok tt,
       log (EvStats (epoch_record 1 l m))
           (snd (@checkpoint_decision stub m s2))) /\
    @files stub (snd (@epoch_body stub three_epoch_config 1 start))
      "2dbestnet.pth"%string = Some 1%nat.
Proof.
  eexists. eexists. eexists. eexists.
  split; [cbv; reflexivity |]. split; [cbv; reflexivity |].
  split; [| reflexivity].
  refine (proj1 (proj1 (proj2 (proj2 (proj2
                          (@checkpoints_independent_monotone stub))))
                   three_epoch_config 1%Z start _ _ _ _ _ _));
    cbv; reflexivity.
Defined.

Lemma eval_mode_after_first_epoch_witness :
  (1 < 2 < @nepochs stub three_epoch_config)%Z /\
  is_ok (fst (for_each (py_range 1 2) (@epoch_body stub three_epoch_config)
                       (log EvNetTrain
                          (with_training true
                             (with_best3d (PyInt 1000000)
                                (with_best2d (PyInt 0) start))))))
  = true /\
  training (snd (for_each (py_range 1 2)
                          (@epoch_body stub three_epoch_config)
                          (log EvNetTrain
                             (with_training true
                                (with_best3d (PyInt 1000000)
                                   (with_best2d (PyInt 0) start))))))
  = false.
Proof.
  split; [simpl; lia |]. split; [reflexivity |].
  apply (proj2 (proj2 (proj2 (proj2 (proj2 (proj2
           (@eval_mode_after_first_epoch stub three_epoch_config start))))))
           2%Z); [simpl; lia | reflexivity].
Defined.
